(** * AgenticCloudServiceValidator: the validation pipeline, embedded in Rocq

    A shallow embedding of the pipeline stages of the repository
    (credential resolver, data fetcher, cross-verification, anomaly
    aggregation, alert dispatch, orchestrator), of the handlers of the
    stages and of the scheduler, with the properties the specification
    states about them and further properties of the code.

    Conventions of the embedding.
    - Python values that come out of [json.loads] (and everything built
      from them) are values of [pyval]; a [dict] with string keys whose
      iteration order does not matter is a [gmap string _].
    - Code that may raise returns in the monad [M]: a computation takes the
      current [World] (the history of external interactions and the wall
      clock) and returns either a value or the raised exception together
      with the new world.  [try_except] is Python's [try/except Exception];
      the exceptions are the subclasses of [Exception] (the cancellation
      of a task, a [BaseException], is not part of the model).
    - Everything outside the repository (HTTP endpoints, the chat agents,
      [json.loads], the token services, the workflow runtime) is an oracle
      of the environment record [Env]; the oracles see the history, so two
      calls with the same arguments may answer differently.
    - Time is counted in microseconds (the resolution of [datetime]).
      [datetime.utcnow()] reads the wall clock, which the environment moves
      between two readings by an amount of its choice: forwards, or
      backwards when the clock is set back.  Durations are rationals.
    - Strings are sequences of 8-bit characters read as the code points
      0..255. *)

From stdpp Require Import base option list gmap strings pretty.
From Stdlib Require Import ZArith QArith Ascii.

Set Default Proof Using "Type".
Set Warnings "-register-all".
Local Open Scope Z_scope.

(** ** Python values *)

Inductive pyval : Type :=
| PNone
| PBool (b : bool)
| PInt (z : Z)
| PFloat (q : Q)
| PStr (s : string)
| PList (l : list pyval)
| PDict (d : list (string * pyval)).

(** Truth value of a Python object ([bool(v)]). *)
Definition truthy (v : pyval) : bool :=
  match v with
  | PNone => false
  | PBool b => b
  | PInt z => negb (z =? 0)
  | PFloat q => negb (Qnum q =? 0)
  | PStr s => negb (String.eqb s "")
  | PList l => match l with [] => false | _ => true end
  | PDict d => match d with [] => false | _ => true end
  end.

(** Truth value of a string, of an optional string, of a dict. *)
Definition str_truthy (s : string) : bool := negb (String.eqb s "").

Definition opt_truthy (o : option string) : bool :=
  match o with
  | Some s => str_truthy s
  | None => false
  end.

Definition dict_truthy {V} (d : gmap string V) : bool :=
  negb (bool_decide (d = ∅)).

Definition is_some {A} (o : option A) : bool :=
  match o with
  | Some _ => true
  | None => false
  end.

(** [d.get(k)] on the entries of a dict as [json.loads] built it. *)
Fixpoint dict_lookup (k : string) (d : list (string * pyval)) : option pyval :=
  match d with
  | [] => None
  | (k', v) :: d' => if String.eqb k k' then Some v else dict_lookup k d'
  end.

Definition dict_get (k : string) (default : pyval) (d : list (string * pyval)) : pyval :=
  match dict_lookup k d with
  | Some v => v
  | None => default
  end.

(** ** Strings *)

Fixpoint drop_string (n : nat) (s : string) : string :=
  match n, s with
  | O, _ => s
  | S n', String _ s' => drop_string n' s'
  | S _, EmptyString => EmptyString
  end.

(** The text before and after the leftmost occurrence of [sep]. *)
Fixpoint split_first (sep s : string) : option (string * string) :=
  if String.prefix sep s
  then Some (EmptyString, drop_string (String.length sep) s)
  else match s with
       | EmptyString => None
       | String c s' =>
           match split_first sep s' with
           | Some (before, after) => Some (String c before, after)
           | None => None
           end
       end.

(** [sep in s] *)
Definition str_contains (sep s : string) : bool :=
  match split_first sep s with
  | Some _ => true
  | None => false
  end.

(** [s.split(sep)[0]] *)
Definition split_0 (sep s : string) : string :=
  match split_first sep s with
  | Some (before, _) => before
  | None => s
  end.

(** [s.split(sep)[1]]; [None] stands for the [IndexError]. *)
Definition split_1 (sep s : string) : option string :=
  match split_first sep s with
  | Some (_, after) => Some (split_0 sep after)
  | None => None
  end.

(** [str.isspace] on the code points below 256. *)
Definition is_space (c : ascii) : bool :=
  let n := nat_of_ascii c in
  ((9 <=? n)%nat && (n <=? 13)%nat)
  || ((28 <=? n)%nat && (n <=? 32)%nat)
  || (n =? 133)%nat || (n =? 160)%nat.

Fixpoint lstrip_by (p : ascii -> bool) (s : string) : string :=
  match s with
  | EmptyString => EmptyString
  | String c s' => if p c then lstrip_by p s' else s
  end.

Fixpoint rstrip_by (p : ascii -> bool) (s : string) : string :=
  match s with
  | EmptyString => EmptyString
  | String c s' =>
      match rstrip_by p s' with
      | EmptyString => if p c then EmptyString else String c EmptyString
      | r => String c r
      end
  end.

(** [s.strip()] *)
Definition strip (s : string) : string := rstrip_by is_space (lstrip_by is_space s).

(** The reply of a chat agent on its way to [json.loads]:
    [text.strip()], then the inside of the first code fence if there is
    one ([split(fence)[1].split("```")[0].strip()]); [None] stands for the
    [IndexError] of an index that is not there. *)
Definition fenced_json_text (text : string) : option string :=
  let response_text := strip text in
  if str_contains "```json" response_text then
    match split_1 "```json" response_text with
    | Some part => Some (strip (split_0 "```" part))
    | None => None
    end
  else if str_contains "```" response_text then
    match split_1 "```" response_text with
    | Some part => Some (strip (split_0 "```" part))
    | None => None
    end
  else Some response_text.

(** ** Exceptions *)

Inductive ExnClass : Type :=
| HTTPError            (* httpx.HTTPError and its subclasses *)
| AuthenticationError  (* src.auth.handler.AuthenticationError *)
| ValidationError      (* pydantic *)
| TypeError
| AttributeError
| KeyError
| IndexError
| JSONDecodeError
| OtherException.      (* any other subclass of Exception *)

(** An exception object: its class and [str(e)]. *)
Record Exn : Type := mkExn { exn_class : ExnClass; exn_str : string }.

Inductive result (A : Type) : Type :=
| Ok (a : A)
| Raise (e : Exn).
Arguments Ok {A} a.
Arguments Raise {A} e.

(** ** The data model ([src/models.py]) *)

Inductive AuthType : Type :=
| API_KEY | BEARER_TOKEN | OAUTH2 | BASIC_AUTH | SERVICE_PRINCIPAL | CUSTOM.

Inductive ValidationStatus : Type :=
| PENDING | IN_PROGRESS | COMPLETED | FAILED | CANCELLED.

Inductive AnomalySeverity : Type :=
| LOW | MEDIUM | HIGH | CRITICAL.

(** [severity.value] *)
Definition severity_value (s : AnomalySeverity) : string :=
  match s with
  | LOW => "low"
  | MEDIUM => "medium"
  | HIGH => "high"
  | CRITICAL => "critical"
  end.

(** Identifiers ([uuid.UUID]) are 128-bit numbers; timestamps are
    microseconds. *)
Abbreviation UUID := N.
Abbreviation datetime := Z.

Module AuthConfig.
Record t : Type := mk {
  auth_type : AuthType;
  credentials : gmap string string;
  headers : option (gmap string string);
  token_endpoint : option string
}.
End AuthConfig.

Module DependentService.
Record t : Type := mk {
  service_id : string;
  service_name : string;
  service_type : string;
  endpoint : string;
  auth_config : AuthConfig.t;
  health_check_path : option string;
  timeout_seconds : Z
}.
End DependentService.

Module ValidationRule.
Record t : Type := mk {
  rule_id : string;
  rule_name : string;
  description : string;
  source_service : string;
  target_service : option string;
  validation_query : option string;
  expected_fields : list string;
  comparison_logic : option string
}.
End ValidationRule.

Module ServiceConfig.
Record t : Type := mk {
  config_id : UUID;
  config_name : string;
  primary_service : DependentService.t;
  dependent_services : list DependentService.t;
  validation_rules : list ValidationRule.t;
  schedule_cron : option string;
  validation_interval_minutes : Z;
  enabled : bool
}.
End ServiceConfig.

Module DataSnapshot.
Record t : Type := mk {
  service_id : string;
  fetched_at : datetime;
  data : list (string * pyval);
  record_count : Z;
  fetch_duration_ms : Q;
  success : bool;
  error_message : option string
}.
End DataSnapshot.

Module ValidationResult.
Record t : Type := mk {
  validation_id : UUID;
  config_id : UUID;
  status : ValidationStatus;
  started_at : datetime;
  completed_at : option datetime;
  duration_seconds : option Q;
  data_snapshots : list DataSnapshot.t;
  rules_checked : Z;
  rules_passed : Z;
  rules_failed : Z;
  anomalies_detected : Z;
  error_message : option string;
  details : list (string * pyval)
}.
End ValidationResult.

Module Anomaly.
Record t : Type := mk {
  anomaly_id : UUID;
  validation_id : UUID;
  rule_id : string;
  severity : AnomalySeverity;
  detected_at : datetime;
  service_id : string;
  anomaly_type : string;
  description : string;
  affected_records : Z;
  sample_data : option (list (string * pyval));
  expected_value : pyval;
  actual_value : pyval;
  deviation_percentage : option Q
}.
End Anomaly.

Module AnomalyReport.
Record t : Type := mk {
  report_id : UUID;
  validation_id : UUID;
  generated_at : datetime;
  total_anomalies : Z;
  critical_count : Z;
  high_count : Z;
  medium_count : Z;
  low_count : Z;
  anomalies : list Anomaly.t;
  recommendations : list string;
  alert_triggered : bool;
  alert_sent_at : option datetime
}.
End AnomalyReport.

Module AlertConfig.
Record t : Type := mk {
  alert_id : UUID;
  config_id : UUID;
  enabled : bool;
  anomaly_count_threshold : Z;
  critical_severity_threshold : Z;
  high_severity_threshold : Z;
  email_enabled : bool;
  email_recipients : list string;
  slack_enabled : bool;
  slack_webhook : option string;
  webhook_enabled : bool;
  webhook_url : option string
}.
End AlertConfig.

(** [agents/verification_agent.py]: a plain class, so [passed] and
    [message] hold whatever the caller passes in. *)
Module VerificationResult.
Record t : Type := mk {
  rule_id : string;
  passed : pyval;
  message : pyval;
  details : pyval
}.
End VerificationResult.

(** An entry of [asyncio.gather(..., return_exceptions=True)]. *)
Inductive TaskOutcome : Type :=
| Returned (v : pyval)
| Raised (e : Exn).

(** The dict handed from stage to stage and finally yielded by the alert
    stage, with the keys the stages read or write; [None] is a missing
    key.  A value of [alert_results] is [None] for Python's [None]. *)
Module WorkflowData.
Record t : Type := mk {
  validation_id : option UUID;
  config_name : option string;
  snapshots : option (list DataSnapshot.t);
  verification_results : option (list VerificationResult.t);
  anomaly_report : option AnomalyReport.t;
  alerts_sent : option bool;
  alert_results : option (gmap string (option TaskOutcome));
  alert_message : option string;
  other_keys : list (string * pyval)
}.

(** [bool(d)]: a dict is true when it has a key. *)
Definition nonempty (d : t) : bool :=
  is_some (validation_id d) || is_some (config_name d)
  || is_some (snapshots d) || is_some (verification_results d)
  || is_some (anomaly_report d) || is_some (alerts_sent d)
  || is_some (alert_results d) || is_some (alert_message d)
  || match other_keys d with [] => false | _ => true end.
End WorkflowData.

(** Events of [workflow.run_stream]. *)
Inductive WorkflowEvent : Type :=
| WorkflowOutputEvent (data : WorkflowData.t)
| OtherWorkflowEvent.

(** An [httpx.Response], as far as the code looks at it. *)
Module Response.
Record t : Type := mk {
  status_code : Z;
  content_type : option string;   (* headers.get("content-type") *)
  text : string;
  json : result pyval             (* outcome of response.json() *)
}.
End Response.

(** ** The monad of effects *)

(** The four chat agents the orchestrator creates. *)
Inductive AgentRole : Type :=
| FetcherChat | VerifierChat | AnomalyChat | AlertChat.

(** External interactions, in the order they happen (newest first in the
    history). *)
Inductive Event : Type :=
| EvClock
| EvUuid
| EvGet (url : string)
| EvTokenPost (url : string)
| EvAzureToken (scope : string)
| EvPost (url : string)
| EvAgentRun (agent : AgentRole) (prompt : string)
| EvCreateWorkflow
| EvRunStream.

(** The state of the program and of its surroundings: the history of
    interactions, the wall clock, and the registry of the module-level
    [orchestration_service] ([_active_validations]). *)
Record World : Type := mkWorld {
  history : list Event;
  clock : Z;
  _active_validations : gmap UUID ValidationResult.t
}.

Definition M (A : Type) : Type := World -> result A * World.

Definition ret {A} (a : A) : M A := fun w => (Ok a, w).

Definition raise {A} (e : Exn) : M A := fun w => (Raise e, w).

Definition bind {A B} (m : M A) (f : A -> M B) : M B :=
  fun w =>
    match m w with
    | (Ok a, w') => f a w'
    | (Raise e, w') => (Raise e, w')
    end.

#[global] Instance M_ret : MRet M := @ret.
#[global] Instance M_bind : MBind M := fun A B f m => bind m f.

(** [try: body  except Exception as e: handler(e)] *)
Definition try_except {A} (body : M A) (handler : Exn -> M A) : M A :=
  fun w =>
    match body w with
    | (Ok a, w') => (Ok a, w')
    | (Raise e, w') => handler e w'
    end.

(** A pure step that may raise. *)
Definition lift {A} (r : result A) : M A := fun w => (r, w).

(** One external interaction: the oracle answers from the history, and the
    interaction is recorded. *)
Definition perform {A} (ev : Event) (answer : list Event -> result A) : M A :=
  fun w => (answer (history w),
            mkWorld (ev :: history w) (clock w) (_active_validations w)).

(** ** The environment *)

Record Env : Type := mkEnv {
  (* microseconds by which the wall clock has moved at its next reading;
     negative when the clock was set back *)
  tick : list Event -> Z;
  uuid4 : list Event -> UUID;
  (* client.get(url, headers=...) under a timeout *)
  http_get : list Event -> string -> gmap string string -> Z -> result Response.t;
  (* response.raise_for_status(): the text of the HTTPStatusError, if any *)
  raise_for_status : Response.t -> option string;
  (* the OAuth2 token request *)
  token_post : list Event -> string -> gmap string string -> result Response.t;
  (* azure.identity: importable?  credential.get_token(scope).token *)
  azure_identity_installed : bool;
  azure_get_token : list Event -> string -> string -> string -> string -> result string;
  (* client.post(url, json=...): the status code *)
  http_post : list Event -> string -> result Z;
  (* agent.run(messages).text *)
  agent_run : list Event -> AgentRole -> string -> result string;
  create_workflow :
    list Event -> ServiceConfig.t -> option AlertConfig.t -> result unit;
  run_stream : list Event -> list DependentService.t -> result (list WorkflowEvent);
  json_loads : string -> result pyval;
  b64encode : string -> string;
  (* str(v) of a value that is not a string *)
  py_repr : pyval -> string;
  (* wording of the interpreter's and pydantic's own errors *)
  error_text : ExnClass -> string;
  (* The wording of the prompts and of the templated alert text is not
     modelled: each is a function of the values it is formatted from, and
     a prompt may fail to render (json.dumps). *)
  structure_prompt : DependentService.t -> pyval -> result string;
  cross_verify_prompt :
    ValidationRule.t -> DataSnapshot.t -> DataSnapshot.t -> result string;
  single_verify_prompt : ValidationRule.t -> DataSnapshot.t -> result string;
  recommendations_prompt : list Anomaly.t -> result string;
  alert_prompt : AnomalyReport.t -> string -> option UUID -> datetime -> result string;
  fallback_alert_text : AnomalyReport.t -> string -> option UUID -> datetime -> string
}.

(** ** Primitives over the environment *)

Section Primitives.
Context (env : Env).

(** [datetime.utcnow()] *)
Definition utcnow : M datetime :=
  fun w =>
    let t := clock w + tick env (history w) in
    (Ok t, mkWorld (EvClock :: history w) t (_active_validations w)).

(** [uuid4()] *)
Definition new_uuid : M UUID := perform EvUuid (fun h => Ok (uuid4 env h)).

(** An error raised by the interpreter or by pydantic. *)
Definition py_error {A} (c : ExnClass) : M A := raise (mkExn c (error_text env c)).

(** [v.get(k, default)] *)
Definition py_get (v : pyval) (k : string) (default : pyval) : M pyval :=
  match v with
  | PDict d => ret (dict_get k default d)
  | _ => py_error AttributeError
  end.

(** [k in v] for a string [k] *)
Definition py_contains_str (k : string) (v : pyval) : M bool :=
  match v with
  | PDict d => ret (is_some (dict_lookup k d))
  | PList l =>
      ret (existsb (fun x => match x with PStr s => String.eqb s k | _ => false end) l)
  | PStr s => ret (str_contains k s)
  | _ => py_error TypeError
  end.

(** [v[k]] for a string [k] *)
Definition py_getitem_str (v : pyval) (k : string) : M pyval :=
  match v with
  | PDict d =>
      match dict_lookup k d with
      | Some x => ret x
      | None => py_error KeyError
      end
  | _ => py_error TypeError
  end.

(** [f"{v}"] *)
Definition py_format (v : pyval) : string :=
  match v with
  | PStr s => s
  | _ => py_repr env v
  end.

(** The text handed to [json.loads]: the reply stripped, and taken out
    of its code fence when it has one. *)
Definition extract_json_text (text : string) : M string :=
  match fenced_json_text text with
  | Some response_text => ret response_text
  | None => py_error IndexError
  end.

(** [DataSnapshot(...)]: pydantic checks the declared types and bounds. *)
Definition new_DataSnapshot (service_id : string) (fetched_at : datetime)
    (data : pyval) (record_count : Z) (fetch_duration_ms : Q)
    (success : bool) (error_message : option string) : M DataSnapshot.t :=
  match data with
  | PDict d =>
      if (0 <=? record_count) && (0 <=? Qnum fetch_duration_ms)
      then ret (DataSnapshot.mk service_id fetched_at d record_count
                  fetch_duration_ms success error_message)
      else py_error ValidationError
  | _ => py_error ValidationError
  end.
End Primitives.

(** ** Credential resolver ([src/auth/handler.py]) *)

Module AuthHandler.
Section WithEnv.
Context (env : Env).

Definition _handle_api_key (auth_config : AuthConfig.t) : M (gmap string string) :=
  let api_key := AuthConfig.credentials auth_config !! "api_key" in
  if negb (opt_truthy api_key)
  then raise (mkExn AuthenticationError "API key not provided in credentials")
  else
    let header_name :=
      default "X-API-Key" (AuthConfig.credentials auth_config !! "header_name") in
    ret {[ header_name := default "" api_key ]}.

Definition _handle_bearer_token (auth_config : AuthConfig.t) : M (gmap string string) :=
  let token := AuthConfig.credentials auth_config !! "token" in
  if negb (opt_truthy token)
  then raise (mkExn AuthenticationError "Bearer token not provided in credentials")
  else ret {[ "Authorization" := "Bearer " +:+ default "" token ]}.

Definition _handle_basic_auth (auth_config : AuthConfig.t) : M (gmap string string) :=
  let username := AuthConfig.credentials auth_config !! "username" in
  let password := AuthConfig.credentials auth_config !! "password" in
  if negb (opt_truthy username) || negb (opt_truthy password)
  then raise (mkExn AuthenticationError "Username and password required for basic auth")
  else
    let credentials := default "" username +:+ ":" +:+ default "" password in
    let encoded := b64encode env credentials in
    ret {[ "Authorization" := "Basic " +:+ encoded ]}.

Definition _handle_oauth2 (endpoint : string) (auth_config : AuthConfig.t)
    : M (gmap string string) :=
  let client_id := AuthConfig.credentials auth_config !! "client_id" in
  let client_secret := AuthConfig.credentials auth_config !! "client_secret" in
  let token_endpoint := AuthConfig.token_endpoint auth_config in
  if negb (forallb opt_truthy [client_id; client_secret; token_endpoint])
  then raise (mkExn AuthenticationError
                "OAuth2 requires client_id, client_secret, and token_endpoint")
  else
    (* Check for existing access token *)
    let access_token := AuthConfig.credentials auth_config !! "access_token" in
    if opt_truthy access_token
    then ret {[ "Authorization" := "Bearer " +:+ default "" access_token ]}
    else
      (* Request new access token *)
      let grant_type :=
        default "client_credentials" (AuthConfig.credentials auth_config !! "grant_type") in
      let scope := default "" (AuthConfig.credentials auth_config !! "scope") in
      let url := default "" token_endpoint in
      let form : gmap string string :=
        {[ "grant_type" := grant_type;
           "client_id" := default "" client_id;
           "client_secret" := default "" client_secret;
           "scope" := scope ]} in
      response ← perform (EvTokenPost url) (fun h => token_post env h url form);
      if negb (Response.status_code response =? 200)
      then raise (mkExn AuthenticationError
                    ("OAuth2 token request failed: " +:+ Response.text response))
      else
        token_data ← lift (Response.json response);
        access_token ← py_get env token_data "access_token" PNone;
        if negb (truthy access_token)
        then raise (mkExn AuthenticationError "No access token in OAuth2 response")
        else ret {[ "Authorization" := "Bearer " +:+ py_format env access_token ]}.

(** The oracle [azure_get_token] stands for building the credential,
    [get_token(scope)] and [close()]. *)
Definition _handle_service_principal (auth_config : AuthConfig.t)
    : M (gmap string string) :=
  if negb (azure_identity_installed env)
  then raise (mkExn AuthenticationError
                "azure-identity package required for service principal auth")
  else
    let tenant_id := AuthConfig.credentials auth_config !! "tenant_id" in
    let client_id := AuthConfig.credentials auth_config !! "client_id" in
    let client_secret := AuthConfig.credentials auth_config !! "client_secret" in
    let scope :=
      default "https://management.azure.com/.default"
        (AuthConfig.credentials auth_config !! "scope") in
    if negb (forallb opt_truthy [tenant_id; client_id; client_secret])
    then raise (mkExn AuthenticationError
                  "Service Principal requires tenant_id, client_id, and client_secret")
    else
      token ← perform (EvAzureToken scope)
                (fun h => azure_get_token env h (default "" tenant_id)
                            (default "" client_id) (default "" client_secret) scope);
      ret {[ "Authorization" := "Bearer " +:+ token ]}.

Definition _handle_custom (auth_config : AuthConfig.t) : M (gmap string string) :=
  match AuthConfig.headers auth_config with
  | Some h => if dict_truthy h then ret h else ret (AuthConfig.credentials auth_config)
  | None => ret (AuthConfig.credentials auth_config)
  end.

(** [headers.update(d)]: the entries of [d] win. *)
Definition update (headers d : gmap string string) : gmap string string := d ∪ headers.

Definition authenticate (endpoint : string) (auth_config : AuthConfig.t)
    (additional_headers : option (gmap string string)) : M (gmap string string) :=
  let headers : gmap string string :=
    match additional_headers with
    | Some h => if dict_truthy h then h else ∅
    | None => ∅
    end in
  try_except
    (resolved ←
       match AuthConfig.auth_type auth_config with
       | API_KEY => _handle_api_key auth_config
       | BEARER_TOKEN => _handle_bearer_token auth_config
       | BASIC_AUTH => _handle_basic_auth auth_config
       | OAUTH2 => _handle_oauth2 endpoint auth_config
       | SERVICE_PRINCIPAL => _handle_service_principal auth_config
       | CUSTOM => _handle_custom auth_config
       end;
     let headers := update headers resolved in
     (* Merge any additional headers from config *)
     let headers :=
       match AuthConfig.headers auth_config with
       | Some h => if dict_truthy h then update headers h else headers
       | None => headers
       end in
     ret headers)
    (fun e => raise (mkExn AuthenticationError
                       ("Authentication failed: " +:+ exn_str e))).
End WithEnv.
End AuthHandler.

Module ServiceAuthenticator.
Definition get_authenticated_headers (env : Env) (service_id endpoint : string)
    (auth_config : AuthConfig.t) : M (gmap string string) :=
  AuthHandler.authenticate env endpoint auth_config None.
End ServiceAuthenticator.

(** ** Data fetcher ([agents/data_fetcher_agent.py]) *)

Module DataFetcherAgent.
Section WithEnv.
Context (env : Env).

(** Create a snapshot for failed data fetch. *)
Definition _create_error_snapshot (service : DependentService.t)
    (start_time : datetime) (error_message : string) : M DataSnapshot.t :=
  now ← utcnow env;
  let fetch_duration := (now - start_time) # 1000 in
  fetched_at ← utcnow env;
  new_DataSnapshot env (DependentService.service_id service) fetched_at
    (PDict []) 0 fetch_duration false (Some error_message).

(** Count the number of records in structured data. *)
Definition _count_records (data : pyval) : M Z :=
  has_records ← py_contains_str env "records" data;
  records ← (if has_records : bool
             then v ← py_getitem_str env data "records";
                  ret (match v with PList l => Some l | _ => None end)
             else ret None);
  match records with
  | Some l => ret (Z.of_nat (length l))
  | None =>
      match data with
      | PList l => ret (Z.of_nat (length l))
      | PDict (_ :: _) => ret 1
      | _ => ret 0
      end
  end.

Definition _structure_data_with_ai (service : DependentService.t)
    (raw_data : pyval) : M pyval :=
  try_except
    (prompt ← lift (structure_prompt env service raw_data);
     response_text ← perform (EvAgentRun FetcherChat prompt)
                       (fun h => agent_run env h FetcherChat prompt);
     response_text ← extract_json_text env response_text;
     lift (json_loads env response_text))
    (fun e =>
       (* Fallback to raw data if AI processing fails *)
       ret (PDict [("records",
                     match raw_data with
                     | PDict _ => PList [raw_data]
                     | _ => raw_data
                     end);
                   ("metadata", PDict [("processing_error", PStr (exn_str e))]);
                   ("raw_data", raw_data)])).

(** [url.rstrip('/')] on an endpoint: the field is declared [HttpUrl], and
    the URL objects of pydantic are no [str] and have no method [rstrip]. *)
Definition HttpUrl_rstrip (url : string) : M string := py_error env AttributeError.

(** [f"{service.endpoint.rstrip('/')}{service.health_check_path}"] *)
Definition health_url (service : DependentService.t) : M string :=
  endpoint ← HttpUrl_rstrip (DependentService.endpoint service);
  ret (endpoint +:+ default "" (DependentService.health_check_path service)).

(** The part of [_fetch_from_service] under its [try]. *)
Definition fetch_guarded (service : DependentService.t) (start_time : datetime)
    : M DataSnapshot.t :=
  headers ← ServiceAuthenticator.get_authenticated_headers env
              (DependentService.service_id service)
              (DependentService.endpoint service)
              (DependentService.auth_config service);
  (* First check health if configured *)
  health_failure ←
    (if opt_truthy (DependentService.health_check_path service)
     then
       health_url ← health_url service;
       try_except
         (health_response ←
            perform (EvGet health_url)
              (fun h => http_get env h health_url headers
                          (DependentService.timeout_seconds service));
          if 400 <=? Response.status_code health_response
          then
            snapshot ← _create_error_snapshot service start_time
                         ("Health check failed with status "
                          +:+ pretty (Response.status_code health_response));
            ret (Some snapshot)
          else ret None)
         (fun e =>
            snapshot ← _create_error_snapshot service start_time
                         ("Health check failed: " +:+ exn_str e);
            ret (Some snapshot))
     else ret None);
  match health_failure with
  | Some snapshot => ret snapshot
  | None =>
      (* Fetch actual data *)
      let url := DependentService.endpoint service in
      response ← perform (EvGet url)
                   (fun h => http_get env h url headers
                               (DependentService.timeout_seconds service));
      _ ← match raise_for_status env response with
          | Some text => raise (mkExn HTTPError text)
          | None => ret tt
          end;
      (* Parse response *)
      data ← (if str_contains "application/json"
                   (default "" (Response.content_type response))
              then lift (Response.json response)
              else ret (PDict [("raw_response", PStr (Response.text response))]));
      (* Use AI agent to extract and structure the data *)
      structured_data ← _structure_data_with_ai service data;
      now ← utcnow env;
      let fetch_duration := (now - start_time) # 1000 in
      fetched_at ← utcnow env;
      record_count ← _count_records structured_data;
      new_DataSnapshot env (DependentService.service_id service) fetched_at
        structured_data record_count fetch_duration true None
  end.

Definition is_http_error (e : Exn) : bool :=
  match exn_class e with
  | HTTPError => true
  | _ => false
  end.

Definition _fetch_from_service (service : DependentService.t) : M DataSnapshot.t :=
  start_time ← utcnow env;
  try_except (fetch_guarded service start_time)
    (fun e =>
       if is_http_error e
       then _create_error_snapshot service start_time ("HTTP error: " +:+ exn_str e)
       else _create_error_snapshot service start_time
              ("Unexpected error: " +:+ exn_str e)).
End WithEnv.
End DataFetcherAgent.

(** ** Cross-verification ([agents/verification_agent.py]) *)

Module CrossVerificationAgent.
Section WithEnv.
Context (env : Env).

(** [VerificationResult(rule_id, passed, message, details)]:
    [self.details = details or {}] *)
Definition new_VerificationResult (rule_id : string) (passed message : pyval)
    (details : option pyval) : VerificationResult.t :=
  VerificationResult.mk rule_id passed message
    (match details with
     | Some d => if truthy d then d else PDict []
     | None => PDict []
     end).

(** The body shared by [_ai_cross_verify] and [_ai_single_verify] once
    the prompt is rendered. *)
Definition ai_verify (rule : ValidationRule.t) (prompt : string)
    : M VerificationResult.t :=
  try_except
    (response_text ← perform (EvAgentRun VerifierChat prompt)
                       (fun h => agent_run env h VerifierChat prompt);
     (* Parse AI response *)
     response_text ← extract_json_text env response_text;
     result_data ← lift (json_loads env response_text);
     passed ← py_get env result_data "passed" (PBool false);
     message ← py_get env result_data "message" (PStr "Verification completed");
     ret (new_VerificationResult (ValidationRule.rule_id rule) passed message
            (Some result_data)))
    (fun e =>
       ret (new_VerificationResult (ValidationRule.rule_id rule) (PBool false)
              (PStr ("AI verification failed: " +:+ exn_str e)) None)).

Definition _ai_cross_verify (rule : ValidationRule.t)
    (source target : DataSnapshot.t) : M VerificationResult.t :=
  prompt ← lift (cross_verify_prompt env rule source target);
  ai_verify rule prompt.

Definition _ai_single_verify (rule : ValidationRule.t)
    (source : DataSnapshot.t) : M VerificationResult.t :=
  prompt ← lift (single_verify_prompt env rule source);
  ai_verify rule prompt.

(** [next((s for s in snapshots if s.service_id == sid), None)] *)
Definition find_snapshot (sid : string) (snapshots : list DataSnapshot.t)
    : option DataSnapshot.t :=
  List.find (fun s => String.eqb (DataSnapshot.service_id s) sid) snapshots.

(** The snapshot, unless [not snapshot or not snapshot.success]. *)
Definition available (snapshot : option DataSnapshot.t) : option DataSnapshot.t :=
  match snapshot with
  | Some s => if DataSnapshot.success s then Some s else None
  | None => None
  end.

Definition data_not_available (rule : ValidationRule.t) (role service : string)
    : VerificationResult.t :=
  new_VerificationResult (ValidationRule.rule_id rule) (PBool false)
    (PStr (role +:+ " service '" +:+ service +:+ "' data not available")) None.

Definition _verify_rule (rule : ValidationRule.t)
    (snapshots : list DataSnapshot.t) : M VerificationResult.t :=
  try_except
    ((* Find relevant snapshots *)
     match available (find_snapshot (ValidationRule.source_service rule) snapshots) with
     | None =>
         ret (data_not_available rule "Source" (ValidationRule.source_service rule))
     | Some source_snapshot =>
         (* If there's a target service for comparison *)
         if opt_truthy (ValidationRule.target_service rule)
         then
           let target_service := default "" (ValidationRule.target_service rule) in
           match available (find_snapshot target_service snapshots) with
           | None => ret (data_not_available rule "Target" target_service)
           | Some target_snapshot =>
               (* Use AI to perform cross-service verification *)
               _ai_cross_verify rule source_snapshot target_snapshot
           end
         else
           (* Single service validation *)
           _ai_single_verify rule source_snapshot
     end)
    (fun e =>
       ret (new_VerificationResult (ValidationRule.rule_id rule) (PBool false)
              (PStr ("Verification error: " +:+ exn_str e)) None)).
End WithEnv.
End CrossVerificationAgent.

(** ** Anomaly aggregation ([agents/anomaly_agent.py]) *)

Module AnomalyDetectionAgent.
Section WithEnv.
Context (env : Env).

(** [d[k]] on a dict of counters *)
Definition getitem (d : gmap string Z) (k : string) : M Z :=
  match d !! k with
  | Some v => ret v
  | None => py_error env KeyError
  end.

(** [for anomaly in anomalies: severity_counts[anomaly.severity.value] += 1] *)
Fixpoint count_by_severity (severity_counts : gmap string Z)
    (anomalies : list Anomaly.t) : M (gmap string Z) :=
  match anomalies with
  | [] => ret severity_counts
  | anomaly :: rest =>
      let key := severity_value (Anomaly.severity anomaly) in
      v ← getitem severity_counts key;
      count_by_severity (<[key := v + 1]> severity_counts) rest
  end.

Definition _generate_recommendations (anomalies : list Anomaly.t)
    (verification_results : list VerificationResult.t) : M (list pyval) :=
  match anomalies with
  | [] => ret [PStr "No anomalies detected. All services are operating normally."]
  | _ =>
      prompt ← lift (recommendations_prompt env anomalies);
      try_except
        (response_text ← perform (EvAgentRun AnomalyChat prompt)
                           (fun h => agent_run env h AnomalyChat prompt);
         (* Parse AI response *)
         response_text ← extract_json_text env response_text;
         recommendations ← lift (json_loads env response_text);
         ret (match recommendations with
              | PList l => l
              | v => [PStr (py_format env v)]
              end))
        (fun _ =>
           (* Fallback recommendations *)
           ret [PStr ("Investigate " +:+ pretty (length anomalies)
                      +:+ " detected anomalies");
                PStr "Review service logs for error patterns";
                PStr "Check network connectivity between services";
                PStr "Verify authentication credentials are valid";
                PStr "Consider implementing data reconciliation jobs"])
  end.

(** pydantic on a field declared [List[str]]: every item a string. *)
Fixpoint validate_str_list (l : list pyval) : M (list string) :=
  match l with
  | [] => ret []
  | PStr s :: rest => strs ← validate_str_list rest; ret (s :: strs)
  | _ :: _ => py_error env ValidationError
  end.

(** [AnomalyReport(...)]: [report_id] and [generated_at] come from their
    default factories; pydantic checks the counters ([ge=0]) and the
    recommendations. *)
Definition new_AnomalyReport (validation_id : UUID)
    (total_anomalies critical_count high_count medium_count low_count : Z)
    (anomalies : list Anomaly.t) (recommendations : list pyval)
    (alert_triggered : bool) (alert_sent_at : option datetime)
    : M AnomalyReport.t :=
  report_id ← new_uuid env;
  generated_at ← utcnow env;
  recommendations ← validate_str_list recommendations;
  if (0 <=? total_anomalies) && (0 <=? critical_count) && (0 <=? high_count)
     && (0 <=? medium_count) && (0 <=? low_count)
  then ret (AnomalyReport.mk report_id validation_id generated_at total_anomalies
              critical_count high_count medium_count low_count anomalies
              recommendations alert_triggered alert_sent_at)
  else py_error env ValidationError.

Definition _generate_report (validation_id : UUID) (anomalies : list Anomaly.t)
    (verification_results : list VerificationResult.t) : M AnomalyReport.t :=
  (* Count by severity *)
  let severity_counts : gmap string Z :=
    {[ "critical" := 0; "high" := 0; "medium" := 0; "low" := 0 ]} in
  severity_counts ← count_by_severity severity_counts anomalies;
  (* Generate recommendations using AI *)
  recommendations ← _generate_recommendations anomalies verification_results;
  (* Determine if alert should be triggered *)
  critical ← getitem severity_counts "critical";
  high ← getitem severity_counts "high";
  let alert_triggered :=
    (0 <? critical) || (3 <=? high) || (5 <=? Z.of_nat (length anomalies)) in
  critical_count ← getitem severity_counts "critical";
  high_count ← getitem severity_counts "high";
  medium_count ← getitem severity_counts "medium";
  low_count ← getitem severity_counts "low";
  alert_sent_at ← (if alert_triggered
                   then now ← utcnow env; ret (Some now)
                   else ret None);
  new_AnomalyReport validation_id (Z.of_nat (length anomalies))
    critical_count high_count medium_count low_count anomalies recommendations
    alert_triggered alert_sent_at.
End WithEnv.
End AnomalyDetectionAgent.

(** ** Alert dispatch ([agents/alert_agent.py]) *)

Module AlertAgent.
(** The agent object: [self.alert_config]. *)
Record t : Type := mk { alert_config : option AlertConfig.t }.

(** [asyncio.gather] with [return_exceptions=True].  The sends do not
    depend on one another; they are run in the order of the list. *)
Fixpoint gather (tasks : list (M pyval)) : M (list TaskOutcome) :=
  match tasks with
  | [] => ret []
  | task :: rest =>
      fun w =>
        let '(r, w') := task w in
        let outcome := match r with Ok v => Returned v | Raise e => Raised e end in
        match gather rest w' with
        | (Ok outcomes, w'') => (Ok (outcome :: outcomes), w'')
        | (Raise e, w'') => (Raise e, w'')
        end
  end.

Section WithEnv.
Context (env : Env).

Definition _should_trigger_alert (self : t) (report : AnomalyReport.t) : bool :=
  match alert_config self with
  | None => AnomalyReport.alert_triggered report
  | Some cfg =>
      (* Check thresholds *)
      if AlertConfig.critical_severity_threshold cfg <=? AnomalyReport.critical_count report
      then true
      else if AlertConfig.high_severity_threshold cfg <=? AnomalyReport.high_count report
      then true
      else if AlertConfig.anomaly_count_threshold cfg <=? AnomalyReport.total_anomalies report
      then true
      else false
  end.

(** Generate a basic alert message if AI generation fails. *)
Definition _generate_fallback_message (report : AnomalyReport.t)
    (config_name : string) (validation_id : option UUID) : M string :=
  now ← utcnow env;
  ret (fallback_alert_text env report config_name validation_id now).

Definition _generate_alert_message (report : AnomalyReport.t)
    (validation_data : WorkflowData.t) : M string :=
  let config_name :=
    default "Unknown Configuration" (WorkflowData.config_name validation_data) in
  let validation_id := WorkflowData.validation_id validation_data in
  now ← utcnow env;
  prompt ← lift (alert_prompt env report config_name validation_id now);
  try_except
    (response_text ← perform (EvAgentRun AlertChat prompt)
                       (fun h => agent_run env h AlertChat prompt);
     ret (strip response_text))
    (fun _ => _generate_fallback_message report config_name validation_id).

(** Send alert via email (placeholder implementation). *)
Definition _send_email_alert (cfg : AlertConfig.t) (message : string)
    (report : AnomalyReport.t) : M pyval :=
  ret (PDict [("channel", PStr "email");
              ("success", PBool true);
              ("message",
                PStr "Email alert would be sent (not implemented in this demo)");
              ("recipients", PList (PStr <$> AlertConfig.email_recipients cfg))]).

(** [str(url)] of an optional URL *)
Definition url_str (url : option string) : string := default "None" url.

(** Send alert via Slack webhook. *)
Definition _send_slack_alert (cfg : AlertConfig.t) (message : string)
    (report : AnomalyReport.t) : M pyval :=
  try_except
    (let url := url_str (AlertConfig.slack_webhook cfg) in
     status_code ← perform (EvPost url) (fun h => http_post env h url);
     ret (PDict [("channel", PStr "slack");
                 ("success", PBool (status_code =? 200));
                 ("status_code", PInt status_code)]))
    (fun e =>
       ret (PDict [("channel", PStr "slack");
                   ("success", PBool false);
                   ("error", PStr (exn_str e))])).

(** Send alert via custom webhook. *)
Definition _send_webhook_alert (cfg : AlertConfig.t) (message : string)
    (report : AnomalyReport.t) : M pyval :=
  try_except
    (now ← utcnow env;
     let url := url_str (AlertConfig.webhook_url cfg) in
     status_code ← perform (EvPost url) (fun h => http_post env h url);
     ret (PDict [("channel", PStr "webhook");
                 ("success", PBool (status_code <? 400));
                 ("status_code", PInt status_code)]))
    (fun e =>
       ret (PDict [("channel", PStr "webhook");
                   ("success", PBool false);
                   ("error", PStr (exn_str e))])).

(** [task_results[i]] *)
Definition task_result (task_results : list TaskOutcome) (i : nat) : M TaskOutcome :=
  match task_results !! i with
  | Some r => ret r
  | None => py_error env IndexError
  end.

(** Send alerts via all configured channels. *)
Definition _send_alerts (self : t) (message : string) (report : AnomalyReport.t)
    : M (gmap string (option TaskOutcome)) :=
  let results : gmap string (option TaskOutcome) := ∅ in
  match alert_config self with
  | None => ret {[ "error" := Some (Returned (PStr "No alert configuration provided")) ]}
  | Some cfg =>
      (* Send via different channels in parallel *)
      let tasks : list (M pyval) := [] in
      let tasks :=
        if AlertConfig.email_enabled cfg
           && match AlertConfig.email_recipients cfg with [] => false | _ => true end
        then tasks ++ [_send_email_alert cfg message report]
        else tasks in
      let tasks :=
        if AlertConfig.slack_enabled cfg && opt_truthy (AlertConfig.slack_webhook cfg)
        then tasks ++ [_send_slack_alert cfg message report]
        else tasks in
      let tasks :=
        if AlertConfig.webhook_enabled cfg && opt_truthy (AlertConfig.webhook_url cfg)
        then tasks ++ [_send_webhook_alert cfg message report]
        else tasks in
      match tasks with
      | [] => ret results
      | _ =>
          task_results ← gather tasks;
          email ← (if AlertConfig.email_enabled cfg
                   then r ← task_result task_results 0; ret (Some r)
                   else ret None);
          let results := <["email" := email]> results in
          results ← (if (1 <? length task_results)%nat
                     then
                       slack ← (if AlertConfig.slack_enabled cfg
                                then r ← task_result task_results 1; ret (Some r)
                                else ret None);
                       ret (<["slack" := slack]> results)
                     else ret results);
          results ← (if (2 <? length task_results)%nat
                     then
                       webhook ← (if AlertConfig.webhook_enabled cfg
                                  then r ← task_result task_results 2; ret (Some r)
                                  else ret None);
                       ret (<["webhook" := webhook]> results)
                     else ret results);
          ret results
      end
  end.

(** [process_alerts]: the value handed to [ctx.yield_output]. *)
Definition process_alerts (self : t) (validation_data : WorkflowData.t)
    : M WorkflowData.t :=
  let yield_output (alerts_sent : bool)
        (alert_results : option (gmap string (option TaskOutcome)))
        (alert_message : string) : WorkflowData.t :=
    WorkflowData.mk
      (WorkflowData.validation_id validation_data)
      (WorkflowData.config_name validation_data)
      (WorkflowData.snapshots validation_data)
      (WorkflowData.verification_results validation_data)
      (WorkflowData.anomaly_report validation_data)
      (Some alerts_sent)
      (match alert_results with
       | Some r => Some r
       | None => WorkflowData.alert_results validation_data
       end)
      (Some alert_message)
      (WorkflowData.other_keys validation_data) in
  match WorkflowData.anomaly_report validation_data with
  | None => ret (yield_output false None "No anomaly report generated")
  | Some anomaly_report =>
      (* Check if alerts should be triggered *)
      let should_alert := _should_trigger_alert self anomaly_report in
      if negb should_alert
         || match alert_config self with
            | None => true
            | Some cfg => negb (AlertConfig.enabled cfg)
            end
      then ret (yield_output false None "Alert threshold not met or alerts disabled")
      else
        (* Generate alert message using AI *)
        alert_message ← _generate_alert_message anomaly_report validation_data;
        (* Send alerts via configured channels *)
        alert_results ← _send_alerts self alert_message anomaly_report;
        ret (yield_output true (Some alert_results) alert_message)
  end.
End WithEnv.
End AlertAgent.

(** ** Orchestrator ([src/orchestrator.py]) *)

Module ValidationOrchestrator.
Section WithEnv.
Context (env : Env).

(** pydantic on [ValidationResult(...)]: the bounds [ge=0]. *)
Definition check_ValidationResult (r : ValidationResult.t) : M ValidationResult.t :=
  if match ValidationResult.duration_seconds r with
     | Some d => 0 <=? Qnum d
     | None => true
     end
     && (0 <=? ValidationResult.rules_checked r)
     && (0 <=? ValidationResult.rules_passed r)
     && (0 <=? ValidationResult.rules_failed r)
     && (0 <=? ValidationResult.anomalies_detected r)
  then ret r
  else py_error env ValidationError.

(** [ValidationResult(validation_id=..., config_id=..., status=FAILED,
    started_at=..., completed_at=..., error_message=...)]: every other
    field keeps its default. *)
Definition failed_result (validation_id config_id : UUID) (started_at : datetime)
    (completed_at : datetime) (error_message : string) : M ValidationResult.t :=
  check_ValidationResult
    (ValidationResult.mk validation_id config_id FAILED started_at
       (Some completed_at) None [] 0 0 0 0 (Some error_message) []).

(** The data of the last [WorkflowOutputEvent] of the stream. *)
Definition final_output_of (events : list WorkflowEvent) : option WorkflowData.t :=
  foldl (fun final_output event =>
           match event with
           | WorkflowOutputEvent data => Some data
           | OtherWorkflowEvent => final_output
           end) None events.

(** [if final_output:] the output, when it is there and not empty. *)
Definition truthy_output (final_output : option WorkflowData.t)
    : option WorkflowData.t :=
  match final_output with
  | Some output => if WorkflowData.nonempty output then Some output else None
  | None => None
  end.

(** [sum(1 for r in verification_results if r.passed)] and its
    complement *)
Definition count_passed (verification_results : list VerificationResult.t) : Z :=
  Z.of_nat (length (filter (fun r => truthy (VerificationResult.passed r) = true)
                      verification_results)).

Definition count_failed (verification_results : list VerificationResult.t) : Z :=
  Z.of_nat (length (filter (fun r => truthy (VerificationResult.passed r) = false)
                      verification_results)).

(** The part of [run_validation] under its [try]. *)
Definition run_guarded (config : ServiceConfig.t) (validation_id : UUID)
    (alert_config : option AlertConfig.t) (started_at : datetime)
    : M ValidationResult.t :=
  (* Create workflow *)
  _ ← perform EvCreateWorkflow (fun h => create_workflow env h config alert_config);
  (* Prepare initial input for data fetcher *)
  let all_services :=
    [ServiceConfig.primary_service config] ++ ServiceConfig.dependent_services config in
  (* Run workflow with streaming *)
  events ← perform EvRunStream (fun h => run_stream env h all_services);
  let final_output := final_output_of events in
  (* Process results *)
  match truthy_output final_output with
  | Some output =>
      completed_at ← utcnow env;
      let duration := (completed_at - started_at) # 1000000 in
      (* Extract verification results *)
      let verification_results :=
        default [] (WorkflowData.verification_results output) in
      let anomaly_report := WorkflowData.anomaly_report output in
      check_ValidationResult
        (ValidationResult.mk validation_id (ServiceConfig.config_id config)
           COMPLETED started_at (Some completed_at) (Some duration)
           (default [] (WorkflowData.snapshots output))
           (Z.of_nat (length (ServiceConfig.validation_rules config)))
           (count_passed verification_results)
           (count_failed verification_results)
           (match anomaly_report with
            | Some report => AnomalyReport.total_anomalies report
            | None => 0
            end)
           None
           [("verification_summary",
              PDict [("total_rules", PInt (Z.of_nat (length verification_results)));
                     ("passed", PInt (count_passed verification_results));
                     ("failed", PInt (count_failed verification_results))]);
            ("alert_sent", PBool (default false (WorkflowData.alerts_sent output)));
            ("alert_message",
              match WorkflowData.alert_message output with
              | Some s => PStr s
              | None => PNone
              end)])
  | None =>
      (* No output received *)
      completed_at ← utcnow env;
      failed_result validation_id (ServiceConfig.config_id config) started_at
        completed_at "Workflow completed but no output received"
  end.

Definition run_validation (config : ServiceConfig.t) (validation_id : UUID)
    (alert_config : option AlertConfig.t) : M ValidationResult.t :=
  started_at ← utcnow env;
  try_except (run_guarded config validation_id alert_config started_at)
    (fun e =>
       (* Handle errors *)
       completed_at ← utcnow env;
       failed_result validation_id (ServiceConfig.config_id config) started_at
         completed_at ("Validation error: " +:+ exn_str e)).
End WithEnv.
End ValidationOrchestrator.

Module ValidationOrchestrationService.
(** [self._active_validations[validation_id] = result] *)
Definition register (validation_id : UUID) (result : ValidationResult.t) : M unit :=
  fun w =>
    (Ok tt, mkWorld (history w) (clock w)
              (<[validation_id := result]> (_active_validations w))).

Section WithEnv.
Context (env : Env).

(** The first half of [start_validation]: the run is stored as
    in-progress ([started_at] comes from its default factory). *)
Definition begin_validation (config : ServiceConfig.t) (validation_id : UUID)
    : M unit :=
  started_at ← utcnow env;
  result ← ValidationOrchestrator.check_ValidationResult env
             (ValidationResult.mk validation_id (ServiceConfig.config_id config)
                IN_PROGRESS started_at None None [] 0 0 0 0 None []);
  register validation_id result.

Definition start_validation (config : ServiceConfig.t) (validation_id : UUID)
    (alert_config : option AlertConfig.t) : M ValidationResult.t :=
  (* Store in active validations *)
  _ ← begin_validation config validation_id;
  (* Run validation *)
  result ← ValidationOrchestrator.run_validation env config validation_id alert_config;
  (* Update active validations *)
  _ ← register validation_id result;
  ret result.

(** [self._active_validations.get(validation_id)] *)
Definition registered (validation_id : UUID) : M (option ValidationResult.t) :=
  fun w => (Ok (_active_validations w !! validation_id), w).

(** Get status of a validation run. *)
Definition get_validation_status (validation_id : UUID)
    : M (option ValidationResult.t) :=
  registered validation_id.

(** [result.status = CANCELLED; result.completed_at = now] on the object
    the registry holds. *)
Definition mark_cancelled (result : ValidationResult.t) (now : datetime)
    : ValidationResult.t :=
  ValidationResult.mk
    (ValidationResult.validation_id result) (ValidationResult.config_id result)
    CANCELLED (ValidationResult.started_at result) (Some now)
    (ValidationResult.duration_seconds result)
    (ValidationResult.data_snapshots result) (ValidationResult.rules_checked result)
    (ValidationResult.rules_passed result) (ValidationResult.rules_failed result)
    (ValidationResult.anomalies_detected result)
    (ValidationResult.error_message result) (ValidationResult.details result).

(** Cancel a running validation. *)
Definition cancel_validation (validation_id : UUID) : M bool :=
  entry ← registered validation_id;
  match entry with
  | Some result =>
      match ValidationResult.status result with
      | IN_PROGRESS =>
          now ← utcnow env;
          _ ← register validation_id (mark_cancelled result now);
          ret true
      | _ => ret false
      end
  | None => ret false
  end.
End WithEnv.
End ValidationOrchestrationService.

(** ** Vocabulary of the properties *)

#[global] Instance AnomalySeverity_eq_dec : EqDecision AnomalySeverity.
Proof. solve_decision. Defined.

#[global] Instance ValidationStatus_eq_dec : EqDecision ValidationStatus.
Proof. solve_decision. Defined.

(** What a snapshot of a failed fetch looks like. *)
Definition failed_snapshot (s : DataSnapshot.t) : Prop :=
  DataSnapshot.success s = false
  ∧ (∃ msg, DataSnapshot.error_message s = Some msg ∧ msg ≠ "")
  ∧ DataSnapshot.data s = []
  ∧ DataSnapshot.record_count s = 0.

(** The message is a string in which [needle] occurs ([needle in message]). *)
Definition mentions (needle : string) (message : pyval) : Prop :=
  ∃ s, message = PStr s ∧ str_contains needle s = true.

(** The message names a failure of the delegated judgment, the way the
    verification agent words it. *)
Definition names_failure (message : pyval) : Prop :=
  ∃ detail, message = PStr ("AI verification failed: " +:+ detail).

(** The outcome of a failed delegation. *)
Definition failure_outcome (rule : ValidationRule.t) (e : Exn) : VerificationResult.t :=
  CrossVerificationAgent.new_VerificationResult (ValidationRule.rule_id rule)
    (PBool false) (PStr ("AI verification failed: " +:+ exn_str e)) None.

(** The anomalies of one severity. *)
Definition count_severity (sev : AnomalySeverity) (anomalies : list Anomaly.t) : Z :=
  Z.of_nat (length (filter (fun a => Anomaly.severity a = sev) anomalies)).

(** The source snapshot of a rule (or its target) is absent from the set or
    has [success=false]. *)
Definition absent_or_failed (service : string) (snapshots : list DataSnapshot.t) : Prop :=
  CrossVerificationAgent.find_snapshot service snapshots = None
  ∨ ∃ s, CrossVerificationAgent.find_snapshot service snapshots = Some s
         ∧ DataSnapshot.success s = false.

(** The explicit headers of a descriptor ([auth_config.headers or {}]). *)
Definition explicit_headers (auth_config : AuthConfig.t) : gmap string string :=
  default ∅ (AuthConfig.headers auth_config).

(** The fields every OAuth2 descriptor has to carry. *)
Definition oauth2_required_fields (auth_config : AuthConfig.t) : bool :=
  opt_truthy (AuthConfig.credentials auth_config !! "client_id")
  && opt_truthy (AuthConfig.credentials auth_config !! "client_secret")
  && opt_truthy (AuthConfig.token_endpoint auth_config).

(** The run is in a terminal state. *)
Definition terminal (status : ValidationStatus) : Prop :=
  status = COMPLETED ∨ status = FAILED ∨ status = CANCELLED.

(** A world invariant [I] is kept by a computation, whose normal results
    satisfy [Q]. *)
Definition keeps {A} (I : World -> Prop) (m : M A) (Q : A -> Prop) : Prop :=
  ∀ w, I w → I (m w).2 ∧ ∀ a, (m w).1 = Ok a → Q a.

(** The clock has reached [t]. *)
Definition since (t : datetime) (w : World) : Prop := t <= clock w.

(** The wall clock is never set back. *)
Definition steady (env : Env) : Prop := ∀ h, 0 <= tick env h.

(** ** Test doubles

    Environments and inputs for the concrete runs below.  The doubles
    answer every call the same way: the network is unreachable, the chat
    agents answer [agent_reply], the workflow runtime delivers [stream],
    an alert webhook answers [post_status].  [json_loads] knows the empty
    object only, and [b64encode] is the identity: the runs below parse
    nothing else and never use Basic authentication. *)

Definition unreachable : Exn := mkExn HTTPError "connection refused".

Definition stub_env (agent_reply : AgentRole -> result string)
    (stream : result (list WorkflowEvent)) (post_status : result Z) : Env :=
  {| tick := fun _ => 7;
     uuid4 := fun h => N.of_nat (length h);
     http_get := fun _ _ _ _ => Raise unreachable;
     raise_for_status := fun r =>
       if 400 <=? Response.status_code r then Some "error status" else None;
     token_post := fun _ _ _ => Raise unreachable;
     azure_identity_installed := false;
     azure_get_token := fun _ _ _ _ _ => Raise unreachable;
     http_post := fun _ _ => post_status;
     agent_run := fun _ role _ => agent_reply role;
     create_workflow := fun _ _ _ => Ok tt;
     run_stream := fun _ _ => stream;
     json_loads := fun s =>
       if String.eqb s "{}" then Ok (PDict [])
       else Raise (mkExn JSONDecodeError "Expecting value");
     b64encode := fun s => s;
     py_repr := fun _ => "<object>";
     error_text := fun _ => "error";
     structure_prompt := fun _ _ => Ok "structure";
     cross_verify_prompt := fun _ _ _ => Ok "cross-verify";
     single_verify_prompt := fun _ _ => Ok "single-verify";
     recommendations_prompt := fun _ => Ok "recommend";
     alert_prompt := fun _ _ _ _ => Ok "alert";
     fallback_alert_text := fun _ _ _ _ => "Cloud Service Validation Alert" |}.

Definition timed_out : Exn := mkExn OtherException "inference timed out".

(** Every agent fails, the workflow yields nothing, webhooks answer 200. *)
Definition silent_env : Env :=
  stub_env (fun _ => Raise timed_out) (Ok []) (Ok 200).

(** The verification agent answers with an empty JSON object. *)
Definition empty_reply_env : Env :=
  stub_env (fun _ => Ok "{}") (Ok []) (Ok 200).

Definition w0 : World := mkWorld [] 0 ∅.

Definition oauth_token_only : AuthConfig.t :=
  AuthConfig.mk OAUTH2 {[ "access_token" := "tok" ]} None None.

Definition oauth_complete : AuthConfig.t :=
  AuthConfig.mk OAUTH2
    {[ "client_id" := "id"; "client_secret" := "secret"; "access_token" := "tok" ]}
    None (Some "https://login.example.com/token").

Definition payment_service : DependentService.t :=
  DependentService.mk "payment-service" "Payment Processing Service" "REST_API"
    "https://api.payment.example.com"
    (AuthConfig.mk API_KEY {[ "api_key" := "secret_key" ]} None None)
    (Some "/v1/health") 30.

Definition payment_rule : ValidationRule.t :=
  ValidationRule.mk "check-payment-order-consistency" "Payment-Order Consistency Check"
    "Verify all payments have corresponding orders" "payment-service"
    (Some "order-service") None ["order_id"; "amount"; "status"] None.

Definition payment_snapshot : DataSnapshot.t :=
  DataSnapshot.mk "payment-service" 0 [("records", PList [])] 0 (0 # 1) true None.

Definition critical_anomaly : Anomaly.t :=
  Anomaly.mk 1 7 "check-payment-order-consistency" CRITICAL 0 "payment-service"
    "missing_data" "Found 15 payments without corresponding orders" 15 None
    PNone PNone None.

(** Slack is the only channel switched on. *)
Definition slack_only : AlertConfig.t :=
  AlertConfig.mk 1 2 true 3 1 3
    false [] true (Some "https://hooks.slack.com/services/T/B/X") false None.

(** Slack is switched on and has its webhook; email is switched on but
    has no recipient. *)
Definition slack_and_unaddressed_email : AlertConfig.t :=
  AlertConfig.mk 1 2 true 3 1 3
    true [] true (Some "https://hooks.slack.com/services/T/B/X") false None.

Definition critical_report : AnomalyReport.t :=
  AnomalyReport.mk 3 7 0 1 1 0 0 0 [critical_anomaly]
    ["Review service logs for error patterns"] true (Some 0).

Definition demo_config : ServiceConfig.t :=
  ServiceConfig.mk 2 "E-Commerce Validation" payment_service [] [payment_rule]
    None 60 true.

(** The stage data that reaches the alert stage with a report. *)
Definition report_data (report : AnomalyReport.t) : WorkflowData.t :=
  WorkflowData.mk (Some 7%N) (Some "E-Commerce Validation") None None (Some report)
    None None None [].

(** ** Further vocabulary *)

(** The credential fields the chosen variant cannot do without. *)
Definition credential_fields_present (auth_config : AuthConfig.t) : bool :=
  let credentials := AuthConfig.credentials auth_config in
  match AuthConfig.auth_type auth_config with
  | API_KEY => opt_truthy (credentials !! "api_key")
  | BEARER_TOKEN => opt_truthy (credentials !! "token")
  | BASIC_AUTH => opt_truthy (credentials !! "username")
                  && opt_truthy (credentials !! "password")
  | OAUTH2 => oauth2_required_fields auth_config
  | SERVICE_PRINCIPAL => opt_truthy (credentials !! "tenant_id")
                         && opt_truthy (credentials !! "client_id")
                         && opt_truthy (credentials !! "client_secret")
  | CUSTOM => true
  end.

(** The variants that are resolved from the descriptor alone. *)
Definition static_variant (auth_type : AuthType) : bool :=
  match auth_type with
  | OAUTH2 | SERVICE_PRINCIPAL => false
  | _ => true
  end.

(** ** Further test doubles *)

(** An environment whose token endpoint answers [token_response] and
    whose services answer [service_response]; the chat agents fail. *)
Definition answering_env (token_response service_response : result Response.t) : Env :=
  {| tick := fun _ => 7;
     uuid4 := fun h => N.of_nat (length h);
     http_get := fun _ _ _ _ => service_response;
     raise_for_status := fun r =>
       if 400 <=? Response.status_code r then Some "error status" else None;
     token_post := fun _ _ _ => token_response;
     azure_identity_installed := false;
     azure_get_token := fun _ _ _ _ _ => Raise unreachable;
     http_post := fun _ _ => Ok 200;
     agent_run := fun _ _ _ => Raise timed_out;
     create_workflow := fun _ _ _ => Ok tt;
     run_stream := fun _ _ => Ok [];
     json_loads := fun s =>
       if String.eqb s "{}" then Ok (PDict [])
       else Raise (mkExn JSONDecodeError "Expecting value");
     b64encode := fun s => s;
     py_repr := fun _ => "<object>";
     error_text := fun _ => "error";
     structure_prompt := fun _ _ => Ok "structure";
     cross_verify_prompt := fun _ _ _ => Ok "cross-verify";
     single_verify_prompt := fun _ _ => Ok "single-verify";
     recommendations_prompt := fun _ => Ok "recommend";
     alert_prompt := fun _ _ _ _ => Ok "alert";
     fallback_alert_text := fun _ _ _ _ => "Cloud Service Validation Alert" |}.

(** The token endpoint grants the token "granted". *)
Definition granted_response : Response.t :=
  Response.mk 200 (Some "application/json") "<token response>"
    (Ok (PDict [("access_token", PStr "granted"); ("expires_in", PInt 3600)])).

Definition granting_env : Env := answering_env (Ok granted_response) (Raise unreachable).

(** An OAuth2 descriptor without a pre-supplied token. *)
Definition oauth_exchange : AuthConfig.t :=
  AuthConfig.mk OAUTH2 {[ "client_id" := "id"; "client_secret" := "secret" ]}
    None (Some "https://login.example.com/token").

(** An API key sent under a header of its own, beside an explicit header. *)
Definition api_key_custom : AuthConfig.t :=
  AuthConfig.mk API_KEY {[ "api_key" := "secret_key"; "header_name" := "X-Token" ]}
    (Some {[ "Accept" := "application/json" ]}) None.

(** ** The handler of the data fetcher ([agents/data_fetcher_agent.py]) *)

Module DataFetcherHandler.
Section WithEnv.
Context (env : Env).

(** [for service in services: snapshots.append(await
    self._fetch_from_service(service))] *)
Fixpoint fetch_each (services : list DependentService.t)
    (snapshots : list DataSnapshot.t) : M (list DataSnapshot.t) :=
  match services with
  | [] => ret snapshots
  | service :: rest =>
      snapshot ← DataFetcherAgent._fetch_from_service env service;
      fetch_each rest (snapshots ++ [snapshot])
  end.

(** [fetch_service_data]: the snapshots it sends downstream. *)
Definition fetch_service_data (services : list DependentService.t)
    : M (list DataSnapshot.t) :=
  fetch_each services [].
End WithEnv.
End DataFetcherHandler.

(** The payload the data fetcher falls back to when the structuring of
    [raw_data] fails with [e]. *)
Definition raw_passthrough (raw_data : pyval) (e : Exn) : pyval :=
  PDict [("records",
           match raw_data with
           | PDict _ => PList [raw_data]
           | _ => raw_data
           end);
         ("metadata", PDict [("processing_error", PStr (exn_str e))]);
         ("raw_data", raw_data)].

(** A service that answers 200 with a JSON object. *)
Definition orders_body : pyval :=
  PDict [("orders", PList [PDict [("order_id", PInt 1)]; PDict [("order_id", PInt 2)]])].

Definition serving_env : Env :=
  answering_env (Raise unreachable)
    (Ok (Response.mk 200 (Some "application/json; charset=utf-8") "<orders>"
           (Ok orders_body))).

(** A service without a health check. *)
Definition orders_service : DependentService.t :=
  DependentService.mk "order-service" "Order Management" "REST_API"
    "https://api.orders.example.com"
    (AuthConfig.mk API_KEY {[ "api_key" := "key" ]} None None)
    None 30.

(** The environment [env] under another wall clock. *)
Definition with_tick (wall_clock : list Event -> Z) (env : Env) : Env :=
  {| tick := wall_clock;
     uuid4 := uuid4 env;
     http_get := http_get env;
     raise_for_status := raise_for_status env;
     token_post := token_post env;
     azure_identity_installed := azure_identity_installed env;
     azure_get_token := azure_get_token env;
     http_post := http_post env;
     agent_run := agent_run env;
     create_workflow := create_workflow env;
     run_stream := run_stream env;
     json_loads := json_loads env;
     b64encode := b64encode env;
     py_repr := py_repr env;
     error_text := error_text env;
     structure_prompt := structure_prompt env;
     cross_verify_prompt := cross_verify_prompt env;
     single_verify_prompt := single_verify_prompt env;
     recommendations_prompt := recommendations_prompt env;
     alert_prompt := alert_prompt env;
     fallback_alert_text := fallback_alert_text env |}.

(** No service can be reached, and the wall clock is set back by three
    seconds while a request is under way. *)
Definition set_back_env : Env :=
  with_tick (fun h => match h with
                      | EvGet _ :: _ => -3000000
                      | _ => 7
                      end) silent_env.

(** ** The consistency checker's handler ([agents/verification_agent.py]) *)

(** The dict [verify_data_consistency] receives, by the keys it reads. *)
Module VerificationContext.
Record t : Type := mk {
  snapshots : option (list DataSnapshot.t);
  rules : option (list ValidationRule.t)
}.
End VerificationContext.

(** The dict it sends downstream. *)
Module VerificationSummary.
Record t : Type := mk {
  snapshots : list DataSnapshot.t;
  rules : list ValidationRule.t;
  verification_results : list VerificationResult.t;
  rules_checked : Z;
  rules_passed : Z;
  rules_failed : Z
}.
End VerificationSummary.

Module CrossVerificationHandler.
Section WithEnv.
Context (env : Env).

(** [for rule in rules: verification_results.append(await
    self._verify_rule(rule, snapshots))] *)
Fixpoint verify_each (rules : list ValidationRule.t) (snapshots : list DataSnapshot.t)
    (verification_results : list VerificationResult.t)
    : M (list VerificationResult.t) :=
  match rules with
  | [] => ret verification_results
  | rule :: rest =>
      result ← CrossVerificationAgent._verify_rule env rule snapshots;
      verify_each rest snapshots (verification_results ++ [result])
  end.

(** [verify_data_consistency]: the summary it sends downstream. *)
Definition verify_data_consistency (context : VerificationContext.t)
    : M VerificationSummary.t :=
  let snapshots := default [] (VerificationContext.snapshots context) in
  let rules := default [] (VerificationContext.rules context) in
  (* Verify each rule *)
  verification_results ← verify_each rules snapshots [];
  (* Prepare results summary *)
  ret (VerificationSummary.mk snapshots rules verification_results
         (Z.of_nat (length rules))
         (Z.of_nat (length (filter (fun r => truthy (VerificationResult.passed r) = true)
                              verification_results)))
         (Z.of_nat (length (filter (fun r => truthy (VerificationResult.passed r) = false)
                              verification_results)))).
End WithEnv.
End CrossVerificationHandler.

(** The snapshot of a fetch that failed. *)
Definition payment_outage : DataSnapshot.t :=
  DataSnapshot.mk "payment-service" 0 [] 0 (0 # 1) false (Some "connection refused").

(** A rule on one service only. *)
Definition payment_fields_rule : ValidationRule.t :=
  ValidationRule.mk "check-payment-fields" "Payment Fields Check"
    "Verify every payment carries its fields" "payment-service"
    None None ["order_id"; "amount"] None.

(** ** The anomaly aggregator's handler ([agents/anomaly_agent.py]) *)

(** [s.lower()], as far as the letters of the severities go. *)
Definition lower_char (c : ascii) : ascii :=
  let n := nat_of_ascii c in
  if (65 <=? n)%nat && (n <=? 90)%nat then ascii_of_nat (n + 32) else c.

Fixpoint lower (s : string) : string :=
  match s with
  | EmptyString => EmptyString
  | String c s' => String (lower_char c) (lower s')
  end.

(** [AnomalySeverity(value)]; [None] stands for the [ValueError]. *)
Definition parse_severity (value : string) : option AnomalySeverity :=
  if String.eqb value "low" then Some LOW
  else if String.eqb value "medium" then Some MEDIUM
  else if String.eqb value "high" then Some HIGH
  else if String.eqb value "critical" then Some CRITICAL
  else None.

(** [for x in v]: what a JSON value iterates over; [None] stands for the
    [TypeError] of a value that is not iterable. *)
Fixpoint chars (s : string) : list pyval :=
  match s with
  | EmptyString => []
  | String c s' => PStr (String c EmptyString) :: chars s'
  end.

Definition iter_items (v : pyval) : option (list pyval) :=
  match v with
  | PList l => Some l
  | PDict d => Some (map (fun kv => PStr kv.1) d)
  | PStr s => Some (chars s)
  | _ => None
  end.

(** pydantic on a field declared [str] and on one declared
    [Optional[Dict[str, Any]]]. *)
Definition str_field (v : pyval) : option string :=
  match v with
  | PStr s => Some s
  | _ => None
  end.

Definition optional_dict_field (v : pyval) : option (option (list (string * pyval))) :=
  match v with
  | PNone => Some None
  | PDict d => Some (Some d)
  | _ => None
  end.

(** What the anomaly stage sends on:
    [{**verification_data, "anomalies": ..., "anomaly_report": ...}]. *)
Module DetectionOutput.
Record t : Type := mk {
  verification_data : WorkflowData.t;
  anomalies : list Anomaly.t;
  anomaly_report : AnomalyReport.t
}.
End DetectionOutput.

Module AnomalyDetectionHandler.
Section WithEnv.
Context (env : Env).
(** The prompt of the detection is a function of the failed outcomes and
    of the snapshots it is formatted from.  How pydantic converts a bool,
    a float or a string to an [int], and a bool or a string to a [float],
    is left open. *)
Context (detection_prompt :
           list VerificationResult.t -> list DataSnapshot.t -> result string).
Context (lax_int : pyval -> option Z) (lax_float : pyval -> option Q).

(** pydantic on a field declared [int] *)
Definition int_field (v : pyval) : option Z :=
  match v with
  | PInt n => Some n
  | PBool _ | PFloat _ | PStr _ => lax_int v
  | _ => None
  end.

(** pydantic on a field declared [Optional[float]] *)
Definition optional_float_field (v : pyval) : option (option Q) :=
  match v with
  | PNone => Some None
  | PFloat q => Some (Some q)
  | PInt n => Some (Some (n # 1))
  | PBool _ | PStr _ => option_map Some (lax_float v)
  | _ => None
  end.

(** [Anomaly(...)]: [anomaly_id] and [detected_at] come from their
    default factories; pydantic checks every field, [validation_id]
    among them, and raises once all fields were looked at. *)
Definition new_Anomaly (validation_id : option UUID) (rule_id : pyval)
    (severity : AnomalySeverity)
    (service_id anomaly_type description affected_records : pyval)
    (sample_data expected_value actual_value deviation_percentage : pyval)
    : M Anomaly.t :=
  anomaly_id ← new_uuid env;
  detected_at ← utcnow env;
  match validation_id, str_field rule_id, str_field service_id,
        str_field anomaly_type, str_field description, int_field affected_records,
        optional_dict_field sample_data, optional_float_field deviation_percentage with
  | Some validation_id, Some rule_id, Some service_id, Some anomaly_type,
    Some description, Some affected_records, Some sample_data,
    Some deviation_percentage =>
      if 0 <=? affected_records
      then ret (Anomaly.mk anomaly_id validation_id rule_id severity detected_at
                  service_id anomaly_type description affected_records sample_data
                  expected_value actual_value deviation_percentage)
      else py_error env ValidationError
  | _, _, _, _, _, _, _, _ => py_error env ValidationError
  end.

(** [v.lower()]: a method of strings. *)
Definition py_lower (v : pyval) : M string :=
  match v with
  | PStr s => ret (lower s)
  | _ => py_error env AttributeError
  end.

(** The [Anomaly(...)] built from one item of the reply. *)
Definition anomaly_of_reply (validation_id : option UUID) (anomaly_data : pyval)
    : M Anomaly.t :=
  rule_id ← py_get env anomaly_data "rule_id" (PStr "unknown");
  severity ← py_get env anomaly_data "severity" (PStr "medium");
  severity ← py_lower severity;
  severity ← match parse_severity severity with
             | Some severity => ret severity
             | None => py_error env OtherException
             end;
  service_id ← py_get env anomaly_data "service_id" (PStr "unknown");
  anomaly_type ← py_get env anomaly_data "anomaly_type" (PStr "unknown");
  description ← py_get env anomaly_data "description" (PStr "Anomaly detected");
  affected_records ← py_get env anomaly_data "affected_records" (PInt 0);
  deviation_percentage ← py_get env anomaly_data "deviation_percentage" PNone;
  expected_value ← py_get env anomaly_data "expected_value" PNone;
  actual_value ← py_get env anomaly_data "actual_value" PNone;
  sample_data ← py_get env anomaly_data "sample_data" PNone;
  new_Anomaly validation_id rule_id severity service_id anomaly_type description
    affected_records sample_data expected_value actual_value deviation_percentage.

(** [for anomaly_data in anomaly_data_list: anomalies.append(Anomaly(...))] *)
Fixpoint anomalies_of_reply (validation_id : option UUID)
    (anomaly_data_list : list pyval) (anomalies : list Anomaly.t)
    : M (list Anomaly.t) :=
  match anomaly_data_list with
  | [] => ret anomalies
  | anomaly_data :: rest =>
      anomaly ← anomaly_of_reply validation_id anomaly_data;
      anomalies_of_reply validation_id rest (anomalies ++ [anomaly])
  end.

(** Fallback: basic anomalies from the failed verifications. *)
Fixpoint fallback_anomalies (validation_id : option UUID)
    (failed_results : list VerificationResult.t) (anomalies : list Anomaly.t)
    : M (list Anomaly.t) :=
  match failed_results with
  | [] => ret anomalies
  | result :: rest =>
      anomaly ← new_Anomaly validation_id (PStr (VerificationResult.rule_id result))
                  MEDIUM (PStr "unknown") (PStr "verification_failure")
                  (VerificationResult.message result) (PInt 0)
                  PNone PNone PNone PNone;
      fallback_anomalies validation_id rest (anomalies ++ [anomaly])
  end.

(** The part of [_detect_anomalies_with_ai] under its [try]. *)
Definition detect_guarded (validation_id : option UUID) (prompt : string)
    : M (list Anomaly.t) :=
  response_text ← perform (EvAgentRun AnomalyChat prompt)
                    (fun h => agent_run env h AnomalyChat prompt);
  (* Parse AI response *)
  response_text ← extract_json_text env response_text;
  anomaly_data_list ← lift (json_loads env response_text);
  (* Convert to Anomaly objects *)
  anomaly_data_list ← match iter_items anomaly_data_list with
                      | Some items => ret items
                      | None => py_error env TypeError
                      end;
  anomalies_of_reply validation_id anomaly_data_list [].

Definition _detect_anomalies_with_ai (validation_id : option UUID)
    (verification_results : list VerificationResult.t)
    (snapshots : list DataSnapshot.t) : M (list Anomaly.t) :=
  (* Prepare failed verifications *)
  let failed_results :=
    filter (fun r => truthy (VerificationResult.passed r) = false)
      verification_results in
  match failed_results with
  | [] => ret []
  | _ =>
      prompt ← lift (detection_prompt failed_results snapshots);
      try_except (detect_guarded validation_id prompt)
        (fun _ => fallback_anomalies validation_id failed_results [])
  end.

(** [_generate_report] on the [validation_id] the handler read with
    [.get]: pydantic rejects [None] for it when the report is put
    together, after everything else was done. *)
Definition generate_report_for (validation_id : option UUID)
    (anomalies : list Anomaly.t) (verification_results : list VerificationResult.t)
    : M AnomalyReport.t :=
  match validation_id with
  | Some validation_id =>
      AnomalyDetectionAgent._generate_report env validation_id anomalies
        verification_results
  | None =>
      _ ← AnomalyDetectionAgent._generate_report env 0%N anomalies
            verification_results;
      py_error env ValidationError
  end.

(** [detect_anomalies]: the output it sends downstream. *)
Definition detect_anomalies (verification_data : WorkflowData.t)
    : M DetectionOutput.t :=
  let validation_id := WorkflowData.validation_id verification_data in
  let verification_results :=
    default [] (WorkflowData.verification_results verification_data) in
  let snapshots := default [] (WorkflowData.snapshots verification_data) in
  (* Detect anomalies using AI *)
  anomalies ← _detect_anomalies_with_ai validation_id verification_results snapshots;
  (* Generate comprehensive report *)
  report ← generate_report_for validation_id anomalies verification_results;
  (* Prepare output *)
  ret (DetectionOutput.mk verification_data anomalies report).
End WithEnv.
End AnomalyDetectionHandler.

(** What the fallback makes of a failed outcome. *)
Definition basic_anomaly_of (validation_id : UUID) (outcome : VerificationResult.t)
    (anomaly : Anomaly.t) : Prop :=
  Anomaly.validation_id anomaly = validation_id
  ∧ Anomaly.rule_id anomaly = VerificationResult.rule_id outcome
  ∧ Anomaly.severity anomaly = MEDIUM
  ∧ Anomaly.service_id anomaly = "unknown"
  ∧ Anomaly.anomaly_type anomaly = "verification_failure"
  ∧ PStr (Anomaly.description anomaly) = VerificationResult.message outcome
  ∧ Anomaly.affected_records anomaly = 0.

(** The outcomes that did not pass. *)
Definition failed_outcomes (verification_results : list VerificationResult.t)
    : list VerificationResult.t :=
  filter (fun r => truthy (VerificationResult.passed r) = false) verification_results.

(** A detection prompt, and conversions that accept nothing. *)
Definition plain_detection_prompt (failed_results : list VerificationResult.t)
    (snapshots : list DataSnapshot.t) : result string :=
  Ok "detect".

Definition strict (A : Type) (v : pyval) : option A := None.

(** The outcome of a rule the inference could not judge, and one whose
    message is no text. *)
Definition unjudged_outcome : VerificationResult.t :=
  VerificationResult.mk "check-payment-order-consistency" (PBool false)
    (PStr "AI verification failed: inference timed out") (PDict []).

Definition numbered_outcome : VerificationResult.t :=
  VerificationResult.mk "check-payment-fields" (PBool false) (PInt 42) (PDict []).

(** The stage data with the outcomes of the consistency checker. *)
Definition checked_data (validation_id : option UUID)
    (verification_results : list VerificationResult.t) : WorkflowData.t :=
  WorkflowData.mk validation_id (Some "E-Commerce Validation") (Some [payment_snapshot])
    (Some verification_results) None None None None [].

Definition passed_outcome : VerificationResult.t :=
  VerificationResult.mk "check-payment-fields" (PBool true)
    (PStr "All expected fields are present") (PDict []).

(** ** Vocabulary of the alert dispatch *)

(** A threshold of the configuration is reached by the report. *)
Definition threshold_met (cfg : AlertConfig.t) (report : AnomalyReport.t) : Prop :=
  AlertConfig.critical_severity_threshold cfg <= AnomalyReport.critical_count report
  ∨ AlertConfig.high_severity_threshold cfg <= AnomalyReport.high_count report
  ∨ AlertConfig.anomaly_count_threshold cfg <= AnomalyReport.total_anomalies report.

(** The interactions of a dispatch, newest first: a POST to the Slack
    webhook, then the reading of the clock and the POST of the custom
    webhook, each only for a channel that is switched on and has its
    URL.  The email channel has none. *)
Definition dispatch_events (cfg : AlertConfig.t) : list Event :=
  (if AlertConfig.webhook_enabled cfg && opt_truthy (AlertConfig.webhook_url cfg)
   then [EvPost (AlertAgent.url_str (AlertConfig.webhook_url cfg)); EvClock]
   else [])
  ++ (if AlertConfig.slack_enabled cfg && opt_truthy (AlertConfig.slack_webhook cfg)
      then [EvPost (AlertAgent.url_str (AlertConfig.slack_webhook cfg))]
      else []).

(** Every channel is switched on and has its destination. *)
Definition every_channel : AlertConfig.t :=
  AlertConfig.mk 1 2 true 3 1 3
    true ["admin@example.com"] true (Some "https://hooks.slack.com/services/T/B/X")
    true (Some "https://ops.example.com/hooks/validation").

(** The same channels, with alerting as a whole switched off. *)
Definition alerts_disabled : AlertConfig.t :=
  AlertConfig.mk 1 2 false 3 1 3
    true ["admin@example.com"] true (Some "https://hooks.slack.com/services/T/B/X")
    true (Some "https://ops.example.com/hooks/validation").

(** ** Vocabulary of the runs *)

(** The last output of a stream: [output] is yielded, and no output
    follows it. *)
Definition last_output (events : list WorkflowEvent) (output : WorkflowData.t) : Prop :=
  ∃ before after,
    events = before ++ WorkflowOutputEvent output :: after
    ∧ Forall (fun event => event = OtherWorkflowEvent) after.

(** The output of a workflow that went through its four stages. *)
Definition staged_output : WorkflowData.t :=
  WorkflowData.mk (Some 7%N) (Some "E-Commerce Validation") (Some [payment_snapshot])
    (Some [VerificationResult.mk "check-payment-fields" (PBool true)
             (PStr "All expected fields are present") (PDict []);
           VerificationResult.mk "check-payment-order-consistency" (PBool false)
             (PStr "AI verification failed: inference timed out") (PDict [])])
    (Some critical_report) (Some false) None
    (Some "Alert threshold not met or alerts disabled") [].

(** The workflow yields an output and then an event that is none. *)
Definition staged_env : Env :=
  stub_env (fun _ => Raise timed_out)
    (Ok [OtherWorkflowEvent; WorkflowOutputEvent staged_output; OtherWorkflowEvent])
    (Ok 200).

(** The workflow yields an empty output. *)
Definition hollow_env : Env :=
  stub_env (fun _ => Raise timed_out)
    (Ok [WorkflowOutputEvent
           (WorkflowData.mk None None None None None None None None [])])
    (Ok 200).

(** The workflow breaks while it streams. *)
Definition broken_stream : Exn := mkExn OtherException "executor failed".

Definition failing_env : Env :=
  stub_env (fun _ => Raise timed_out) (Raise broken_stream) (Ok 200).

(** ** The scheduler ([src/scheduler.py]) *)

(** The triggers the scheduler uses, and the jobs it adds: each job runs
    [_run_scheduled_validation] on its configuration. *)
Inductive Trigger : Type :=
| CronTrigger (expression : string)
| IntervalTrigger (minutes : Z).

Module Job.
Record t : Type := mk {
  trigger : Trigger;
  args : ServiceConfig.t;
  max_instances : Z
}.
End Job.

Module ValidationScheduler.
(** The scheduler object: the jobs of [self.scheduler] by id, and
    [self._scheduled_jobs] (config_id -> job_id). *)
Record t : Type := mk {
  jobs : gmap string Job.t;
  _scheduled_jobs : gmap UUID string
}.

Section WithLibraries.
(** [str(uuid)], and the error of [CronTrigger.from_crontab] on an
    expression it does not take. *)
Context (uuid_text : UUID -> string).
Context (crontab_error : string -> option Exn).

(** [f"validation_{config.config_id}"] *)
Definition job_id_of (config_id : UUID) : string :=
  "validation_" +:+ uuid_text config_id.

(** [job_id in [job.id for job in self.scheduler.get_jobs()]] *)
Definition has_job (self : t) (job_id : string) : bool :=
  is_some (jobs self !! job_id).

(** Determine trigger *)
Definition trigger_for (config : ServiceConfig.t) : result Trigger :=
  if opt_truthy (ServiceConfig.schedule_cron config)
  then
    (* Use cron expression *)
    let expression := default "" (ServiceConfig.schedule_cron config) in
    match crontab_error expression with
    | Some e => Raise e
    | None => Ok (CronTrigger expression)
    end
  else
    (* Use interval in minutes *)
    Ok (IntervalTrigger (ServiceConfig.validation_interval_minutes config)).

(** Schedule a validation for a configuration: the outcome, and the
    scheduler as the call leaves it. *)
Definition schedule_validation (self : t) (config : ServiceConfig.t)
    : result unit * t :=
  if negb (ServiceConfig.enabled config) then (Ok tt, self)
  else
    let job_id := job_id_of (ServiceConfig.config_id config) in
    (* Remove existing job if any *)
    let self :=
      if has_job self job_id
      then mk (delete job_id (jobs self)) (_scheduled_jobs self)
      else self in
    match trigger_for config with
    | Raise e => (Raise e, self)
    | Ok trigger =>
        (* Schedule the job *)
        let self := mk (<[job_id := Job.mk trigger config 1]> (jobs self))
                      (_scheduled_jobs self) in
        (Ok tt, mk (jobs self)
                  (<[ServiceConfig.config_id config := job_id]> (_scheduled_jobs self)))
    end.

(** Unschedule a validation. *)
Definition unschedule_validation (self : t) (config_id : UUID) : t :=
  match _scheduled_jobs self !! config_id with
  | Some job_id =>
      if str_truthy job_id && has_job self job_id
      then mk (delete job_id (jobs self)) (delete config_id (_scheduled_jobs self))
      else self
  | None => self
  end.

(** The loop of [_load_configurations] over the stored configurations,
    each given as the outcome of building the [ServiceConfig] from its
    stored [config_data]. *)
Fixpoint load_each (self : t) (db_configs : list (result ServiceConfig.t))
    : result unit * t :=
  match db_configs with
  | [] => (Ok tt, self)
  | Raise e :: _ => (Raise e, self)
  | Ok config :: rest =>
      (* Check if already scheduled *)
      if is_some (_scheduled_jobs self !! ServiceConfig.config_id config)
      then load_each self rest
      else
        match schedule_validation self config with
        | (Ok _, self) => load_each self rest
        | (Raise e, self) => (Raise e, self)
        end
  end.

(** Load enabled configurations and schedule them; [get_all_enabled] is
    the outcome of the query.  Whatever is raised is logged. *)
Definition _load_configurations (self : t)
    (get_all_enabled : result (list (result ServiceConfig.t))) : t :=
  match get_all_enabled with
  | Ok db_configs => (load_each self db_configs).2
  | Raise _ => self
  end.
End WithLibraries.
End ValidationScheduler.

(** Library functions for the runs of the scheduler: an id is printed
    as its number, and only the nightly expression is a crontab. *)
Definition numbered_uuid (id : UUID) : string := pretty id.

Definition nightly_only (expression : string) : option Exn :=
  if String.eqb expression "0 2 * * *" then None
  else Some (mkExn OtherException "Wrong number of fields; got 2, expected 5").

Definition nightly_config : ServiceConfig.t :=
  ServiceConfig.mk 2 "E-Commerce Validation" payment_service [] [payment_rule]
    (Some "0 2 * * *") 60 true.

Definition mistyped_config : ServiceConfig.t :=
  ServiceConfig.mk 2 "E-Commerce Validation" payment_service [] [payment_rule]
    (Some "every night") 60 true.

Definition idle_scheduler : ValidationScheduler.t := ValidationScheduler.mk ∅ ∅.

(** The scheduler with the nightly job of configuration 2. *)
Definition nightly_scheduler : ValidationScheduler.t :=
  ValidationScheduler.mk
    {[ "validation_2" := Job.mk (CronTrigger "0 2 * * *") nightly_config 1 ]}
    {[ 2%N := "validation_2" ]}.

(** * Properties *)

(** ** Reasoning in the monad *)

Lemma bind_ok {A B} (m : M A) (f : A -> M B) w a w1 :
  m w = (Ok a, w1) → (m ≫= f) w = f a w1.
Proof. intros H. unfold mbind, M_bind, bind. by rewrite H. Qed.

Lemma bind_raise {A B} (m : M A) (f : A -> M B) w e w1 :
  m w = (Raise e, w1) → (m ≫= f) w = (Raise e, w1).
Proof. intros H. unfold mbind, M_bind, bind. by rewrite H. Qed.

Lemma try_except_ok {A} (m : M A) h w a w1 :
  m w = (Ok a, w1) → try_except m h w = (Ok a, w1).
Proof. intros H. unfold try_except. by rewrite H. Qed.

Lemma try_except_raise {A} (m : M A) h w e w1 :
  m w = (Raise e, w1) → try_except m h w = h e w1.
Proof. intros H. unfold try_except. by rewrite H. Qed.

Lemma bind_inv_ok {A B} (m : M A) (f : A -> M B) w b w' :
  (m ≫= f) w = (Ok b, w') → ∃ a w1, m w = (Ok a, w1) ∧ f a w1 = (Ok b, w').
Proof.
  unfold mbind, M_bind, bind. destruct (m w) as [[a|e] w1]; [eauto | done].
Qed.

Lemma ret_inv_ok {A} (a b : A) w w' : ret a w = (Ok b, w') → b = a ∧ w' = w.
Proof. unfold ret. by intros [= -> ->]. Qed.

(** ** Cancellation (C10) *)

Section Cancellation.
Context (env : Env).
Import ValidationOrchestrationService.

(** C10. [cancel_validation] always returns; it returns [True] exactly
    when a run with the given id is registered with status in-progress,
    and then that run (and nothing else) becomes cancelled with its
    completion time set; in every other case (unknown id, run already in
    a terminal state) it returns [False] and the whole state, registry
    included, is unchanged. *)
Theorem cancel_validation_atomic (validation_id : UUID) (w : World) :
  ∃ (cancelled : bool) (w' : World),
    cancel_validation env validation_id w = (Ok cancelled, w')
    ∧ (cancelled = true ↔
       ∃ run, _active_validations w !! validation_id = Some run
              ∧ ValidationResult.status run = IN_PROGRESS)
    ∧ (cancelled = true →
       ∃ run, _active_validations w !! validation_id = Some run
              ∧ _active_validations w'
                = <[validation_id := mark_cancelled run (clock w')]>
                    (_active_validations w)
              ∧ ValidationResult.status (mark_cancelled run (clock w')) = CANCELLED
              ∧ ValidationResult.completed_at (mark_cancelled run (clock w'))
                = Some (clock w'))
    ∧ (cancelled = false → w' = w)
    ∧ (∀ run, _active_validations w !! validation_id = Some run →
              terminal (ValidationResult.status run) →
              cancelled = false ∧ _active_validations w' !! validation_id = Some run).
Proof.
  unfold cancel_validation, registered, mbind, M_bind, bind.
  destruct (_active_validations w !! validation_id) as [run|] eqn:Hreg.
  - destruct (ValidationResult.status run) eqn:Hst.
    2:{ exists true. eexists. split; [reflexivity|]. cbn.
        split; [split; [intros _; by exists run | done]|].
        split; [intros _; by exists run|].
        split; [done|].
        intros run' [= <-] Hterm. destruct Hterm as [?|[?|?]]; congruence. }
    all: exists false, w; split; [reflexivity|].
    all: split; [split; [done | intros (run' & Hrun' & Hst'); congruence]|].
    all: split; [done|]; split; [done|].
    all: intros run' [= <-] _; done.
  - exists false, w. split; [reflexivity|].
    split; [split; [done | intros (run' & Hrun' & _); congruence]|].
    split; [done|]. split; [done|]. intros run' Hrun'. congruence.
Qed.
End Cancellation.

(** A run of the service: a validation is registered and cancelled; the
    second cancellation and the cancellation of an unknown id change
    nothing. *)
Example cancel_twice :
  ∃ w1 w2,
    ValidationOrchestrationService.begin_validation silent_env demo_config 7 w0
    = (Ok tt, w1)
    ∧ ValidationOrchestrationService.cancel_validation silent_env 7 w1 = (Ok true, w2)
    ∧ ValidationResult.status <$> _active_validations w2 !! 7%N = Some CANCELLED
    ∧ ValidationOrchestrationService.cancel_validation silent_env 7 w2 = (Ok false, w2)
    ∧ ValidationOrchestrationService.cancel_validation silent_env 8 w2 = (Ok false, w2).
Proof. do 2 eexists. repeat split; vm_compute; reflexivity. Qed.

(** A run that [start_validation] has finished is not cancelled any more. *)
Example cancel_after_finish :
  ∃ result w1,
    ValidationOrchestrationService.start_validation silent_env demo_config 7 None w0
    = (Ok result, w1)
    ∧ ValidationResult.status result = FAILED
    ∧ _active_validations w1 !! 7%N = Some result
    ∧ ValidationOrchestrationService.cancel_validation silent_env 7 w1 = (Ok false, w1).
Proof. do 2 eexists. repeat split; vm_compute; reflexivity. Qed.

(** ** Credential resolution (C8) *)

Section Credentials.
Context (env : Env).
Import AuthHandler.

Lemma dict_truthy_lookup {V} (d : gmap string V) k :
  dict_truthy d = false → d !! k = None.
Proof.
  unfold dict_truthy. intros H. apply negb_false_iff, bool_decide_eq_true in H.
  subst d. apply lookup_empty.
Qed.

Lemma str_truthy_ne s : s ≠ "" → str_truthy s = true.
Proof.
  intros H. unfold str_truthy. apply negb_true_iff.
  by apply String.eqb_neq.
Qed.

(** The Authorization header after the explicit headers are merged. *)
Lemma merged_authorization (auth_config : AuthConfig.t) (headers : gmap string string) v :
  headers !! "Authorization" = Some v →
  match AuthConfig.headers auth_config with
  | Some h => if dict_truthy h then update headers h else headers
  | None => headers
  end !! "Authorization"
  = Some (default v (explicit_headers auth_config !! "Authorization")).
Proof.
  intros Hv. unfold explicit_headers, update.
  destruct (AuthConfig.headers auth_config) as [h|]; cbn.
  - destruct (dict_truthy h) eqn:Hh.
    + rewrite lookup_union. destruct (h !! "Authorization"); rewrite Hv; done.
    + rewrite (dict_truthy_lookup _ _ Hh). by rewrite Hv.
  - by rewrite lookup_empty, Hv.
Qed.

(** C8 (amended). For an OAuth2 descriptor with a non-empty pre-supplied
    access token: when it also carries client id, client secret and
    token endpoint, resolution succeeds without any external call (the
    world is unchanged) and the Authorization header is
    [Bearer <token>], unless the descriptor's explicit headers set
    Authorization themselves (explicit headers win); when one of the
    three is missing, resolution raises [AuthenticationError], again
    without any external call. *)
Theorem oauth2_presupplied_token (endpoint : string) (auth_config : AuthConfig.t)
    (additional_headers : option (gmap string string)) (token : string) (w : World) :
  AuthConfig.auth_type auth_config = OAUTH2 →
  AuthConfig.credentials auth_config !! "access_token" = Some token →
  token ≠ "" →
  (oauth2_required_fields auth_config = true →
   ∃ headers,
     authenticate env endpoint auth_config additional_headers w = (Ok headers, w)
     ∧ headers !! "Authorization"
       = Some (default ("Bearer " +:+ token)
                 (explicit_headers auth_config !! "Authorization")))
  ∧ (oauth2_required_fields auth_config = false →
     authenticate env endpoint auth_config additional_headers w
     = (Raise (mkExn AuthenticationError
                 ("Authentication failed: "
                  +:+ "OAuth2 requires client_id, client_secret, and token_endpoint")),
        w)).
Proof.
  intros Htype Htoken Hne.
  assert (Hall : forallb opt_truthy
                   [AuthConfig.credentials auth_config !! "client_id";
                    AuthConfig.credentials auth_config !! "client_secret";
                    AuthConfig.token_endpoint auth_config]
                 = oauth2_required_fields auth_config).
  { unfold oauth2_required_fields. cbn. by rewrite andb_true_r, andb_assoc. }
  split; intros Hreq.
  - eexists. split.
    + unfold authenticate. rewrite Htype.
      apply try_except_ok. erewrite bind_ok; [reflexivity|].
      unfold _handle_oauth2. rewrite Hall, Hreq, Htoken. cbn.
      rewrite (str_truthy_ne _ Hne). reflexivity.
    + apply merged_authorization. unfold update.
      apply lookup_union_Some_l, lookup_singleton_eq.
  - unfold authenticate. rewrite Htype.
    pose (e := mkExn AuthenticationError
                 "OAuth2 requires client_id, client_secret, and token_endpoint").
    rewrite (try_except_raise _ _ w e w); [reflexivity|].
    apply bind_raise. unfold _handle_oauth2. rewrite Hall, Hreq. reflexivity.
Qed.
End Credentials.

Lemma oauth2_presupplied_token_witness :
  ∃ headers,
    AuthHandler.authenticate silent_env "https://api.example.com" oauth_complete None w0
    = (Ok headers, w0)
    ∧ headers !! "Authorization" = Some "Bearer tok".
Proof.
  destruct (oauth2_presupplied_token silent_env "https://api.example.com"
              oauth_complete None "tok" w0) as [Hpresent _];
    [reflexivity | reflexivity | discriminate |].
  destruct (Hpresent eq_refl) as (headers & Hrun & Hauth).
  exists headers. split; [exact Hrun | exact Hauth].
Defined.

(** C8, as stated, fails: a descriptor that carries a pre-supplied access
    token and nothing else is rejected instead of being turned into a
    [Bearer] header. *)
Lemma oauth2_token_only_rejected :
  AuthConfig.auth_type oauth_token_only = OAUTH2
  ∧ AuthConfig.credentials oauth_token_only !! "access_token" = Some "tok"
  ∧ AuthHandler.authenticate silent_env "https://api.example.com" oauth_token_only None w0
    = (Raise (mkExn AuthenticationError
                "Authentication failed: OAuth2 requires client_id, client_secret, and token_endpoint"),
       w0).
Proof. repeat split; vm_compute; reflexivity. Qed.

(** ** Strings: occurrence *)

Lemma split_first_unfold (sep s : string) :
  split_first sep s
  = if String.prefix sep s
    then Some (EmptyString, drop_string (String.length sep) s)
    else match s with
         | EmptyString => None
         | String c s' =>
             match split_first sep s' with
             | Some (before, after) => Some (String c before, after)
             | None => None
             end
         end.
Proof. by destruct s. Qed.

Lemma split_first_later (sep s : string) (c : ascii) :
  is_some (split_first sep s) = true →
  is_some (split_first sep (String c s)) = true.
Proof.
  intros H. rewrite split_first_unfold.
  destruct (String.prefix sep (String c s)); [done|].
  by destruct (split_first sep s) as [[??]|].
Qed.

Lemma str_contains_is_some (sep s : string) :
  str_contains sep s = is_some (split_first sep s).
Proof. unfold str_contains. by destruct (split_first sep s). Qed.

(** An occurrence in [s] is an occurrence in [pre + s]. *)
Lemma str_contains_app_r (pre sep s : string) :
  str_contains sep s = true → str_contains sep (pre +:+ s) = true.
Proof.
  rewrite !str_contains_is_some. intros H.
  induction pre as [|c pre IH].
  - exact H.
  - change (is_some (split_first sep (String c (pre +:+ s))) = true).
    by apply split_first_later.
Qed.

(** ** Consistency checker (C2, C3) *)

Section Verification.
Context (env : Env).
Import CrossVerificationAgent.

Lemma absent_or_failed_available service snapshots :
  absent_or_failed service snapshots ↔
  available (find_snapshot service snapshots) = None.
Proof.
  unfold absent_or_failed, available.
  destruct (find_snapshot service snapshots) as [s|]; [|by split; [|left]].
  destruct (DataSnapshot.success s) eqn:Hs; split.
  - intros [?|(s' & [= <-] & ?)]; [done | congruence].
  - done.
  - done.
  - intros _. right. by exists s.
Qed.

Lemma data_not_available_shape rule role service :
  VerificationResult.passed (data_not_available rule role service) = PBool false
  ∧ mentions "data not available"
      (VerificationResult.message (data_not_available rule role service)).
Proof.
  split; [done|]. eexists. split; [reflexivity|].
  do 3 apply str_contains_app_r. reflexivity.
Qed.

(** C2. When the source snapshot of a rule is absent from the snapshot
    set or has [success=false], or when the rule names a target service
    (a non-empty id, which is what the code tests) whose snapshot is
    absent or has [success=false], the evaluation of the rule returns an
    outcome with [passed=False] whose message contains "data not
    available", and the world after the evaluation is the world before
    it: nothing was asked of the inference capability (nor of anything
    else). *)
Theorem verify_rule_short_circuit (rule : ValidationRule.t)
    (snapshots : list DataSnapshot.t) (w : World) :
  absent_or_failed (ValidationRule.source_service rule) snapshots
  ∨ (∃ target, ValidationRule.target_service rule = Some target
               ∧ target ≠ ""
               ∧ absent_or_failed target snapshots) →
  ∃ outcome,
    _verify_rule env rule snapshots w = (Ok outcome, w)
    ∧ VerificationResult.rule_id outcome = ValidationRule.rule_id rule
    ∧ VerificationResult.passed outcome = PBool false
    ∧ mentions "data not available" (VerificationResult.message outcome).
Proof.
  intros H. unfold _verify_rule, try_except.
  destruct (available (find_snapshot (ValidationRule.source_service rule) snapshots))
    as [source|] eqn:Hsource.
  - destruct H as [H|(target & Htarget & Hne & H)].
    { apply absent_or_failed_available in H. congruence. }
    apply absent_or_failed_available in H.
    rewrite Htarget. cbn [opt_truthy default].
    rewrite (str_truthy_ne _ Hne). unfold id. rewrite H. cbn.
    eexists. split; [reflexivity|]. split; [done|].
    apply data_not_available_shape.
  - cbn. eexists. split; [reflexivity|]. split; [done|].
    apply data_not_available_shape.
Qed.
End Verification.

Lemma verify_rule_short_circuit_witness :
  ∃ outcome,
    CrossVerificationAgent._verify_rule silent_env payment_rule [payment_snapshot] w0
    = (Ok outcome, w0)
    ∧ VerificationResult.passed outcome = PBool false
    ∧ mentions "data not available" (VerificationResult.message outcome).
Proof.
  destruct (verify_rule_short_circuit silent_env payment_rule [payment_snapshot] w0)
    as (outcome & Hrun & _ & Hpassed & Hmessage).
  - right. exists "order-service". split; [reflexivity|].
    split; [discriminate|]. left. reflexivity.
  - exists outcome. split; [exact Hrun|]. split; [exact Hpassed | exact Hmessage].
Defined.

Section Delegation.
Context (env : Env).
Import CrossVerificationAgent.

Lemma split_1_contains (sep s : string) :
  str_contains sep s = true → is_some (split_1 sep s) = true.
Proof.
  unfold str_contains, split_1.
  by destruct (split_first sep s) as [[??]|].
Qed.

(** The way to [json.loads] never fails. *)
Lemma fenced_json_text_total (reply : string) :
  ∃ text, fenced_json_text reply = Some text.
Proof.
  unfold fenced_json_text.
  destruct (str_contains "```json" (strip reply)) eqn:Hjson.
  { apply split_1_contains in Hjson.
    destruct (split_1 "```json" (strip reply)); [eauto | done]. }
  destruct (str_contains "```" (strip reply)) eqn:Hfence; [|eauto].
  apply split_1_contains in Hfence.
  destruct (split_1 "```" (strip reply)); [eauto | done].
Qed.

Lemma ai_cross_verify_delegates rule source target prompt w :
  cross_verify_prompt env rule source target = Ok prompt →
  _ai_cross_verify env rule source target w = ai_verify env rule prompt w.
Proof. intros H. unfold _ai_cross_verify. by erewrite bind_ok; [|unfold lift; rewrite H]. Qed.

Lemma ai_single_verify_delegates rule source prompt w :
  single_verify_prompt env rule source = Ok prompt →
  _ai_single_verify env rule source w = ai_verify env rule prompt w.
Proof. intros H. unfold _ai_single_verify. by erewrite bind_ok; [|unfold lift; rewrite H]. Qed.

(** [ai_verify], case by case. *)
Lemma ai_verify_cases (rule : ValidationRule.t) (prompt : string) (w : World) :
  let w' := mkWorld (EvAgentRun VerifierChat prompt :: history w) (clock w)
              (_active_validations w) in
  ai_verify env rule prompt w
  = match agent_run env (history w) VerifierChat prompt with
    | Raise e => (Ok (failure_outcome rule e), w')
    | Ok reply =>
        match fenced_json_text reply with
        | None => (Ok (failure_outcome rule (mkExn IndexError (error_text env IndexError))), w')
        | Some text =>
            match json_loads env text with
            | Raise e => (Ok (failure_outcome rule e), w')
            | Ok (PDict d) =>
                (Ok (new_VerificationResult (ValidationRule.rule_id rule)
                       (dict_get "passed" (PBool false) d)
                       (dict_get "message" (PStr "Verification completed") d)
                       (Some (PDict d))), w')
            | Ok _ =>
                (Ok (failure_outcome rule
                       (mkExn AttributeError (error_text env AttributeError))), w')
            end
        end
    end.
Proof.
  intros w'. unfold ai_verify, try_except, mbind, M_bind, bind, perform.
  destruct (agent_run env (history w) VerifierChat prompt) as [reply|e]; [|done].
  unfold extract_json_text.
  destruct (fenced_json_text reply) as [text|]; [|done].
  cbn. unfold lift.
  destruct (json_loads env text) as [v|e]; [|done].
  destruct v; done.
Qed.

(** C3 (amended). A rule evaluation that reaches the delegation step
    always returns an outcome, after exactly one call of the inference
    capability.  When the call raises, when the reply does not parse, or
    when it parses to something that is not a JSON object, the outcome
    has [passed=False] and a message "AI verification failed: ..." that
    names the failure.  When the reply parses to an object without the
    field [passed], the outcome has [passed=False] as well, but its
    message is the [message] field of the reply, or "Verification
    completed" when there is none.  None of these failures yields
    [passed=True]. *)
Theorem inference_failure_never_passes (rule : ValidationRule.t) (prompt : string)
    (w : World) :
  ∃ outcome w',
    ai_verify env rule prompt w = (Ok outcome, w')
    ∧ history w' = EvAgentRun VerifierChat prompt :: history w
    ∧ (∀ e, agent_run env (history w) VerifierChat prompt = Raise e →
            VerificationResult.passed outcome = PBool false
            ∧ VerificationResult.message outcome
              = PStr ("AI verification failed: " +:+ exn_str e))
    ∧ (∀ reply text e,
          agent_run env (history w) VerifierChat prompt = Ok reply →
          fenced_json_text reply = Some text →
          json_loads env text = Raise e →
          VerificationResult.passed outcome = PBool false
          ∧ VerificationResult.message outcome
            = PStr ("AI verification failed: " +:+ exn_str e))
    ∧ (∀ reply text v,
          agent_run env (history w) VerifierChat prompt = Ok reply →
          fenced_json_text reply = Some text →
          json_loads env text = Ok v →
          (∀ d, v ≠ PDict d) →
          VerificationResult.passed outcome = PBool false
          ∧ names_failure (VerificationResult.message outcome))
    ∧ (∀ reply text d,
          agent_run env (history w) VerifierChat prompt = Ok reply →
          fenced_json_text reply = Some text →
          json_loads env text = Ok (PDict d) →
          dict_lookup "passed" d = None →
          VerificationResult.passed outcome = PBool false
          ∧ VerificationResult.message outcome
            = dict_get "message" (PStr "Verification completed") d).
Proof.
  pose proof (ai_verify_cases rule prompt w) as Hcases. cbv zeta in Hcases.
  destruct (agent_run env (history w) VerifierChat prompt) as [reply|e] eqn:Hrun.
  - destruct (fenced_json_text_total reply) as [text Htext].
    rewrite Htext in Hcases.
    destruct (json_loads env text) as [v|e] eqn:Hloads.
    + destruct v as [| | | | | |d];
        try (do 2 eexists; split; [exact Hcases|]; split; [done|];
             split; [done|]; split; [intros ??? [= <-]; congruence|];
             split; [intros ??? [= <-] ? ? _; split; [done | by eexists]
                    | intros ??? [= <-]; congruence]).
      do 2 eexists. split; [exact Hcases|]. split; [done|].
      split; [done|]. split; [intros ??? [= <-]; congruence|].
      split.
      * intros ? text' v [= <-] ? ? Hnot.
        assert (text' = text) as -> by congruence.
        assert (v = PDict d) as -> by congruence.
        by destruct (Hnot d).
      * intros ? text' d' [= <-] ? ? Hmissing.
        assert (text' = text) as -> by congruence.
        assert (d' = d) as -> by congruence.
        split; [|done]. cbn. unfold dict_get. by rewrite Hmissing.
    + do 2 eexists. split; [exact Hcases|]. split; [done|]. split; [done|].
      split.
      { intros ? text' e' [= <-] ? ?.
        assert (text' = text) as -> by congruence.
        assert (e' = e) as -> by congruence. done. }
      split; intros ? text' ? [= <-] ? ?;
        (assert (text' = text) as -> by congruence); congruence.
  - do 2 eexists. split; [exact Hcases|]. split; [done|].
    split; [by intros ? [= <-]|]. repeat split; intros; congruence.
Qed.
End Delegation.

(** C3, as stated, fails: the verification agent answers [{}], a parsed
    response without the field [passed]; the outcome has [passed=False],
    but its message is "Verification completed", which names no failure. *)
Lemma missing_passed_names_no_failure :
  ∃ outcome w',
    CrossVerificationAgent._ai_single_verify empty_reply_env payment_rule
      payment_snapshot w0 = (Ok outcome, w')
    ∧ agent_run empty_reply_env (history w0) VerifierChat "single-verify" = Ok "{}"
    ∧ json_loads empty_reply_env "{}" = Ok (PDict [])
    ∧ dict_lookup "passed" [] = None
    ∧ VerificationResult.passed outcome = PBool false
    ∧ VerificationResult.message outcome = PStr "Verification completed"
    ∧ ¬ names_failure (VerificationResult.message outcome).
Proof.
  do 2 eexists. split; [vm_compute; reflexivity|].
  repeat split. intros [detail H]. discriminate H.
Qed.

(** ** Anomaly aggregation (C4, C5, C7) *)

Section Aggregation.
Context (env : Env).
Import AnomalyDetectionAgent.

Lemma severity_value_inj : Inj (=) (=) severity_value.
Proof. intros [] []; done. Qed.

Lemma count_severity_cons sev a anomalies :
  count_severity sev (a :: anomalies)
  = (if decide (Anomaly.severity a = sev) then 1 else 0)
    + count_severity sev anomalies.
Proof.
  unfold count_severity. rewrite filter_cons.
  destruct (decide (Anomaly.severity a = sev)); cbn [length]; lia.
Qed.

(** Every anomaly is counted under exactly one severity. *)
Lemma count_severity_partition anomalies :
  count_severity CRITICAL anomalies + count_severity HIGH anomalies
  + count_severity MEDIUM anomalies + count_severity LOW anomalies
  = Z.of_nat (length anomalies).
Proof.
  induction anomalies as [|a anomalies IH]; [done|].
  rewrite !count_severity_cons. cbn [length].
  destruct (Anomaly.severity a); repeat case_decide; try done; lia.
Qed.

Lemma count_severity_nonneg sev anomalies : 0 <= count_severity sev anomalies.
Proof. unfold count_severity. lia. Qed.

Lemma getitem_inv (d : gmap string Z) k v w w' :
  getitem env d k w = (Ok v, w') → d !! k = Some v ∧ w' = w.
Proof.
  unfold getitem. destruct (d !! k); [|done]. by intros [= -> ->].
Qed.

Lemma getitem_ok (d : gmap string Z) k v w :
  d !! k = Some v → getitem env d k w = (Ok v, w).
Proof. intros H. unfold getitem. by rewrite H. Qed.

(** The loop over the anomalies: no key is ever missing, and every
    counter grows by the number of anomalies of its severity. *)
Lemma count_by_severity_spec anomalies (counts : gmap string Z) w :
  (∀ sev, is_Some (counts !! severity_value sev)) →
  ∃ counts',
    count_by_severity env counts anomalies w = (Ok counts', w)
    ∧ ∀ sev c, counts !! severity_value sev = Some c →
               counts' !! severity_value sev = Some (c + count_severity sev anomalies).
Proof.
  revert counts. induction anomalies as [|a anomalies IH]; intros counts Hkeys.
  - exists counts. split; [done|]. intros sev c Hc.
    unfold count_severity. cbn. by rewrite Z.add_0_r.
  - destruct (Hkeys (Anomaly.severity a)) as [v Hv].
    destruct (IH (<[severity_value (Anomaly.severity a) := v + 1]> counts))
      as (counts' & Hrun & Hcounts).
    { intros sev. rewrite lookup_insert. case_decide; [by eexists | apply Hkeys]. }
    exists counts'. split.
    + cbn [count_by_severity]. erewrite bind_ok; [exact Hrun|].
      unfold getitem. by rewrite Hv.
    + intros sev c Hc. rewrite count_severity_cons.
      destruct (decide (Anomaly.severity a = sev)) as [<-|Hne].
      * rewrite (Hcounts (Anomaly.severity a) (v + 1)).
        -- f_equal. assert (c = v) by congruence. lia.
        -- apply lookup_insert_eq.
      * rewrite (Hcounts sev c); [done|].
        rewrite lookup_insert_ne; [done|].
        intros Heq. by apply severity_value_inj in Heq.
Qed.

Lemma new_AnomalyReport_inv validation_id total critical high medium low
    anomalies recommendations alert_triggered alert_sent_at w report w' :
  new_AnomalyReport env validation_id total critical high medium low anomalies
    recommendations alert_triggered alert_sent_at w = (Ok report, w') →
  ∃ report_id generated_at strs,
    report = AnomalyReport.mk report_id validation_id generated_at total critical
               high medium low anomalies strs alert_triggered alert_sent_at.
Proof.
  unfold new_AnomalyReport. intros H.
  apply bind_inv_ok in H as (report_id & w1 & _ & H).
  apply bind_inv_ok in H as (generated_at & w2 & _ & H).
  apply bind_inv_ok in H as (strs & w3 & _ & H).
  destruct (_ && _); [|done].
  apply ret_inv_ok in H as [-> _]. eauto.
Qed.

(** What a generated report holds. *)
Lemma generate_report_fields validation_id anomalies verification_results w report w' :
  _generate_report env validation_id anomalies verification_results w = (Ok report, w') →
  AnomalyReport.anomalies report = anomalies
  ∧ AnomalyReport.total_anomalies report = Z.of_nat (length anomalies)
  ∧ AnomalyReport.critical_count report = count_severity CRITICAL anomalies
  ∧ AnomalyReport.high_count report = count_severity HIGH anomalies
  ∧ AnomalyReport.medium_count report = count_severity MEDIUM anomalies
  ∧ AnomalyReport.low_count report = count_severity LOW anomalies
  ∧ AnomalyReport.alert_triggered report
    = (0 <? count_severity CRITICAL anomalies)
      || (3 <=? count_severity HIGH anomalies)
      || (5 <=? Z.of_nat (length anomalies))
  ∧ (is_Some (AnomalyReport.alert_sent_at report)
     ↔ AnomalyReport.alert_triggered report = true).
Proof.
  unfold _generate_report. intros H.
  destruct (count_by_severity_spec anomalies
              {[ "critical" := 0; "high" := 0; "medium" := 0; "low" := 0 ]} w)
    as (counts & Hcount & Hcounts).
  { intros []; by eexists. }
  apply bind_inv_ok in H as (counts' & w1 & Hcount' & H).
  rewrite Hcount in Hcount'. injection Hcount' as <- <-.
  apply bind_inv_ok in H as (recommendations & w2 & _ & H).
  pose proof (Hcounts CRITICAL 0 eq_refl) as Hcritical.
  pose proof (Hcounts HIGH 0 eq_refl) as Hhigh.
  pose proof (Hcounts MEDIUM 0 eq_refl) as Hmedium.
  pose proof (Hcounts LOW 0 eq_refl) as Hlow.
  cbn [severity_value] in *. rewrite Z.add_0_l in *.
  apply bind_inv_ok in H as (critical & w3 & [Hc ->]%getitem_inv & H).
  apply bind_inv_ok in H as (high & w4 & [Hh ->]%getitem_inv & H).
  apply bind_inv_ok in H as (critical_count & w5 & [Hc' ->]%getitem_inv & H).
  apply bind_inv_ok in H as (high_count & w6 & [Hh' ->]%getitem_inv & H).
  apply bind_inv_ok in H as (medium_count & w7 & [Hm ->]%getitem_inv & H).
  apply bind_inv_ok in H as (low_count & w8 & [Hl ->]%getitem_inv & H).
  assert (critical = count_severity CRITICAL anomalies) as -> by congruence.
  assert (high = count_severity HIGH anomalies) as -> by congruence.
  assert (critical_count = count_severity CRITICAL anomalies) as -> by congruence.
  assert (high_count = count_severity HIGH anomalies) as -> by congruence.
  assert (medium_count = count_severity MEDIUM anomalies) as -> by congruence.
  assert (low_count = count_severity LOW anomalies) as -> by congruence.
  apply bind_inv_ok in H as (alert_sent_at & w9 & Hsent & H).
  apply new_AnomalyReport_inv in H as (report_id & generated_at & strs & ->).
  cbn. repeat split; try done.
  - intros Hsome.
    destruct ((0 <? _) || (3 <=? _) || (5 <=? _)); [done|].
    apply ret_inv_ok in Hsent as [-> _]. by destruct Hsome.
  - intros Htrig. rewrite Htrig in Hsent.
    apply bind_inv_ok in Hsent as (now & w10 & _ & Hsent).
    apply ret_inv_ok in Hsent as [-> _]. by eexists.
Qed.
End Aggregation.

Section Dispatch.
Context (env : Env).
Import AlertAgent.

(** Whatever its configuration, the alert stage hands the report on as
    it received it. *)
Lemma process_alerts_keeps_report (self : AlertAgent.t) data w out w' :
  process_alerts env self data w = (Ok out, w') →
  WorkflowData.anomaly_report out = WorkflowData.anomaly_report data.
Proof.
  unfold process_alerts. intros H.
  destruct (WorkflowData.anomaly_report data) as [report|] eqn:Hreport.
  - destruct (negb _ || _).
    + apply ret_inv_ok in H as [-> _]. done.
    + apply bind_inv_ok in H as (message & w1 & _ & H).
      apply bind_inv_ok in H as (results & w2 & _ & H).
      apply ret_inv_ok in H as [-> _]. done.
  - apply ret_inv_ok in H as [-> _]. done.
Qed.
End Dispatch.

Section AllChannels.
Context (env : Env).
Import AlertAgent.

(** X20. The results of [_send_alerts] are right when all three channels are
    switched on and have their destinations: the map has exactly the
    entries [email], [slack] and [webhook], each the result object of its
    own channel, whether or not the other sends failed. *)
Lemma send_alerts_all_channels (cfg : AlertConfig.t) (message : string)
    (report : AnomalyReport.t) (w : World) :
  AlertConfig.email_enabled cfg = true →
  AlertConfig.email_recipients cfg ≠ [] →
  AlertConfig.slack_enabled cfg = true →
  opt_truthy (AlertConfig.slack_webhook cfg) = true →
  AlertConfig.webhook_enabled cfg = true →
  opt_truthy (AlertConfig.webhook_url cfg) = true →
  ∃ results w',
    _send_alerts env (AlertAgent.mk (Some cfg)) message report w = (Ok results, w')
    ∧ dom results = {[ "email"; "slack"; "webhook" ]}
    ∧ ∀ channel, channel ∈ ["email"; "slack"; "webhook"] →
        ∃ d, results !! channel = Some (Some (Returned (PDict d)))
             ∧ dict_lookup "channel" d = Some (PStr channel).
Proof.
  intros Hemail Hrecipients Hslack Hhook Hwebhook Hurl.
  unfold _send_alerts. cbn [alert_config].
  rewrite Hemail, Hslack, Hhook, Hwebhook, Hurl.
  destruct (AlertConfig.email_recipients cfg) as [|recipient recipients] eqn:Hlist;
    [done|].
  unfold mbind, M_bind, bind. cbn.
  unfold _send_slack_alert, _send_webhook_alert, try_except, mbind, M_bind, bind,
    perform, utcnow. cbn.
  repeat match goal with
         | |- context [http_post env ?h ?url] => destruct (http_post env h url); cbn
         end;
    (do 2 eexists; split; [reflexivity|]; split;
          [ rewrite !dom_insert_L, dom_empty_L; set_solver
          | intros channel Hin;
            repeat (apply elem_of_cons in Hin as [->|Hin]);
            [ | | | by apply elem_of_nil in Hin ];
            eexists; (split; [reflexivity|]); reflexivity ]).
Qed.
End AllChannels.

Section Reports.
Context (env : Env).
Import AnomalyDetectionAgent.

(** C4. In every generated report the anomaly list is the list that was
    aggregated, [total_anomalies] is its length, each severity counter is
    the number of anomalies of that severity (so every anomaly is
    counted by exactly one counter), and the four counters add up to
    [total_anomalies]. *)
Theorem severity_counts_partition (validation_id : UUID) (anomalies : list Anomaly.t)
    (verification_results : list VerificationResult.t) (w : World)
    (report : AnomalyReport.t) (w' : World) :
  _generate_report env validation_id anomalies verification_results w = (Ok report, w') →
  AnomalyReport.anomalies report = anomalies
  ∧ AnomalyReport.total_anomalies report
    = Z.of_nat (length (AnomalyReport.anomalies report))
  ∧ AnomalyReport.critical_count report
    = count_severity CRITICAL (AnomalyReport.anomalies report)
  ∧ AnomalyReport.high_count report
    = count_severity HIGH (AnomalyReport.anomalies report)
  ∧ AnomalyReport.medium_count report
    = count_severity MEDIUM (AnomalyReport.anomalies report)
  ∧ AnomalyReport.low_count report
    = count_severity LOW (AnomalyReport.anomalies report)
  ∧ AnomalyReport.critical_count report + AnomalyReport.high_count report
    + AnomalyReport.medium_count report + AnomalyReport.low_count report
    = AnomalyReport.total_anomalies report.
Proof.
  intros H.
  apply generate_report_fields in H
    as (Hlist & Htotal & Hcritical & Hhigh & Hmedium & Hlow & _).
  rewrite Hlist, Htotal, Hcritical, Hhigh, Hmedium, Hlow.
  repeat split; try done. apply count_severity_partition.
Qed.

(** C5. In every generated report [alert_triggered] holds exactly when
    the critical count is positive, or the high count is at least 3, or
    there are at least 5 anomalies; a report over no anomalies never
    triggers; and the decision does not depend on any AlertConfig: the
    aggregator is not given one, and the alert stage, whatever its
    AlertConfig, hands the report on unchanged. *)
Theorem alert_trigger_policy (validation_id : UUID) (anomalies : list Anomaly.t)
    (verification_results : list VerificationResult.t) (w : World)
    (report : AnomalyReport.t) (w' : World) :
  _generate_report env validation_id anomalies verification_results w = (Ok report, w') →
  (AnomalyReport.alert_triggered report = true
   ↔ 0 < AnomalyReport.critical_count report
     ∨ 3 <= AnomalyReport.high_count report
     ∨ 5 <= AnomalyReport.total_anomalies report)
  ∧ (anomalies = [] → AnomalyReport.alert_triggered report = false)
  ∧ (∀ (dispatcher : AlertAgent.t) data w1 out w2,
        WorkflowData.anomaly_report data = Some report →
        AlertAgent.process_alerts env dispatcher data w1 = (Ok out, w2) →
        WorkflowData.anomaly_report out = Some report).
Proof.
  intros H.
  apply generate_report_fields in H
    as (Hlist & Htotal & Hcritical & Hhigh & _ & _ & Htrig & _).
  rewrite Htotal, Hcritical, Hhigh, Htrig.
  split; [|split].
  - rewrite !orb_true_iff, Z.ltb_lt, !Z.leb_le. tauto.
  - intros ->. done.
  - intros dispatcher data w1 out w2 Hdata Hrun.
    apply process_alerts_keeps_report in Hrun. congruence.
Qed.

(** C7 (amended). In every generated report the alert-sent timestamp is
    set exactly when [alert_triggered] holds: it is taken when the report
    is generated, before any decision to dispatch.  The alert stage,
    whatever its AlertConfig and whether or not it dispatches, hands the
    report on with that timestamp unchanged. *)
Theorem alert_sent_at_follows_trigger (validation_id : UUID)
    (anomalies : list Anomaly.t) (verification_results : list VerificationResult.t)
    (w : World) (report : AnomalyReport.t) (w' : World) :
  _generate_report env validation_id anomalies verification_results w = (Ok report, w') →
  (is_Some (AnomalyReport.alert_sent_at report)
   ↔ AnomalyReport.alert_triggered report = true)
  ∧ (∀ (dispatcher : AlertAgent.t) data w1 out w2,
        WorkflowData.anomaly_report data = Some report →
        AlertAgent.process_alerts env dispatcher data w1 = (Ok out, w2) →
        ∃ report',
          WorkflowData.anomaly_report out = Some report'
          ∧ AnomalyReport.alert_sent_at report' = AnomalyReport.alert_sent_at report).
Proof.
  intros H.
  apply generate_report_fields in H as (_ & _ & _ & _ & _ & _ & _ & Hsent).
  split; [exact Hsent|].
  intros dispatcher data w1 out w2 Hdata Hrun.
  apply process_alerts_keeps_report in Hrun.
  exists report. split; [congruence | done].
Qed.

(** A report over no anomalies is always generated, with every counter
    at zero and no alert. *)
Lemma generate_report_empty (validation_id : UUID)
    (verification_results : list VerificationResult.t) (w : World) :
  ∃ report w',
    _generate_report env validation_id [] verification_results w = (Ok report, w')
    ∧ AnomalyReport.total_anomalies report = 0
    ∧ AnomalyReport.alert_triggered report = false
    ∧ AnomalyReport.alert_sent_at report = None
    ∧ AnomalyReport.recommendations report
      = ["No anomalies detected. All services are operating normally."].
Proof. do 2 eexists. split; [lazy; reflexivity|]. done. Qed.
End Reports.

Section Fallback.
Context (env : Env).
Import AnomalyDetectionAgent.

(** X18. When the inference capability fails while recommendations are asked
    for, the report is generated all the same, with the five fixed
    recommendations. *)
Lemma generate_report_with_fallback (validation_id : UUID) (anomalies : list Anomaly.t)
    (verification_results : list VerificationResult.t) (w : World)
    (prompt : string) (e : Exn) :
  anomalies ≠ [] →
  recommendations_prompt env anomalies = Ok prompt →
  agent_run env (history w) AnomalyChat prompt = Raise e →
  ∃ report w',
    _generate_report env validation_id anomalies verification_results w = (Ok report, w')
    ∧ AnomalyReport.recommendations report
      = ["Investigate " +:+ pretty (length anomalies) +:+ " detected anomalies";
         "Review service logs for error patterns";
         "Check network connectivity between services";
         "Verify authentication credentials are valid";
         "Consider implementing data reconciliation jobs"].
Proof.
  intros Hne Hprompt Hrun. unfold _generate_report.
  destruct (count_by_severity_spec env anomalies
              {[ "critical" := 0; "high" := 0; "medium" := 0; "low" := 0 ]} w)
    as (counts & Hcount & Hcounts).
  { intros []; by eexists. }
  pose proof (Hcounts CRITICAL 0 eq_refl) as Hcritical.
  pose proof (Hcounts HIGH 0 eq_refl) as Hhigh.
  pose proof (Hcounts MEDIUM 0 eq_refl) as Hmedium.
  pose proof (Hcounts LOW 0 eq_refl) as Hlow.
  cbn [severity_value] in *. rewrite Z.add_0_l in *.
  erewrite bind_ok; [|exact Hcount].
  assert (_generate_recommendations env anomalies verification_results w
          = (Ok [PStr ("Investigate " +:+ pretty (length anomalies)
                       +:+ " detected anomalies");
                 PStr "Review service logs for error patterns";
                 PStr "Check network connectivity between services";
                 PStr "Verify authentication credentials are valid";
                 PStr "Consider implementing data reconciliation jobs"],
             mkWorld (EvAgentRun AnomalyChat prompt :: history w) (clock w)
               (_active_validations w))) as Hrecs.
  { unfold _generate_recommendations.
    destruct anomalies as [|a rest]; [done|].
    unfold try_except, mbind, M_bind, bind, lift, perform.
    rewrite Hprompt, Hrun. reflexivity. }
  erewrite bind_ok; [|exact Hrecs].
  erewrite bind_ok; [|by apply getitem_ok, Hcritical].
  erewrite bind_ok; [|by apply getitem_ok, Hhigh].
  erewrite bind_ok; [|by apply getitem_ok, Hcritical].
  erewrite bind_ok; [|by apply getitem_ok, Hhigh].
  erewrite bind_ok; [|by apply getitem_ok, Hmedium].
  erewrite bind_ok; [|by apply getitem_ok, Hlow].
  assert (((0 <=? Z.of_nat (length anomalies))
           && (0 <=? count_severity CRITICAL anomalies)
           && (0 <=? count_severity HIGH anomalies)
           && (0 <=? count_severity MEDIUM anomalies)
           && (0 <=? count_severity LOW anomalies)) = true) as Hbounds.
  { rewrite !andb_true_iff, !Z.leb_le.
    repeat split; (apply count_severity_nonneg || lia). }
  destruct ((0 <? count_severity CRITICAL anomalies)
            || (3 <=? count_severity HIGH anomalies)
            || (5 <=? Z.of_nat (length anomalies)));
    unfold new_AnomalyReport, mbind, M_bind, bind, utcnow, new_uuid, perform, ret;
    cbn; rewrite Hbounds; do 2 eexists; (split; [reflexivity|]); reflexivity.
Qed.
End Fallback.

Lemma severity_counts_partition_witness :
  ∃ report w',
    AnomalyDetectionAgent._generate_report silent_env 7 [critical_anomaly] [] w0
    = (Ok report, w')
    ∧ AnomalyReport.critical_count report + AnomalyReport.high_count report
      + AnomalyReport.medium_count report + AnomalyReport.low_count report
      = AnomalyReport.total_anomalies report.
Proof.
  do 2 eexists. split; [vm_compute; reflexivity|].
  refine (proj2 (proj2 (proj2 (proj2 (proj2 (proj2
            (severity_counts_partition silent_env 7 [critical_anomaly] [] w0 _ _ _))))))).
  vm_compute. reflexivity.
Defined.

Lemma alert_trigger_policy_witness :
  ∃ report w',
    AnomalyDetectionAgent._generate_report silent_env 7 [critical_anomaly] [] w0
    = (Ok report, w')
    ∧ (AnomalyReport.alert_triggered report = true
       ↔ 0 < AnomalyReport.critical_count report
         ∨ 3 <= AnomalyReport.high_count report
         ∨ 5 <= AnomalyReport.total_anomalies report).
Proof.
  do 2 eexists. split; [vm_compute; reflexivity|].
  refine (proj1 (alert_trigger_policy silent_env 7 [critical_anomaly] [] w0 _ _ _)).
  vm_compute. reflexivity.
Defined.

Lemma alert_sent_at_follows_trigger_witness :
  ∃ report w',
    AnomalyDetectionAgent._generate_report silent_env 7 [critical_anomaly] [] w0
    = (Ok report, w')
    ∧ (is_Some (AnomalyReport.alert_sent_at report)
       ↔ AnomalyReport.alert_triggered report = true).
Proof.
  do 2 eexists. split; [vm_compute; reflexivity|].
  refine (proj1 (alert_sent_at_follows_trigger silent_env 7 [critical_anomaly] [] w0 _ _ _)).
  vm_compute. reflexivity.
Defined.

(** C7, as stated, fails: one critical anomaly, no AlertConfig.  The
    report is generated with an alert-sent timestamp; the alert stage then
    decides not to send ([alerts_sent=False], no channel result, no
    interaction with the outside), and the report it hands on still carries
    the timestamp. *)
Lemma alert_sent_at_without_dispatch :
  ∃ report w1 out w2,
    AnomalyDetectionAgent._generate_report silent_env 7 [critical_anomaly] [] w0
    = (Ok report, w1)
    ∧ AlertAgent.process_alerts silent_env (AlertAgent.mk None) (report_data report) w1
      = (Ok out, w2)
    ∧ WorkflowData.alerts_sent out = Some false
    ∧ WorkflowData.alert_results out = None
    ∧ history w2 = history w1
    ∧ WorkflowData.anomaly_report out = Some report
    ∧ AnomalyReport.alert_sent_at report = Some 7.
Proof.
  do 4 eexists. split; [vm_compute; reflexivity|].
  split; [vm_compute; reflexivity|]. repeat split.
Qed.

(** C6, evaluated where the code departs from it.  Slack is the only
    channel switched on and has its webhook: the send is made (the POST is
    in the history), but the result map has the single entry
    [email: None], and the result of the Slack send is not in it. *)
Lemma send_alerts_loses_slack_result :
  AlertConfig.slack_enabled slack_only = true
  ∧ AlertConfig.slack_webhook slack_only = Some "https://hooks.slack.com/services/T/B/X"
  ∧ AlertConfig.email_enabled slack_only = false
  ∧ AlertAgent._send_alerts silent_env (AlertAgent.mk (Some slack_only)) "alert"
      critical_report w0
    = (Ok {[ "email" := None ]},
       mkWorld [EvPost "https://hooks.slack.com/services/T/B/X"] 0 ∅)
  ∧ ({[ "email" := None ]} : gmap string (option TaskOutcome)) !! "slack" = None.
Proof. repeat split; vm_compute; reflexivity. Qed.

(** With email switched on but without recipients, the Slack result is
    filed under [email], a channel that has no destination. *)
Lemma send_alerts_files_slack_under_email :
  AlertConfig.email_recipients slack_and_unaddressed_email = []
  ∧ AlertAgent._send_alerts silent_env (AlertAgent.mk (Some slack_and_unaddressed_email))
      "alert" critical_report w0
    = (Ok {[ "email" := Some (Returned (PDict [("channel", PStr "slack");
                                                ("success", PBool true);
                                                ("status_code", PInt 200)])) ]},
       mkWorld [EvPost "https://hooks.slack.com/services/T/B/X"] 0 ∅).
Proof. repeat split; vm_compute; reflexivity. Qed.

(** ** Invariants of computations *)

Section Keeps.
Context (env : Env).
Context {A : Type} (Inv : World -> Prop).

Lemma keeps_ret (a : A) (Q : A -> Prop) : Q a → keeps Inv (ret a) Q.
Proof. intros Ha w Hw. split; [done|]. by intros ? [= <-]. Qed.

Lemma keeps_raise (e : Exn) (Q : A -> Prop) : keeps Inv (raise e) Q.
Proof. intros w Hw. split; done. Qed.

Lemma keeps_py_error (c : ExnClass) (Q : A -> Prop) : keeps Inv (py_error env c) Q.
Proof. apply keeps_raise. Qed.

Lemma keeps_lift (r : result A) (Q : A -> Prop) :
  (∀ a, r = Ok a → Q a) → keeps Inv (lift r) Q.
Proof. intros Hr w Hw. split; [done|]. apply Hr. Qed.


Lemma keeps_try (body : M A) (handler : Exn -> M A) (Q : A -> Prop) :
  keeps Inv body Q → (∀ e, keeps Inv (handler e) Q) →
  keeps Inv (try_except body handler) Q.
Proof.
  intros Hbody Hhandler w Hw. unfold try_except.
  destruct (Hbody w Hw) as [Hw1 Hq].
  destruct (body w) as [[a|e] w1]; [by split|].
  by apply Hhandler.
Qed.
End Keeps.

Lemma keeps_bind {A B} (Inv : World -> Prop) (m : M A) (f : A -> M B)
    (R : A -> Prop) (Q : B -> Prop) :
  keeps Inv m R → (∀ a, R a → keeps Inv (f a) Q) → keeps Inv (m ≫= f) Q.
Proof.
  intros Hm Hf w Hw. unfold mbind, M_bind, bind.
  destruct (Hm w Hw) as [Hw1 Hr].
  destruct (m w) as [[a|e] w1]; [|by split].
  apply Hf; auto.
Qed.

(** When nothing is asked of the intermediate result. *)
Lemma keeps_bind_any {A B} (Inv : World -> Prop) (m : M A) (f : A -> M B)
    (Q : B -> Prop) :
  keeps Inv m (fun _ => True) → (∀ a, keeps Inv (f a) Q) → keeps Inv (m ≫= f) Q.
Proof. intros Hm Hf. apply keeps_bind with (R := fun _ => True); auto. Qed.

Lemma keeps_perform {A} (t : datetime) (ev : Event) (answer : list Event -> result A) :
  keeps (since t) (perform ev answer) (fun _ => True).
Proof. intros w Hw. split; done. Qed.

Lemma keeps_utcnow (env : Env) (t : datetime) :
  steady env → keeps (since t) (utcnow env) (fun _ => True).
Proof.
  intros Hsteady w Hw. unfold since, utcnow in *. cbn.
  specialize (Hsteady (history w)). split; [lia | done].
Qed.

(** Computations whose result is not looked at: under a clock that is
    not set back, the clock only advances. *)
Ltac keeps_any :=
  repeat first
    [ apply keeps_ret; exact I
    | apply keeps_raise
    | apply keeps_py_error
    | apply keeps_perform
    | apply keeps_utcnow; assumption
    | apply keeps_lift; intros; exact I
    | apply keeps_bind_any; [ | intros ? ]
    | apply keeps_try; [ | intros ? ]
    | progress cbv zeta
    | match goal with
      | |- keeps _ (match ?x with _ => _ end) _ => destruct x
      end ].

(** ** Service client (C1) *)

Section Fetch.
Context (env : Env).
Import DataFetcherAgent.

Lemma authenticate_since t endpoint auth_config additional_headers :
  keeps (since t) (AuthHandler.authenticate env endpoint auth_config additional_headers)
    (fun _ => True).
Proof.
  unfold AuthHandler.authenticate, AuthHandler._handle_api_key,
    AuthHandler._handle_bearer_token, AuthHandler._handle_basic_auth,
    AuthHandler._handle_oauth2, AuthHandler._handle_service_principal,
    AuthHandler._handle_custom, py_get.
  keeps_any.
Qed.

Lemma structure_data_since t service raw_data :
  keeps (since t) (_structure_data_with_ai env service raw_data) (fun _ => True).
Proof. unfold _structure_data_with_ai, extract_json_text. keeps_any. Qed.

Lemma count_records_since t data :
  keeps (since t) (_count_records env data) (fun _ => True).
Proof.
  unfold _count_records, py_contains_str, py_getitem_str. keeps_any.
Qed.



(** An error snapshot is built when the clock, as [_create_error_snapshot]
    reads it first, has reached the start time: the duration pydantic
    checks is then not negative. *)
Lemma create_error_snapshot_returns service start_time error_message w :
  start_time <= clock w + tick env (history w) →
  ∃ snapshot w',
    _create_error_snapshot env service start_time error_message w = (Ok snapshot, w')
    ∧ DataSnapshot.service_id snapshot = DependentService.service_id service
    ∧ DataSnapshot.success snapshot = false
    ∧ DataSnapshot.error_message snapshot = Some error_message
    ∧ DataSnapshot.data snapshot = []
    ∧ DataSnapshot.record_count snapshot = 0
    ∧ history w' = EvClock :: EvClock :: history w.
Proof.
  intros Hw.
  unfold _create_error_snapshot, mbind, M_bind, bind, utcnow, new_DataSnapshot.
  cbn.
  assert ((0 <=? clock w + tick env (history w) - start_time) = true) as ->
    by (apply Z.leb_le; lia).
  do 2 eexists. split; [reflexivity|]. cbn. repeat split; done.
Qed.

(** It is rejected by pydantic when the clock was set back behind the
    start time: [fetch_duration_ms] is negative. *)
Lemma create_error_snapshot_rejected service start_time error_message w :
  clock w + tick env (history w) < start_time →
  ∃ w',
    _create_error_snapshot env service start_time error_message w
    = (Raise (mkExn ValidationError (error_text env ValidationError)), w')
    ∧ history w' = EvClock :: EvClock :: history w.
Proof.
  intros Hw.
  unfold _create_error_snapshot, mbind, M_bind, bind, utcnow, new_DataSnapshot.
  cbn.
  assert ((0 <=? clock w + tick env (history w) - start_time) = false) as ->
    by (apply Z.leb_gt; lia).
  eexists. split; reflexivity.
Qed.

End Fetch.

(** C1, evaluated where the code departs from it.  A service without a
    health check cannot be reached, and the wall clock is set back by
    three seconds while the request is under way.  The request raises,
    the handler of [_fetch_from_service] calls [_create_error_snapshot],
    and the snapshot is rejected by pydantic for its negative
    [fetch_duration_ms]: the fetch raises a validation error instead of
    returning a snapshot. *)
Lemma fetch_raises_when_clock_is_set_back :
  ∃ w',
    DataFetcherAgent._fetch_from_service set_back_env orders_service w0
    = (Raise (mkExn ValidationError "error"), w')
    ∧ history w' = [EvClock; EvClock; EvGet "https://api.orders.example.com"; EvClock]
    ∧ clock w' = -2999986.
Proof. eexists. split; [vm_compute; reflexivity|]. split; reflexivity. Qed.

(** ** Orchestrator (C9) *)

Section Runs.
Context (env : Env).
Import ValidationOrchestrator.

Lemma check_ValidationResult_inv r r' w w' :
  check_ValidationResult env r w = (Ok r', w') → r' = r ∧ w' = w.
Proof.
  unfold check_ValidationResult. destruct (_ && _); [|done].
  by intros [= -> ->].
Qed.

(** A failed result is always built, and it has no duration. *)
Lemma failed_result_returns validation_id config_id started_at completed_at
    error_message w :
  failed_result env validation_id config_id started_at completed_at error_message w
  = (Ok (ValidationResult.mk validation_id config_id FAILED started_at
           (Some completed_at) None [] 0 0 0 0 (Some error_message) []), w).
Proof. reflexivity. Qed.

(** What the guarded part of a run returns, when it returns. *)
Lemma run_guarded_inv config validation_id alert_config started_at w result w' :
  run_guarded env config validation_id alert_config started_at w = (Ok result, w') →
  ValidationResult.started_at result = started_at
  ∧ ValidationResult.completed_at result = Some (clock w')
  ∧ ((ValidationResult.status result = COMPLETED
      ∧ ValidationResult.duration_seconds result
        = Some ((clock w' - started_at) # 1000000))
     ∨ (ValidationResult.status result = FAILED
        ∧ ValidationResult.duration_seconds result = None)).
Proof.
  unfold run_guarded. intros H.
  apply bind_inv_ok in H as ([] & w1 & _ & H).
  apply bind_inv_ok in H as (events & w2 & _ & H).
  destruct (truthy_output (final_output_of events)) as [output|].
  - apply bind_inv_ok in H as (completed_at & w3 & Hnow & H).
    apply check_ValidationResult_inv in H as [-> ->].
    unfold utcnow in Hnow. injection Hnow as <- <-. cbn. auto.
  - apply bind_inv_ok in H as (completed_at & w3 & Hnow & H).
    rewrite failed_result_returns in H. injection H as <- <-.
    unfold utcnow in Hnow. injection Hnow as <- <-. cbn. auto.
Qed.

(** Every run returns a result, completed or failed; a completed result
    carries the duration (end minus start, in seconds), a failed result
    carries none. *)
Lemma run_validation_terminal config validation_id alert_config w :
  ∃ result w',
    run_validation env config validation_id alert_config w = (Ok result, w')
    ∧ ValidationResult.completed_at result = Some (clock w')
    ∧ ((ValidationResult.status result = COMPLETED
        ∧ ValidationResult.duration_seconds result
          = Some ((clock w' - ValidationResult.started_at result) # 1000000))
       ∨ (ValidationResult.status result = FAILED
          ∧ ValidationResult.duration_seconds result = None)).
Proof.
  unfold run_validation.
  destruct (utcnow env w) as [r w0] eqn:Hnow.
  unfold utcnow in Hnow. injection Hnow as <- <-.
  erewrite bind_ok; [|reflexivity].
  match goal with
  | |- context [try_except ?body ?handler ?w0] =>
      destruct (body w0) as [[result|e] w1] eqn:Hrun
  end.
  - exists result, w1. split; [by apply try_except_ok|].
    apply run_guarded_inv in Hrun as (Hstart & Hend & Hcases).
    split; [done|]. by rewrite Hstart.
  - erewrite try_except_raise; [|exact Hrun].
    do 2 eexists. split; [reflexivity|]. cbn. auto.
Qed.
End Runs.

(** C9, evaluated where the code departs from it.  The workflow delivers
    no output: the run ends in the terminal state [FAILED], started at 7
    and completed at 14, and the result carries no duration. *)
Lemma failed_run_has_no_duration :
  ∃ w',
    ValidationOrchestrator.run_validation silent_env demo_config 7 None w0
    = (Ok (ValidationResult.mk 7 2 FAILED 7 (Some 14) None [] 0 0 0 0
             (Some "Workflow completed but no output received") []), w')
    ∧ terminal FAILED.
Proof. eexists. split; [vm_compute; reflexivity|]. unfold terminal. auto. Qed.

(** * Further properties of the code *)

(** ** Credential resolver *)

Section CredentialResolver.
Context (env : Env).
Import AuthHandler.

Lemma dict_truthy_empty {V} (d : gmap string V) : dict_truthy d = false → d = ∅.
Proof.
  unfold dict_truthy. intros H. by apply negb_false_iff, bool_decide_eq_true in H.
Qed.

(** The header map [authenticate] returns, in terms of what the variant
    resolved to. *)
Lemma authenticate_inv endpoint auth_config additional_headers w headers w' :
  authenticate env endpoint auth_config additional_headers w = (Ok headers, w') →
  ∃ resolved : gmap string string,
    headers = explicit_headers auth_config ∪ (resolved ∪ default ∅ additional_headers).
Proof.
  unfold authenticate, try_except. intros H.
  match type of H with
  | context [mbind ?f ?m w] => destruct (mbind f m w) as [[hs|e] w1] eqn:Hbody
  end; [|done].
  injection H as -> ->.
  apply bind_inv_ok in Hbody as (resolved & w2 & _ & Hret).
  apply ret_inv_ok in Hret as [-> _].
  exists resolved. unfold explicit_headers, update.
  assert (match additional_headers with
          | Some h => if dict_truthy h then h else ∅
          | None => ∅
          end = default ∅ additional_headers) as ->.
  { destruct additional_headers as [h|]; [|done]. cbn.
    destruct (dict_truthy h) eqn:Hh; [done|]. by rewrite (dict_truthy_empty _ Hh). }
  destruct (AuthConfig.headers auth_config) as [h|]; cbn.
  - destruct (dict_truthy h) eqn:Hh; [done|].
    by rewrite (dict_truthy_empty _ Hh), (left_id_L ∅ (∪)).
  - by rewrite (left_id_L ∅ (∪)).
Qed.

(** X1: whatever goes wrong while credentials are resolved (a missing
    field, the token endpoint, the JSON of its answer), [authenticate]
    raises an [AuthenticationError] whose text starts with
    "Authentication failed: ". *)
Theorem authenticate_raises_authentication_error endpoint auth_config
    additional_headers w e w' :
  authenticate env endpoint auth_config additional_headers w = (Raise e, w') →
  exn_class e = AuthenticationError
  ∧ ∃ detail, exn_str e = "Authentication failed: " +:+ detail.
Proof.
  unfold authenticate, try_except. intros H.
  match type of H with
  | context [mbind ?f ?m w] => destruct (mbind f m w) as [[hs|e0] w1]
  end; [done|].
  unfold raise in H. injection H as <- <-. cbn. eauto.
Qed.

(** X2: API key, bearer token, basic and custom descriptors are resolved
    from the descriptor alone: no external call is made (the world is
    unchanged) and the outcome is the same whenever it is asked for. *)
Theorem static_credentials_need_no_call endpoint auth_config additional_headers w1 w2 :
  static_variant (AuthConfig.auth_type auth_config) = true →
  authenticate env endpoint auth_config additional_headers w1
  = ((authenticate env endpoint auth_config additional_headers w2).1, w1).
Proof.
  intros Hstatic.
  unfold authenticate, try_except, mbind, M_bind, bind.
  destruct (AuthConfig.auth_type auth_config); try done;
    unfold _handle_api_key, _handle_bearer_token, _handle_basic_auth, _handle_custom;
    repeat match goal with
           | |- context [if ?b then _ else _] => destruct b
           | |- context [match ?o with Some _ => _ | None => _ end] => destruct o
           end; reflexivity.
Qed.

(** X3: the order in which headers are merged.  In the header map of a
    successful resolution every explicit header of the descriptor has its
    explicit value (explicit headers win over what the variant resolved
    to), and every additional header the caller passed is still a key. *)
Theorem explicit_headers_win endpoint auth_config additional_headers w headers w' :
  authenticate env endpoint auth_config additional_headers w = (Ok headers, w') →
  (∀ k v, explicit_headers auth_config !! k = Some v → headers !! k = Some v)
  ∧ (∀ k, is_Some (default ∅ additional_headers !! k) → is_Some (headers !! k)).
Proof.
  intros H. apply authenticate_inv in H as (resolved & ->). split.
  - intros k v Hk. by apply lookup_union_Some_l.
  - intros k [v Hk]. rewrite !lookup_union.
    destruct (explicit_headers auth_config !! k), (resolved !! k); rewrite Hk; by eexists.
Qed.

(** X4: a descriptor that lacks a credential field of its variant (the API
    key; the bearer token; user name or password; client id, client secret
    or token endpoint; tenant id, client id or client secret) is rejected
    with an [AuthenticationError], and nothing is asked of the outside. *)
Theorem missing_credentials_rejected endpoint auth_config additional_headers w :
  credential_fields_present auth_config = false →
  ∃ e,
    authenticate env endpoint auth_config additional_headers w = (Raise e, w)
    ∧ exn_class e = AuthenticationError.
Proof.
  unfold credential_fields_present, oauth2_required_fields. intros Hmissing.
  unfold authenticate, try_except, mbind, M_bind, bind.
  destruct (AuthConfig.auth_type auth_config); try done.
  - unfold _handle_api_key. rewrite Hmissing. cbn. eauto.
  - unfold _handle_bearer_token. rewrite Hmissing. cbn. eauto.
  - unfold _handle_oauth2. cbn [forallb]. rewrite andb_true_r, andb_assoc, Hmissing.
    cbn. eauto.
  - unfold _handle_basic_auth. rewrite <- negb_andb, Hmissing. cbn. eauto.
  - unfold _handle_service_principal.
    destruct (azure_identity_installed env); cbn; [|eauto].
    rewrite andb_true_r, andb_assoc, Hmissing. cbn. eauto.
Qed.

Lemma merged_lookup (auth_config : AuthConfig.t) (headers : gmap string string) k v :
  headers !! k = Some v →
  match AuthConfig.headers auth_config with
  | Some h => if dict_truthy h then update headers h else headers
  | None => headers
  end !! k
  = Some (default v (explicit_headers auth_config !! k)).
Proof.
  intros Hv. unfold explicit_headers, update.
  destruct (AuthConfig.headers auth_config) as [h|]; cbn.
  - destruct (dict_truthy h) eqn:Hh.
    + rewrite lookup_union. destruct (h !! k); rewrite Hv; done.
    + rewrite (dict_truthy_empty _ Hh), lookup_empty. by rewrite Hv.
  - by rewrite lookup_empty, Hv.
Qed.

(** X5: an API key descriptor with a non-empty key resolves, without any
    external call, to a header map that carries the key under the header
    named by the credential [header_name], "X-API-Key" when there is none
    (unless the explicit headers set that header themselves). *)
Theorem api_key_header endpoint auth_config additional_headers w key :
  AuthConfig.auth_type auth_config = API_KEY →
  AuthConfig.credentials auth_config !! "api_key" = Some key →
  key ≠ "" →
  ∃ headers,
    authenticate env endpoint auth_config additional_headers w = (Ok headers, w)
    ∧ headers !! default "X-API-Key" (AuthConfig.credentials auth_config !! "header_name")
      = Some (default key
                (explicit_headers auth_config
                 !! default "X-API-Key"
                      (AuthConfig.credentials auth_config !! "header_name"))).
Proof.
  intros Htype Hkey Hne.
  unfold authenticate, try_except, mbind, M_bind, bind. rewrite Htype.
  unfold _handle_api_key. rewrite Hkey. cbn [opt_truthy].
  rewrite (str_truthy_ne _ Hne). cbn.
  eexists. split; [reflexivity|].
  apply merged_lookup. unfold update.
  apply lookup_union_Some_l, lookup_singleton_eq.
Qed.

(** X6: the client-credentials exchange.  An OAuth2 descriptor without a
    pre-supplied token makes exactly one request, to its token endpoint,
    with the grant type "client_credentials" and an empty scope unless the
    credentials say otherwise.  An answer other than 200 is an
    [AuthenticationError] that quotes the answer; an answer 200 whose JSON
    object holds a non-empty string [access_token] gives the header
    [Authorization: Bearer <that token>] (unless the explicit headers set
    Authorization themselves). *)
Theorem oauth2_token_exchange endpoint auth_config additional_headers w
    client_id client_secret url response :
  AuthConfig.auth_type auth_config = OAUTH2 →
  AuthConfig.credentials auth_config !! "client_id" = Some client_id →
  client_id ≠ "" →
  AuthConfig.credentials auth_config !! "client_secret" = Some client_secret →
  client_secret ≠ "" →
  AuthConfig.token_endpoint auth_config = Some url →
  url ≠ "" →
  opt_truthy (AuthConfig.credentials auth_config !! "access_token") = false →
  token_post env (history w) url
    {[ "grant_type" := default "client_credentials"
                         (AuthConfig.credentials auth_config !! "grant_type");
       "client_id" := client_id;
       "client_secret" := client_secret;
       "scope" := default "" (AuthConfig.credentials auth_config !! "scope") ]}
  = Ok response →
  let w' := mkWorld (EvTokenPost url :: history w) (clock w) (_active_validations w) in
  (Response.status_code response ≠ 200 →
   authenticate env endpoint auth_config additional_headers w
   = (Raise (mkExn AuthenticationError
               ("Authentication failed: "
                +:+ ("OAuth2 token request failed: " +:+ Response.text response))),
      w'))
  ∧ (Response.status_code response = 200 →
     ∀ d token,
       Response.json response = Ok (PDict d) →
       dict_lookup "access_token" d = Some (PStr token) →
       token ≠ "" →
       ∃ headers,
         authenticate env endpoint auth_config additional_headers w = (Ok headers, w')
         ∧ headers !! "Authorization"
           = Some (default ("Bearer " +:+ token)
                     (explicit_headers auth_config !! "Authorization"))).
Proof.
  intros Htype Hid Hidne Hsecret Hsecretne Hurl Hurlne Htoken Hpost w'.
  unfold authenticate, try_except, mbind, M_bind, bind. rewrite Htype.
  unfold _handle_oauth2, mbind, M_bind, bind, perform.
  rewrite Hid, Hsecret, Hurl, Htoken. cbn [forallb opt_truthy default].
  rewrite !str_truthy_ne by done. cbn [andb negb]. unfold id in *.
  rewrite Hpost. split.
  - intros Hstatus. apply Z.eqb_neq in Hstatus. rewrite Hstatus. reflexivity.
  - intros Hstatus d token Hjson Haccess Hne.
    apply Z.eqb_eq in Hstatus. rewrite Hstatus. cbn [negb].
    unfold lift. rewrite Hjson. cbn. unfold dict_get. rewrite Haccess. cbn.
    fold (str_truthy token). rewrite (str_truthy_ne _ Hne). cbn.
    eexists. split; [reflexivity|].
    apply merged_lookup. unfold update.
    apply lookup_union_Some_l, lookup_singleton_eq.
Qed.
End CredentialResolver.

Lemma authenticate_raises_authentication_error_witness :
  ∃ e w',
    AuthHandler.authenticate silent_env "https://api.example.com" oauth_token_only None w0
    = (Raise e, w')
    ∧ exn_class e = AuthenticationError.
Proof.
  do 2 eexists. split; [vm_compute; reflexivity|].
  refine (proj1 (authenticate_raises_authentication_error silent_env
                   "https://api.example.com" oauth_token_only None w0 _ _ _)).
  vm_compute. reflexivity.
Defined.

Lemma static_credentials_need_no_call_witness :
  AuthHandler.authenticate silent_env "https://api.example.com" api_key_custom None w0
  = ((AuthHandler.authenticate silent_env "https://api.example.com" api_key_custom None
        (mkWorld [EvClock] 7 ∅)).1, w0).
Proof.
  apply (static_credentials_need_no_call silent_env "https://api.example.com"
           api_key_custom None w0 (mkWorld [EvClock] 7 ∅)).
  reflexivity.
Defined.

Lemma explicit_headers_win_witness :
  ∃ headers w',
    AuthHandler.authenticate silent_env "https://api.example.com" api_key_custom None w0
    = (Ok headers, w')
    ∧ headers !! "Accept" = Some "application/json".
Proof.
  do 2 eexists. split; [vm_compute; reflexivity|].
  refine (proj1 (explicit_headers_win silent_env "https://api.example.com"
                   api_key_custom None w0 _ _ _) "Accept" "application/json" _).
  - vm_compute. reflexivity.
  - reflexivity.
Defined.

Lemma missing_credentials_rejected_witness :
  ∃ e,
    AuthHandler.authenticate silent_env "https://api.example.com" oauth_token_only None w0
    = (Raise e, w0)
    ∧ exn_class e = AuthenticationError.
Proof.
  apply (missing_credentials_rejected silent_env "https://api.example.com"
           oauth_token_only None w0).
  reflexivity.
Defined.

Lemma api_key_header_witness :
  ∃ headers,
    AuthHandler.authenticate silent_env "https://api.example.com" api_key_custom None w0
    = (Ok headers, w0)
    ∧ headers !! "X-Token" = Some "secret_key".
Proof.
  destruct (api_key_header silent_env "https://api.example.com" api_key_custom None w0
              "secret_key") as (headers & Hrun & Hheader);
    [reflexivity | reflexivity | discriminate |].
  exists headers. split; [exact Hrun | exact Hheader].
Defined.

Lemma oauth2_token_exchange_witness :
  ∃ headers w',
    AuthHandler.authenticate granting_env "https://api.example.com" oauth_exchange None w0
    = (Ok headers, w')
    ∧ history w' = [EvTokenPost "https://login.example.com/token"]
    ∧ headers !! "Authorization" = Some "Bearer granted".
Proof.
  destruct (oauth2_token_exchange granting_env "https://api.example.com" oauth_exchange
              None w0 "id" "secret" "https://login.example.com/token" granted_response)
    as [_ Hgranted];
    [reflexivity | reflexivity | discriminate | reflexivity | discriminate
    | reflexivity | discriminate | reflexivity | reflexivity |].
  destruct (Hgranted eq_refl _ "granted" eq_refl eq_refl) as (headers & Hrun & Hheader);
    [discriminate|].
  exists headers. eexists. split; [exact Hrun|]. split; [reflexivity | exact Hheader].
Defined.

(** ** Service client *)

Section ServiceClient.
Context (env : Env).
Import DataFetcherAgent.

Lemma new_DataSnapshot_service_id Inv service_id fetched_at data record_count
    fetch_duration_ms success error_message :
  keeps Inv
    (new_DataSnapshot env service_id fetched_at data record_count fetch_duration_ms
       success error_message)
    (fun s => DataSnapshot.service_id s = service_id).
Proof.
  unfold new_DataSnapshot. destruct data; try apply keeps_py_error.
  destruct (_ && _); [|apply keeps_py_error].
  by apply keeps_ret.
Qed.

Lemma create_error_snapshot_service_id t service start_time error_message :
  steady env →
  keeps (since t) (_create_error_snapshot env service start_time error_message)
    (fun s => DataSnapshot.service_id s = DependentService.service_id service).
Proof.
  intros Hsteady. unfold _create_error_snapshot.
  apply keeps_bind_any; [by apply keeps_utcnow|]. intros now.
  apply keeps_bind_any; [by apply keeps_utcnow|]. intros fetched_at.
  apply new_DataSnapshot_service_id.
Qed.

Lemma fetch_guarded_service_id service start_time :
  steady env →
  keeps (since start_time) (fetch_guarded env service start_time)
    (fun s => DataSnapshot.service_id s = DependentService.service_id service).
Proof.
  intros Hsteady.
  unfold fetch_guarded, ServiceAuthenticator.get_authenticated_headers.
  apply keeps_bind_any; [apply authenticate_since|]. intros headers.
  apply keeps_bind
    with (R := fun o => ∀ s, o = Some s →
                 DataSnapshot.service_id s = DependentService.service_id service).
  - destruct (opt_truthy _); [|apply keeps_ret; discriminate].
    apply keeps_bind_any; [unfold health_url, HttpUrl_rstrip; keeps_any|].
    intros url. apply keeps_try.
    + apply keeps_bind_any; [apply keeps_perform|]. intros health_response.
      destruct (400 <=? _); [|apply keeps_ret; discriminate].
      eapply keeps_bind; [by apply create_error_snapshot_service_id|].
      intros s Hs. apply keeps_ret. by intros ? [= <-].
    + intros e.
      eapply keeps_bind; [by apply create_error_snapshot_service_id|].
      intros s Hs. apply keeps_ret. by intros ? [= <-].
  - intros [snapshot|] Hid; [apply keeps_ret; by apply Hid|].
    apply keeps_bind_any; [apply keeps_perform|]. intros response.
    apply keeps_bind_any; [keeps_any|]. intros _.
    apply keeps_bind_any; [keeps_any|]. intros data.
    apply keeps_bind_any; [apply structure_data_since|]. intros structured_data.
    apply keeps_bind_any; [by apply keeps_utcnow|]. intros now.
    apply keeps_bind_any; [by apply keeps_utcnow|]. intros fetched_at.
    apply keeps_bind_any; [apply count_records_since|]. intros record_count.
    apply new_DataSnapshot_service_id.
Qed.

(** The start of a fetch under a clock that is not set back. *)
Lemma fetch_starts (w : World) :
  steady env →
  ∃ start_time w0, utcnow env w = (Ok start_time, w0) ∧ since start_time w0.
Proof.
  intros Hsteady. do 2 eexists. split; [reflexivity|]. unfold since. cbn. lia.
Qed.

(** The handlers of [_fetch_from_service] build their snapshot once the
    clock has reached the start time and is not set back. *)
Lemma fetch_handler_returns service start_time (e : Exn) w :
  steady env →
  since start_time w →
  ∃ snapshot w',
    (if is_http_error e
     then _create_error_snapshot env service start_time ("HTTP error: " +:+ exn_str e)
     else _create_error_snapshot env service start_time
            ("Unexpected error: " +:+ exn_str e)) w = (Ok snapshot, w')
    ∧ DataSnapshot.service_id snapshot = DependentService.service_id service
    ∧ failed_snapshot snapshot
    ∧ DataSnapshot.error_message snapshot
      = Some ((if is_http_error e then "HTTP error: " else "Unexpected error: ")
              +:+ exn_str e).
Proof.
  unfold since. intros Hsteady Hw. specialize (Hsteady (history w)).
  destruct (is_http_error e);
    match goal with
    | |- context [_create_error_snapshot env service start_time ?msg] =>
        destruct (create_error_snapshot_returns env service start_time msg w)
          as (snapshot & w' & Hrun & Hid & Hs & Herr & Hdata & Hcount & _); [lia|]
    end;
    exists snapshot, w'; (split; [exact Hrun|]); (split; [exact Hid|]);
    (split; [|exact Herr]); unfold failed_snapshot;
    (split; [done|]); (split; [|done]); eexists; (split; [exact Herr | discriminate]).
Qed.

(** Under a clock that is not set back, a fetch returns a snapshot of the
    service it was asked for. *)
Lemma fetch_from_service_returns service w :
  steady env →
  ∃ snapshot w',
    _fetch_from_service env service w = (Ok snapshot, w')
    ∧ DataSnapshot.service_id snapshot = DependentService.service_id service.
Proof.
  intros Hsteady. unfold _fetch_from_service.
  destruct (fetch_starts w Hsteady) as (start_time & w0 & Hnow & Hsince).
  erewrite bind_ok; [|exact Hnow].
  destruct (fetch_guarded_service_id service start_time Hsteady w0 Hsince) as [Hw1 Hid].
  destruct (fetch_guarded env service start_time w0) as [[s|e] w1] eqn:Hrun.
  - exists s, w1. split; [by apply try_except_ok | by apply Hid].
  - erewrite try_except_raise; [|exact Hrun]. cbn in Hw1.
    destruct (fetch_handler_returns service start_time e w1 Hsteady Hw1)
      as (snapshot & w' & Hhandler & Hsid & _).
    by exists snapshot, w'.
Qed.

Lemma fetch_each_spec services snapshots w :
  steady env →
  ∃ fetched w',
    DataFetcherHandler.fetch_each env services snapshots w = (Ok (snapshots ++ fetched), w')
    ∧ DataSnapshot.service_id <$> fetched = DependentService.service_id <$> services.
Proof.
  intros Hsteady.
  revert snapshots w. induction services as [|service rest IH]; intros snapshots w.
  - exists [], w. split; [|done]. cbn. by rewrite app_nil_r.
  - destruct (fetch_from_service_returns service w Hsteady)
      as (snapshot & w1 & Hfetch & Hid).
    destruct (IH (snapshots ++ [snapshot]) w1) as (fetched & w' & Hrest & Hids).
    exists (snapshot :: fetched), w'. split.
    + cbn [DataFetcherHandler.fetch_each]. erewrite bind_ok; [|exact Hfetch].
      rewrite Hrest. by rewrite <- app_assoc.
    + cbn. by rewrite Hid, Hids.
Qed.

(** X7: provided the wall clock is not set back, the fetch of a list of
    services never raises and yields exactly one snapshot per service, in
    the order of the services: the i-th snapshot bears the id of the i-th
    service, whatever failed on the way.  (A clock that is set back can
    make the fetch raise: see C1.) *)
Theorem fetch_service_data_one_snapshot_each (services : list DependentService.t)
    (w : World) :
  steady env →
  ∃ snapshots w',
    DataFetcherHandler.fetch_service_data env services w = (Ok snapshots, w')
    ∧ DataSnapshot.service_id <$> snapshots = DependentService.service_id <$> services
    ∧ length snapshots = length services.
Proof.
  intros Hsteady.
  destruct (fetch_each_spec services [] w Hsteady) as (fetched & w' & Hrun & Hids).
  exists fetched, w'. split; [exact Hrun|]. split; [exact Hids|].
  rewrite <- (length_fmap DataSnapshot.service_id), Hids. apply length_fmap.
Qed.


(** X8: structuring never raises and calls the inference capability at
    most once.  When the prompt renders, the capability answers and
    [json.loads] takes the text of the reply (stripped, and taken out of
    its code fence), the payload is what [json.loads] made of it.  In
    every other case the payload is the raw body passed through with the
    error recorded: the error of the prompt, of the capability or of
    [json.loads]. *)
Theorem structure_data_never_raises (service : DependentService.t) (raw_data : pyval)
    (w : World) :
  ∃ data w',
    _structure_data_with_ai env service raw_data w = (Ok data, w')
    ∧ ((∃ prompt reply text,
           structure_prompt env service raw_data = Ok prompt
           ∧ agent_run env (history w) FetcherChat prompt = Ok reply
           ∧ fenced_json_text reply = Some text
           ∧ json_loads env text = Ok data)
       ∨ (∃ e, data = raw_passthrough raw_data e))
    ∧ (∀ e, structure_prompt env service raw_data = Raise e →
            data = raw_passthrough raw_data e ∧ w' = w)
    ∧ (∀ prompt,
          structure_prompt env service raw_data = Ok prompt →
          w' = mkWorld (EvAgentRun FetcherChat prompt :: history w) (clock w)
                 (_active_validations w)
          ∧ (∀ e, agent_run env (history w) FetcherChat prompt = Raise e →
                  data = raw_passthrough raw_data e)
          ∧ (∀ reply text,
                agent_run env (history w) FetcherChat prompt = Ok reply →
                fenced_json_text reply = Some text →
                match json_loads env text with
                | Ok parsed => data = parsed
                | Raise e => data = raw_passthrough raw_data e
                end)).
Proof.
  unfold _structure_data_with_ai, try_except, mbind, M_bind, bind, lift, perform,
    extract_json_text.
  destruct (structure_prompt env service raw_data) as [prompt|e0] eqn:Hprompt.
  - destruct (agent_run env (history w) FetcherChat prompt) as [reply|e1] eqn:Hrun.
    + destruct (fenced_json_text_total reply) as [text Htext]. rewrite Htext. cbn.
      destruct (json_loads env text) as [data|e2] eqn:Hloads.
      * do 2 eexists. split; [reflexivity|].
        split; [left; by exists prompt, reply, text|].
        split; [done|]. intros ? [= <-]. split; [done|].
        split; [intros; congruence|].
        intros reply' text' Hreply' Htext'.
        assert (reply' = reply) as -> by congruence.
        assert (text' = text) as -> by congruence.
        by rewrite Hloads.
      * do 2 eexists. split; [reflexivity|]. split; [right; by eexists|].
        split; [done|]. intros ? [= <-]. split; [done|].
        split; [intros; congruence|].
        intros reply' text' Hreply' Htext'.
        assert (reply' = reply) as -> by congruence.
        assert (text' = text) as -> by congruence.
        by rewrite Hloads.
    + do 2 eexists. split; [reflexivity|]. split; [right; by eexists|].
      split; [done|]. intros ? [= <-]. split; [done|].
      split; [|intros; congruence].
      intros e Hraise. assert (e = e1) as -> by congruence. done.
  - do 2 eexists. split; [reflexivity|]. split; [right; by eexists|].
    split; [by intros ? [= <-] | done].
Qed.
End ServiceClient.

Section Passthrough.
Context (env : Env).
Import DataFetcherAgent.

(** The record count of a passed-through body: the length of a list, 1
    for anything else. *)
Lemma count_records_passthrough (body : pyval) (e : Exn) (w : World) :
  _count_records env (raw_passthrough body e) w
  = (Ok match body with
        | PList l => Z.of_nat (length l)
        | _ => 1
        end, w).
Proof. destruct body; reflexivity. Qed.

(** X9: raw passthrough.  A service without a health check, whose
    credentials resolve, answers with a status that is no error and a
    JSON body; the inference capability fails; and the clock, read after
    the structuring, is not before the clock read at the start.  The
    fetch then succeeds: the snapshot has [success=True] and no error
    message, its payload is the body passed through with the error
    recorded, and its record count is the length of the body when the
    body is a list and 1 otherwise. *)
Theorem fetch_passes_raw_body_through (service : DependentService.t) (w : World)
    (headers : gmap string string) (w1 : World) (response : Response.t) (body : pyval)
    (prompt : string) (e : Exn) :
  let started := (utcnow env w).2 in
  opt_truthy (DependentService.health_check_path service) = false →
  AuthHandler.authenticate env (DependentService.endpoint service)
    (DependentService.auth_config service) None started = (Ok headers, w1) →
  http_get env (history w1) (DependentService.endpoint service) headers
    (DependentService.timeout_seconds service) = Ok response →
  raise_for_status env response = None →
  str_contains "application/json" (default "" (Response.content_type response)) = true →
  Response.json response = Ok body →
  structure_prompt env service body = Ok prompt →
  agent_run env (EvGet (DependentService.endpoint service) :: history w1)
    FetcherChat prompt = Raise e →
  clock started
  <= clock w1
     + tick env (EvAgentRun FetcherChat prompt
                 :: EvGet (DependentService.endpoint service) :: history w1) →
  ∃ snapshot w',
    _fetch_from_service env service w = (Ok snapshot, w')
    ∧ DataSnapshot.success snapshot = true
    ∧ DataSnapshot.error_message snapshot = None
    ∧ PDict (DataSnapshot.data snapshot) = raw_passthrough body e
    ∧ DataSnapshot.record_count snapshot
      = match body with
        | PList l => Z.of_nat (length l)
        | _ => 1
        end.
Proof.
  intros started Hpath Hauth Hget Hstatus Hct Hjson Hprompt Hrun Hclock.
  assert (utcnow env w = (Ok (clock started), started)) as Hnow by reflexivity.
  clearbody started.
  unfold _fetch_from_service. erewrite bind_ok; [|exact Hnow].
  assert (∃ snapshot w',
            fetch_guarded env service (clock started) started = (Ok snapshot, w')
            ∧ DataSnapshot.success snapshot = true
            ∧ DataSnapshot.error_message snapshot = None
            ∧ PDict (DataSnapshot.data snapshot) = raw_passthrough body e
            ∧ DataSnapshot.record_count snapshot
              = match body with
                | PList l => Z.of_nat (length l)
                | _ => 1
                end) as (snapshot & w' & Hguarded & Hshape).
  { unfold fetch_guarded, ServiceAuthenticator.get_authenticated_headers.
    erewrite bind_ok; [|exact Hauth]. rewrite Hpath.
    erewrite bind_ok; [|reflexivity]. cbv beta iota.
    erewrite bind_ok; [|unfold perform; by rewrite Hget]. cbv beta iota.
    rewrite Hstatus. erewrite bind_ok; [|reflexivity]. cbv beta iota.
    rewrite Hct. erewrite bind_ok; [|unfold lift; by rewrite Hjson].
    erewrite bind_ok; cycle 1.
    { unfold _structure_data_with_ai, try_except, mbind, M_bind, bind, lift, perform.
      rewrite Hprompt. cbn [history]. rewrite Hrun. reflexivity. }
    erewrite bind_ok; [|reflexivity].
    erewrite bind_ok; [|reflexivity].
    erewrite bind_ok; [|apply (count_records_passthrough body e)].
    unfold new_DataSnapshot. cbn.
    assert ((0 <=? match body with
                   | PList l => Z.of_nat (length l)
                   | _ => 1
                   end) = true) as ->
      by (apply Z.leb_le; destruct body; lia).
    match goal with
    | |- context [(0 <=? ?d)] =>
        assert ((0 <=? d) = true) as -> by (apply Z.leb_le; lia)
    end.
    cbn. do 2 eexists. split; [reflexivity|]. done. }
  exists snapshot, w'. split; [by apply try_except_ok | exact Hshape].
Qed.

(** X10: the health check is never sent.  When a health check path is
    configured (the default is "/health"), the health URL is built with
    [service.endpoint.rstrip('/')]; the endpoint is an [HttpUrl], which
    has no [rstrip], so an [AttributeError] is raised outside the [try] of
    the health check.  Once the credentials are resolved nothing is
    requested from the service, neither its health nor its data.  When
    the clock read for the error snapshot is not before the clock read at
    the start, the fetch returns a failed snapshot that says "Unexpected
    error: " and the text of the [AttributeError]; when the clock was set
    back behind the start, the fetch raises a validation error. *)
Theorem health_check_is_never_sent (service : DependentService.t) (w : World)
    (headers : gmap string string) (w1 : World) :
  let started := (utcnow env w).2 in
  opt_truthy (DependentService.health_check_path service) = true →
  AuthHandler.authenticate env (DependentService.endpoint service)
    (DependentService.auth_config service) None started = (Ok headers, w1) →
  fetch_guarded env service (clock started) started
  = (Raise (mkExn AttributeError (error_text env AttributeError)), w1)
  ∧ (clock started <= clock w1 + tick env (history w1) →
     ∃ snapshot w',
       _fetch_from_service env service w = (Ok snapshot, w')
       ∧ failed_snapshot snapshot
       ∧ DataSnapshot.error_message snapshot
         = Some ("Unexpected error: " +:+ error_text env AttributeError)
       ∧ history w' = EvClock :: EvClock :: history w1)
  ∧ (clock w1 + tick env (history w1) < clock started →
     ∃ w',
       _fetch_from_service env service w
       = (Raise (mkExn ValidationError (error_text env ValidationError)), w')
       ∧ history w' = EvClock :: EvClock :: history w1).
Proof.
  intros started Hpath Hauth.
  assert (utcnow env w = (Ok (clock started), started)) as Hnow by reflexivity.
  clearbody started.
  assert (fetch_guarded env service (clock started) started
          = (Raise (mkExn AttributeError (error_text env AttributeError)), w1))
    as Hguarded.
  { unfold fetch_guarded, ServiceAuthenticator.get_authenticated_headers.
    erewrite bind_ok; [|exact Hauth]. rewrite Hpath. reflexivity. }
  split; [exact Hguarded|].
  unfold _fetch_from_service. erewrite bind_ok; [|exact Hnow].
  erewrite try_except_raise; [|exact Hguarded]. cbn [is_http_error exn_class exn_str].
  split.
  - intros Hclock.
    destruct (create_error_snapshot_returns env service (clock started)
                ("Unexpected error: " +:+ error_text env AttributeError) w1 Hclock)
      as (snapshot & w' & Hrun & _ & Hs & Herr & Hdata & Hcount & Hhistory).
    exists snapshot, w'. split; [exact Hrun|].
    split; [|by split].
    unfold failed_snapshot. split; [done|]. split; [|done].
    eexists. split; [exact Herr | discriminate].
  - intros Hclock.
    apply (create_error_snapshot_rejected env service (clock started)
             ("Unexpected error: " +:+ error_text env AttributeError) w1 Hclock).
Qed.
End Passthrough.

Lemma fetch_service_data_one_snapshot_each_witness :
  ∃ snapshots w',
    DataFetcherHandler.fetch_service_data silent_env [payment_service; orders_service] w0
    = (Ok snapshots, w')
    ∧ DataSnapshot.service_id <$> snapshots = ["payment-service"; "order-service"].
Proof.
  destruct (fetch_service_data_one_snapshot_each silent_env
              [payment_service; orders_service] w0)
    as (snapshots & w' & Hrun & Hids & _).
  - intros h. cbn. lia.
  - by exists snapshots, w'.
Defined.


Lemma fetch_passes_raw_body_through_witness :
  ∃ snapshot w',
    DataFetcherAgent._fetch_from_service serving_env orders_service w0 = (Ok snapshot, w')
    ∧ DataSnapshot.success snapshot = true
    ∧ DataSnapshot.record_count snapshot = 1.
Proof.
  destruct (fetch_passes_raw_body_through serving_env orders_service w0
              {[ "X-API-Key" := "key" ]} (mkWorld [EvClock] 7 ∅)
              (Response.mk 200 (Some "application/json; charset=utf-8") "<orders>"
                 (Ok orders_body))
              orders_body "structure" timed_out)
    as (snapshot & w' & Hrun & Hsuccess & _ & _ & Hcount);
    try (vm_compute; reflexivity); [cbn; lia|].
  exists snapshot, w'. split; [exact Hrun|]. split; [exact Hsuccess | exact Hcount].
Defined.

Lemma health_check_is_never_sent_witness :
  ∃ snapshot w',
    DataFetcherAgent._fetch_from_service serving_env payment_service w0 = (Ok snapshot, w')
    ∧ failed_snapshot snapshot
    ∧ DataSnapshot.error_message snapshot = Some "Unexpected error: error"
    ∧ history w' = [EvClock; EvClock; EvClock].
Proof.
  destruct (health_check_is_never_sent serving_env payment_service w0
              {[ "X-API-Key" := "secret_key" ]} (mkWorld [EvClock] 7 ∅))
    as (_ & Hfetch & _); [reflexivity | vm_compute; reflexivity |].
  apply Hfetch. cbn. lia.
Defined.

(** ** The consistency checker's handler *)

Section ConsistencyHandler.
Context (env : Env).
Import CrossVerificationAgent CrossVerificationHandler.

Lemma ai_verify_returns (rule : ValidationRule.t) (prompt : string) (w : World) :
  ∃ outcome,
    ai_verify env rule prompt w
    = (Ok outcome, mkWorld (EvAgentRun VerifierChat prompt :: history w) (clock w)
                     (_active_validations w))
    ∧ VerificationResult.rule_id outcome = ValidationRule.rule_id rule.
Proof.
  rewrite ai_verify_cases. cbv zeta.
  repeat case_match; by eexists.
Qed.

(** A rule evaluation returns an outcome for its rule, whatever happens
    on the way; the inference capability is called at most once, and
    nothing else is touched. *)
Lemma verify_rule_returns (rule : ValidationRule.t) (snapshots : list DataSnapshot.t)
    (w : World) :
  ∃ outcome w',
    _verify_rule env rule snapshots w = (Ok outcome, w')
    ∧ VerificationResult.rule_id outcome = ValidationRule.rule_id rule
    ∧ clock w' = clock w
    ∧ _active_validations w' = _active_validations w
    ∧ (history w' = history w
       ∨ ∃ prompt, history w' = EvAgentRun VerifierChat prompt :: history w).
Proof.
  unfold _verify_rule.
  destruct (available (find_snapshot (ValidationRule.source_service rule) snapshots))
    as [source|]; [|by do 2 eexists; split; [reflexivity|]; auto].
  destruct (opt_truthy (ValidationRule.target_service rule)).
  - destruct (available (find_snapshot (default "" (ValidationRule.target_service rule))
                           snapshots))
      as [target|]; [|by do 2 eexists; split; [reflexivity|]; auto].
    destruct (cross_verify_prompt env rule source target) as [prompt|e] eqn:Hprompt.
    + destruct (ai_verify_returns rule prompt w) as (outcome & Hrun & Hid).
      do 2 eexists. split.
      { apply try_except_ok. by rewrite (ai_cross_verify_delegates _ _ _ _ prompt). }
      cbn. eauto 10.
    + do 2 eexists. split.
      { unfold try_except, _ai_cross_verify, mbind, M_bind, bind, lift.
        rewrite Hprompt. reflexivity. }
      auto.
  - destruct (single_verify_prompt env rule source) as [prompt|e] eqn:Hprompt.
    + destruct (ai_verify_returns rule prompt w) as (outcome & Hrun & Hid).
      do 2 eexists. split.
      { apply try_except_ok. by rewrite (ai_single_verify_delegates _ _ _ prompt). }
      cbn. eauto 10.
    + do 2 eexists. split.
      { unfold try_except, _ai_single_verify, mbind, M_bind, bind, lift.
        rewrite Hprompt. reflexivity. }
      auto.
Qed.

Lemma verify_each_spec (rules : list ValidationRule.t) (snapshots : list DataSnapshot.t) :
  ∀ (so_far : list VerificationResult.t) (w : World),
  ∃ outcomes w',
    verify_each env rules snapshots so_far w = (Ok (so_far ++ outcomes), w')
    ∧ Forall2 (fun rule outcome =>
                 VerificationResult.rule_id outcome = ValidationRule.rule_id rule)
        rules outcomes
    ∧ clock w' = clock w
    ∧ _active_validations w' = _active_validations w
    ∧ (length (history w') ≤ length (history w) + length rules)%nat.
Proof.
  induction rules as [|rule rest IH]; intros so_far w.
  - exists [], w. rewrite app_nil_r. cbn. repeat split; auto. lia.
  - destruct (verify_rule_returns rule snapshots w)
      as (outcome & w1 & Hrule & Hid & Hclock & Hreg & Hhist).
    destruct (IH (so_far ++ [outcome]) w1) as (outcomes & w' & Hrest & Hids & Hc & Hr & Hh).
    exists (outcome :: outcomes), w'. split.
    { cbn [verify_each]. erewrite bind_ok; [|exact Hrule].
      rewrite Hrest. by rewrite <- app_assoc. }
    split; [by constructor|].
    split; [congruence|]. split; [congruence|].
    cbn [length].
    destruct Hhist as [Heq|[prompt Heq]]; rewrite Heq in Hh; cbn [length] in Hh; lia.
Qed.

(** Every outcome counts once: as passed or as failed. *)
Lemma passed_failed_partition (outcomes : list VerificationResult.t) :
  Z.of_nat (length (filter (fun r => truthy (VerificationResult.passed r) = true) outcomes))
  + Z.of_nat (length (filter (fun r => truthy (VerificationResult.passed r) = false)
                        outcomes))
  = Z.of_nat (length outcomes).
Proof.
  induction outcomes as [|r outcomes IH]; [done|].
  rewrite !filter_cons.
  destruct (truthy (VerificationResult.passed r)); repeat case_decide; try done;
    cbn [length]; lia.
Qed.

(** X12: the rule loop.  [verify_data_consistency] never raises: it sends
    one outcome per rule, in the order of the rules and each under its
    rule's id, with the snapshots and rules passed on as they came;
    [rules_checked] is the number of rules, and every outcome is counted
    once, so [rules_passed + rules_failed = rules_checked].  The run calls
    the inference capability at most once per rule and touches neither
    the clock nor the registry of runs. *)
Theorem verify_data_consistency_tallies (context : VerificationContext.t) (w : World) :
  ∃ summary w',
    verify_data_consistency env context w = (Ok summary, w')
    ∧ VerificationSummary.snapshots summary
      = default [] (VerificationContext.snapshots context)
    ∧ VerificationSummary.rules summary = default [] (VerificationContext.rules context)
    ∧ Forall2 (fun rule outcome =>
                 VerificationResult.rule_id outcome = ValidationRule.rule_id rule)
        (VerificationSummary.rules summary)
        (VerificationSummary.verification_results summary)
    ∧ VerificationSummary.rules_checked summary
      = Z.of_nat (length (VerificationSummary.rules summary))
    ∧ VerificationSummary.rules_passed summary + VerificationSummary.rules_failed summary
      = VerificationSummary.rules_checked summary
    ∧ (length (history w')
       ≤ length (history w) + length (VerificationSummary.rules summary))%nat
    ∧ clock w' = clock w
    ∧ _active_validations w' = _active_validations w.
Proof.
  unfold verify_data_consistency.
  destruct (verify_each_spec (default [] (VerificationContext.rules context))
              (default [] (VerificationContext.snapshots context)) [] w)
    as (outcomes & w' & Hrun & Hids & Hclock & Hreg & Hhist).
  rewrite app_nil_l in Hrun.
  do 2 eexists. split; [by erewrite bind_ok; [|exact Hrun]|].
  cbn. repeat split; try done.
  rewrite passed_failed_partition. f_equal.
  symmetry. by eapply Forall2_length.
Qed.

(** No snapshot with [success=True]: no service id finds usable data. *)
Lemma nothing_available (snapshots : list DataSnapshot.t) (service : string) :
  Forall (fun s => DataSnapshot.success s = false) snapshots →
  available (find_snapshot service snapshots) = None.
Proof.
  intros Hall. unfold available, find_snapshot.
  destruct (find _ snapshots) as [s|] eqn:Hfind; [|done].
  apply find_some in Hfind as [Hin _].
  rewrite Forall_forall in Hall.
  by rewrite (Hall s) by by apply list_elem_of_In.
Qed.

Lemma verify_each_without_data (rules : list ValidationRule.t)
    (snapshots : list DataSnapshot.t) :
  Forall (fun s => DataSnapshot.success s = false) snapshots →
  ∀ (so_far : list VerificationResult.t) (w : World),
    verify_each env rules snapshots so_far w
    = (Ok (so_far ++ map (fun rule =>
                          data_not_available rule "Source"
                            (ValidationRule.source_service rule)) rules), w).
Proof.
  intros Hall. induction rules as [|rule rest IH]; intros so_far w.
  - by rewrite app_nil_r.
  - cbn [verify_each map]. erewrite bind_ok; cycle 1.
    { unfold _verify_rule. rewrite (nothing_available _ _ Hall). reflexivity. }
    rewrite IH. by rewrite <- app_assoc.
Qed.

(** X13: nothing fetched.  When no snapshot of the run has [success=True],
    the consistency checker fails every rule on its source data without a
    single call of the inference capability: the state of the world is
    left as it was, every outcome has [passed=False] and says that the
    data of the rule's source service is not available, and
    [rules_failed = rules_checked] with [rules_passed = 0]. *)
Theorem no_data_fails_every_rule (context : VerificationContext.t) (w : World) :
  Forall (fun s => DataSnapshot.success s = false)
    (default [] (VerificationContext.snapshots context)) →
  ∃ summary,
    verify_data_consistency env context w = (Ok summary, w)
    ∧ VerificationSummary.verification_results summary
      = map (fun rule =>
               data_not_available rule "Source" (ValidationRule.source_service rule))
          (default [] (VerificationContext.rules context))
    ∧ Forall (fun outcome =>
                VerificationResult.passed outcome = PBool false
                ∧ mentions "data not available" (VerificationResult.message outcome))
        (VerificationSummary.verification_results summary)
    ∧ VerificationSummary.rules_passed summary = 0
    ∧ VerificationSummary.rules_failed summary = VerificationSummary.rules_checked summary.
Proof.
  intros Hall. unfold verify_data_consistency.
  eexists. split.
  { erewrite bind_ok; [|by apply verify_each_without_data]. reflexivity. }
  cbn. split; [done|].
  assert (Forall (fun outcome =>
                    VerificationResult.passed outcome = PBool false
                    ∧ mentions "data not available" (VerificationResult.message outcome))
            (map (fun rule =>
                    data_not_available rule "Source" (ValidationRule.source_service rule))
               (default [] (VerificationContext.rules context)))) as Hfailed.
  { apply Forall_map, Forall_true. intros rule. apply data_not_available_shape. }
  split; [exact Hfailed|].
  pose proof (passed_failed_partition
                (map (fun rule =>
                        data_not_available rule "Source"
                          (ValidationRule.source_service rule))
                   (default [] (VerificationContext.rules context)))) as Hsum.
  assert (filter (fun r => truthy (VerificationResult.passed r) = true)
            (map (fun rule =>
                    data_not_available rule "Source" (ValidationRule.source_service rule))
               (default [] (VerificationContext.rules context))) = []) as Hnone.
  { clear. induction (default [] (VerificationContext.rules context))
      as [|rule rest IH]; [done|].
    cbn [map]. rewrite filter_cons. case_decide as Hpassed; [discriminate Hpassed | exact IH]. }
  rewrite Hnone in *. cbn [length] in *. rewrite length_map in *.
  split; [done | lia].
Qed.
End ConsistencyHandler.

Lemma no_data_fails_every_rule_witness :
  ∃ summary,
    CrossVerificationHandler.verify_data_consistency silent_env
      (VerificationContext.mk (Some [payment_outage])
         (Some [payment_rule; payment_fields_rule])) w0 = (Ok summary, w0)
    ∧ VerificationSummary.rules_passed summary = 0
    ∧ VerificationSummary.rules_failed summary = 2.
Proof.
  destruct (no_data_fails_every_rule silent_env
              (VerificationContext.mk (Some [payment_outage])
                 (Some [payment_rule; payment_fields_rule])) w0)
    as (summary & Hrun & _ & _ & Hpassed & Hfailed).
  - repeat constructor.
  - exists summary. split; [exact Hrun|]. split; [exact Hpassed|].
    rewrite Hfailed.
    by injection Hrun as <-.
Defined.

(** ** The anomaly aggregator's handler *)

Section AnomalyHandler.
Context (env : Env).
Context (detection_prompt :
           list VerificationResult.t -> list DataSnapshot.t -> result string).
Context (lax_int : pyval -> option Z) (lax_float : pyval -> option Q).
Import AnomalyDetectionHandler.

(** An [Anomaly(...)] is built or rejected by pydantic; nothing else can
    happen. *)
Lemma new_Anomaly_cases validation_id rule_id severity service_id anomaly_type
    description affected_records sample_data expected_value actual_value
    deviation_percentage w :
  ∃ w',
    (∃ anomaly,
        new_Anomaly env lax_int lax_float validation_id rule_id severity service_id
          anomaly_type description affected_records sample_data expected_value
          actual_value deviation_percentage w = (Ok anomaly, w'))
    ∨ new_Anomaly env lax_int lax_float validation_id rule_id severity service_id
        anomaly_type description affected_records sample_data expected_value
        actual_value deviation_percentage w
      = (Raise (mkExn ValidationError (error_text env ValidationError)), w').
Proof.
  unfold new_Anomaly, new_uuid, perform, utcnow, py_error, raise, mbind, M_bind, bind.
  cbn. repeat case_match; eauto.
Qed.

Lemma fallback_anomalies_spec (validation_id : UUID)
    (failed_results : list VerificationResult.t) :
  Forall (fun r => ∃ s, VerificationResult.message r = PStr s) failed_results →
  ∀ (anomalies : list Anomaly.t) (w : World),
  ∃ basic w',
    fallback_anomalies env lax_int lax_float (Some validation_id) failed_results
      anomalies w = (Ok (anomalies ++ basic), w')
    ∧ Forall2 (basic_anomaly_of validation_id) failed_results basic.
Proof.
  induction 1 as [|r rest [s Hs] _ IH]; intros anomalies w.
  - exists [], w. by rewrite app_nil_r.
  - cbn [fallback_anomalies]. rewrite Hs.
    erewrite bind_ok; [|reflexivity].
    edestruct IH as (basic & w' & Hrest & Hbasic).
    rewrite Hrest, <- app_assoc.
    do 2 eexists. split; [reflexivity|].
    constructor; [|exact Hbasic].
    unfold basic_anomaly_of. by rewrite Hs.
Qed.

Lemma fallback_anomalies_rejects (validation_id : option UUID)
    (failed_results : list VerificationResult.t) :
  Exists (fun r => str_field (VerificationResult.message r) = None) failed_results →
  ∀ (anomalies : list Anomaly.t) (w : World),
  ∃ w',
    fallback_anomalies env lax_int lax_float validation_id failed_results anomalies w
    = (Raise (mkExn ValidationError (error_text env ValidationError)), w').
Proof.
  induction 1 as [r rest Hr|r rest _ IH]; intros anomalies w; cbn [fallback_anomalies].
  - eexists. erewrite bind_raise; [reflexivity|].
    unfold new_Anomaly, new_uuid, perform, utcnow, py_error, raise, mbind, M_bind, bind.
    cbn. rewrite Hr. by destruct validation_id.
  - edestruct (new_Anomaly_cases validation_id
                 (PStr (VerificationResult.rule_id r)) MEDIUM (PStr "unknown")
                 (PStr "verification_failure") (VerificationResult.message r) (PInt 0)
                 PNone PNone PNone PNone w) as (w1 & [[anomaly Hok]|Hraise]).
    + erewrite bind_ok; [|exact Hok]. apply IH.
    + eexists. by erewrite bind_raise; [|exact Hraise].
Qed.

(** X14: the fallback of the detection.  Whatever goes wrong between the
    inference call and the last [Anomaly] built from its reply, the
    detection falls back on the failed outcomes: when each of them has a
    text as its message, it returns one anomaly per failed outcome, in
    their order, each of severity MEDIUM and type "verification_failure",
    for service "unknown", with the outcome's rule id and message and no
    affected records. *)
Theorem detection_falls_back (validation_id : UUID)
    (verification_results : list VerificationResult.t)
    (snapshots : list DataSnapshot.t) (prompt : string) (w : World)
    (e : Exn) (w1 : World) :
  detection_prompt (failed_outcomes verification_results) snapshots = Ok prompt →
  detect_guarded env lax_int lax_float (Some validation_id) prompt w = (Raise e, w1) →
  Forall (fun r => ∃ s, VerificationResult.message r = PStr s)
    (failed_outcomes verification_results) →
  ∃ anomalies w',
    _detect_anomalies_with_ai env detection_prompt lax_int lax_float
      (Some validation_id) verification_results snapshots w = (Ok anomalies, w')
    ∧ Forall2 (basic_anomaly_of validation_id) (failed_outcomes verification_results)
        anomalies.
Proof.
  intros Hprompt Hguarded Htexts. unfold _detect_anomalies_with_ai.
  fold (failed_outcomes verification_results).
  destruct (failed_outcomes verification_results) as [|r rest] eqn:Hfailed.
  { exists [], w. by split. }
  erewrite bind_ok; [|unfold lift; by rewrite Hprompt].
  erewrite try_except_raise; [|exact Hguarded].
  destruct (fallback_anomalies_spec validation_id (r :: rest) Htexts [] w1)
    as (basic & w' & Hrun & Hbasic).
  by exists basic, w'.
Qed.

(** X15: the fallback can fail.  The message of an outcome is whatever
    the reply of the consistency check held under [message].  When the
    detection falls back and a failed outcome has a message that is no
    text, the fallback itself is rejected by pydantic, outside any
    [try]: [_detect_anomalies_with_ai] raises a validation error. *)
Theorem fallback_rejects_non_text_message (validation_id : option UUID)
    (verification_results : list VerificationResult.t)
    (snapshots : list DataSnapshot.t) (prompt : string) (w : World)
    (e : Exn) (w1 : World) :
  detection_prompt (failed_outcomes verification_results) snapshots = Ok prompt →
  detect_guarded env lax_int lax_float validation_id prompt w = (Raise e, w1) →
  Exists (fun r => str_field (VerificationResult.message r) = None)
    (failed_outcomes verification_results) →
  ∃ e' w',
    _detect_anomalies_with_ai env detection_prompt lax_int lax_float
      validation_id verification_results snapshots w = (Raise e', w')
    ∧ exn_class e' = ValidationError.
Proof.
  intros Hprompt Hguarded Hnumber. unfold _detect_anomalies_with_ai.
  fold (failed_outcomes verification_results).
  destruct (failed_outcomes verification_results) as [|r rest] eqn:Hfailed.
  { by apply Exists_nil in Hnumber. }
  erewrite bind_ok; [|unfold lift; by rewrite Hprompt].
  erewrite try_except_raise; [|exact Hguarded].
  destruct (fallback_anomalies_rejects validation_id (r :: rest) Hnumber [] w1)
    as (w' & Hrun).
  do 2 eexists. split; [exact Hrun | reflexivity].
Qed.

(** X16: nothing failed.  When every outcome passed, the stage sends its
    input on with no anomaly and a report of zero anomalies that
    triggers no alert and recommends nothing; the inference capability
    is not called, the stage only draws the id of the report and reads
    the clock for it. *)
Theorem all_passed_reports_no_anomaly (verification_data : WorkflowData.t)
    (validation_id : UUID) (w : World) :
  WorkflowData.validation_id verification_data = Some validation_id →
  failed_outcomes (default [] (WorkflowData.verification_results verification_data))
  = [] →
  ∃ output w',
    detect_anomalies env detection_prompt lax_int lax_float verification_data w
    = (Ok output, w')
    ∧ DetectionOutput.verification_data output = verification_data
    ∧ DetectionOutput.anomalies output = []
    ∧ AnomalyReport.validation_id (DetectionOutput.anomaly_report output) = validation_id
    ∧ AnomalyReport.total_anomalies (DetectionOutput.anomaly_report output) = 0
    ∧ AnomalyReport.alert_triggered (DetectionOutput.anomaly_report output) = false
    ∧ AnomalyReport.alert_sent_at (DetectionOutput.anomaly_report output) = None
    ∧ AnomalyReport.recommendations (DetectionOutput.anomaly_report output)
      = ["No anomalies detected. All services are operating normally."]
    ∧ history w' = EvClock :: EvUuid :: history w.
Proof.
  intros Hid Hfailed. unfold detect_anomalies, _detect_anomalies_with_ai.
  fold (failed_outcomes
          (default [] (WorkflowData.verification_results verification_data))).
  rewrite Hid, Hfailed.
  do 2 eexists. split; [lazy; reflexivity|]. done.
Qed.

(** X17: an empty reply.  Rules failed, the inference capability is asked
    for the anomalies and answers with a JSON value that holds nothing
    (an empty array, an empty object, an empty string): the detection
    takes this for no anomaly at all.  The stage then reports zero
    anomalies, triggers no alert and says that all services are
    operating normally, although outcomes of the run did not pass. *)
Theorem empty_reply_hides_failures (verification_data : WorkflowData.t)
    (validation_id : UUID) (prompt reply text : string) (v : pyval) (w : World) :
  WorkflowData.validation_id verification_data = Some validation_id →
  failed_outcomes (default [] (WorkflowData.verification_results verification_data))
  ≠ [] →
  detection_prompt
    (failed_outcomes (default [] (WorkflowData.verification_results verification_data)))
    (default [] (WorkflowData.snapshots verification_data)) = Ok prompt →
  agent_run env (history w) AnomalyChat prompt = Ok reply →
  fenced_json_text reply = Some text →
  json_loads env text = Ok v →
  iter_items v = Some [] →
  ∃ output w',
    detect_anomalies env detection_prompt lax_int lax_float verification_data w
    = (Ok output, w')
    ∧ DetectionOutput.anomalies output = []
    ∧ AnomalyReport.total_anomalies (DetectionOutput.anomaly_report output) = 0
    ∧ AnomalyReport.alert_triggered (DetectionOutput.anomaly_report output) = false
    ∧ AnomalyReport.recommendations (DetectionOutput.anomaly_report output)
      = ["No anomalies detected. All services are operating normally."]
    ∧ history w' = EvClock :: EvUuid :: EvAgentRun AnomalyChat prompt :: history w.
Proof.
  intros Hid Hfailed Hprompt Hreply Htext Hjson Hitems.
  unfold detect_anomalies, _detect_anomalies_with_ai.
  fold (failed_outcomes
          (default [] (WorkflowData.verification_results verification_data))).
  rewrite Hid.
  destruct (failed_outcomes
              (default [] (WorkflowData.verification_results verification_data)))
    as [|r rest]; [done|].
  assert (detect_guarded env lax_int lax_float (Some validation_id) prompt w
          = (Ok [], mkWorld (EvAgentRun AnomalyChat prompt :: history w) (clock w)
                      (_active_validations w))) as Hguarded.
  { unfold detect_guarded, extract_json_text, perform, lift, mbind, M_bind, bind.
    rewrite Hreply, Htext. cbn. rewrite Hjson, Hitems. reflexivity. }
  do 2 eexists. split.
  { erewrite bind_ok; cycle 1.
    { erewrite bind_ok; [|unfold lift; by rewrite Hprompt].
      apply try_except_ok, Hguarded. }
    lazy. reflexivity. }
  done.
Qed.

(** The run id is needed.  The stage reads [validation_id] with
    [.get], and both [Anomaly] and [AnomalyReport] require one: on stage
    data without it [detect_anomalies] sends nothing on, it raises. *)
Theorem detection_needs_validation_id (verification_data : WorkflowData.t) (w : World) :
  WorkflowData.validation_id verification_data = None →
  ∃ e w',
    detect_anomalies env detection_prompt lax_int lax_float verification_data w
    = (Raise e, w').
Proof.
  intros Hid. unfold detect_anomalies. rewrite Hid.
  match goal with
  | |- context [(?m ≫= ?k) w] => destruct (m w) as [[anomalies|e] w1] eqn:Hdetect
  end.
  - erewrite bind_ok; [|exact Hdetect].
    unfold generate_report_for.
    match goal with
    | |- context [((?m ≫= ?k) ≫= ?k') w1] =>
        destruct (m w1) as [[report|e] w2] eqn:Hreport
    end.
    + do 2 eexists. erewrite bind_raise; [reflexivity|].
      by erewrite bind_ok; [|exact Hreport].
    + do 2 eexists. erewrite bind_raise; [reflexivity|].
      by erewrite bind_raise; [|exact Hreport].
  - do 2 eexists. by erewrite bind_raise; [|exact Hdetect].
Qed.
End AnomalyHandler.

Lemma detection_falls_back_witness :
  ∃ anomalies w',
    AnomalyDetectionHandler._detect_anomalies_with_ai silent_env plain_detection_prompt
      (strict Z) (strict Q) (Some 7%N) [passed_outcome; unjudged_outcome]
      [payment_snapshot] w0 = (Ok anomalies, w')
    ∧ Forall2 (basic_anomaly_of 7) [unjudged_outcome] anomalies.
Proof.
  apply (detection_falls_back silent_env plain_detection_prompt (strict Z) (strict Q)
           7%N [passed_outcome; unjudged_outcome] [payment_snapshot] "detect" w0
           timed_out (mkWorld [EvAgentRun AnomalyChat "detect"] 0 ∅)).
  - reflexivity.
  - vm_compute. reflexivity.
  - repeat constructor. by eexists.
Defined.

Lemma fallback_rejects_non_text_message_witness :
  ∃ e' w',
    AnomalyDetectionHandler._detect_anomalies_with_ai silent_env plain_detection_prompt
      (strict Z) (strict Q) (Some 7%N) [unjudged_outcome; numbered_outcome]
      [payment_snapshot] w0 = (Raise e', w')
    ∧ exn_class e' = ValidationError.
Proof.
  apply (fallback_rejects_non_text_message silent_env plain_detection_prompt
           (strict Z) (strict Q) (Some 7%N) [unjudged_outcome; numbered_outcome]
           [payment_snapshot] "detect" w0
           timed_out (mkWorld [EvAgentRun AnomalyChat "detect"] 0 ∅)).
  - reflexivity.
  - vm_compute. reflexivity.
  - apply Exists_cons_tl, Exists_cons_hd. reflexivity.
Defined.

Lemma all_passed_reports_no_anomaly_witness :
  ∃ output w',
    AnomalyDetectionHandler.detect_anomalies silent_env plain_detection_prompt
      (strict Z) (strict Q) (checked_data (Some 7%N) [passed_outcome]) w0
    = (Ok output, w')
    ∧ DetectionOutput.anomalies output = []
    ∧ history w' = [EvClock; EvUuid].
Proof.
  destruct (all_passed_reports_no_anomaly silent_env plain_detection_prompt
              (strict Z) (strict Q) (checked_data (Some 7%N) [passed_outcome]) 7%N w0)
    as (output & w' & Hrun & _ & Hnone & _ & _ & _ & _ & _ & Hhistory);
    [reflexivity | reflexivity |].
  exists output, w'. split; [exact Hrun|]. split; [exact Hnone | exact Hhistory].
Defined.

Lemma empty_reply_hides_failures_witness :
  ∃ output w',
    AnomalyDetectionHandler.detect_anomalies empty_reply_env plain_detection_prompt
      (strict Z) (strict Q) (checked_data (Some 7%N) [unjudged_outcome]) w0
    = (Ok output, w')
    ∧ DetectionOutput.anomalies output = []
    ∧ AnomalyReport.recommendations (DetectionOutput.anomaly_report output)
      = ["No anomalies detected. All services are operating normally."].
Proof.
  destruct (empty_reply_hides_failures empty_reply_env plain_detection_prompt
              (strict Z) (strict Q) (checked_data (Some 7%N) [unjudged_outcome]) 7%N
              "detect" "{}" "{}" (PDict []) w0)
    as (output & w' & Hrun & Hnone & _ & _ & Hrecommend & _);
    try reflexivity; [discriminate|].
  exists output, w'. split; [exact Hrun|]. split; [exact Hnone | exact Hrecommend].
Defined.

Lemma detection_needs_validation_id_witness :
  ∃ e w',
    AnomalyDetectionHandler.detect_anomalies silent_env plain_detection_prompt
      (strict Z) (strict Q) (checked_data None [unjudged_outcome]) w0 = (Raise e, w').
Proof.
  apply (detection_needs_validation_id silent_env plain_detection_prompt
           (strict Z) (strict Q) (checked_data None [unjudged_outcome]) w0).
  reflexivity.
Defined.

(** ** The alert dispatcher *)

Section AlertDispatcher.
Context (env : Env).
Import AlertAgent.

Lemma should_trigger_threshold_met (cfg : AlertConfig.t) (report : AnomalyReport.t) :
  _should_trigger_alert (AlertAgent.mk (Some cfg)) report = true
  ↔ threshold_met cfg report.
Proof.
  unfold _should_trigger_alert, threshold_met. cbn [alert_config].
  repeat case_match; rewrite ?Z.leb_le, ?Z.leb_gt in *; split; (done || lia || tauto).
Qed.

(** The sends of a dispatch never make it fail, and they are all the
    dispatch does. *)
Lemma send_alerts_returns (cfg : AlertConfig.t) (message : string)
    (report : AnomalyReport.t) (w : World) :
  ∃ results w',
    _send_alerts env (AlertAgent.mk (Some cfg)) message report w = (Ok results, w')
    ∧ history w' = dispatch_events cfg ++ history w
    ∧ _active_validations w' = _active_validations w
    ∧ dom results ⊆ {[ "email"; "slack"; "webhook" ]}.
Proof.
  unfold _send_alerts, dispatch_events. cbn [alert_config].
  destruct (AlertConfig.email_enabled cfg), (AlertConfig.email_recipients cfg),
    (AlertConfig.slack_enabled cfg), (opt_truthy (AlertConfig.slack_webhook cfg)),
    (AlertConfig.webhook_enabled cfg), (opt_truthy (AlertConfig.webhook_url cfg));
    cbn;
    unfold _send_email_alert, _send_slack_alert, _send_webhook_alert, task_result,
      try_except, mbind, M_bind, bind, perform, utcnow, ret; cbn;
    repeat match goal with
           | |- context [http_post env ?h ?url] => destruct (http_post env h url); cbn
           end;
    (do 2 eexists; split; [reflexivity|]; split; [reflexivity|]; split; [reflexivity|];
     rewrite ?dom_insert_L, ?dom_empty_L; apply elem_of_subseteq; intros channel;
     rewrite ?elem_of_union, ?elem_of_singleton, ?elem_of_empty; tauto).
Qed.

(** X19: the sends.  [_send_alerts] never raises, whatever the channels
    answer.  Without a configuration it touches nothing and reports the
    error; with one, it posts to the Slack webhook and to the custom
    webhook exactly when the channel is switched on and has its URL, in
    this order, and does nothing else: a channel that is switched off is
    never contacted, and the email channel contacts no one. *)
Theorem send_alerts_never_raises (self : AlertAgent.t) (message : string)
    (report : AnomalyReport.t) (w : World) :
  ∃ results w',
    _send_alerts env self message report w = (Ok results, w')
    ∧ _active_validations w' = _active_validations w
    ∧ match alert_config self with
      | Some cfg =>
          history w' = dispatch_events cfg ++ history w
          ∧ dom results ⊆ {[ "email"; "slack"; "webhook" ]}
      | None =>
          w' = w
          ∧ results = {[ "error" := Some (Returned (PStr "No alert configuration provided")) ]}
      end.
Proof.
  destruct self as [[cfg|]].
  - destruct (send_alerts_returns cfg message report w)
      as (results & w' & Hrun & Hhistory & Hregistry & Hdom).
    by exists results, w'.
  - by do 2 eexists.
Qed.

(** The message of an alert is composed whenever its prompt renders: by
    the inference capability, or from the template when that fails. *)
Lemma generate_alert_message_returns (report : AnomalyReport.t)
    (validation_data : WorkflowData.t) (w : World) :
  (∀ now, ∃ prompt,
      alert_prompt env report
        (default "Unknown Configuration" (WorkflowData.config_name validation_data))
        (WorkflowData.validation_id validation_data) now = Ok prompt) →
  ∃ message w1,
    _generate_alert_message env report validation_data w = (Ok message, w1)
    ∧ _active_validations w1 = _active_validations w.
Proof.
  intros Hrender. unfold _generate_alert_message.
  erewrite bind_ok; [|reflexivity].
  match goal with
  | |- context [alert_prompt env report ?name ?id ?now] =>
      destruct (Hrender now) as [prompt Hprompt]
  end.
  erewrite bind_ok; [|unfold lift; by rewrite Hprompt].
  unfold try_except, mbind, M_bind, bind, perform. cbn.
  destruct (agent_run env _ AlertChat prompt); by do 2 eexists.
Qed.

(** X21: the dispatch.  An agent whose configuration is enabled, on a
    report that reaches one of the configured thresholds, composes the
    message and dispatches it, provided the prompt of the message
    renders: the stage yields the data it was given with
    [alerts_sent=True], the message and the results of the sends, and its
    last interactions are those of the dispatch.  The flag
    [alert_triggered] of the report plays no part in this. *)
Theorem threshold_met_is_dispatched (cfg : AlertConfig.t)
    (validation_data : WorkflowData.t) (report : AnomalyReport.t) (w : World) :
  AlertConfig.enabled cfg = true →
  WorkflowData.anomaly_report validation_data = Some report →
  threshold_met cfg report →
  (∀ now, ∃ prompt,
      alert_prompt env report
        (default "Unknown Configuration" (WorkflowData.config_name validation_data))
        (WorkflowData.validation_id validation_data) now = Ok prompt) →
  ∃ message w1 results out w',
    _generate_alert_message env report validation_data w = (Ok message, w1)
    ∧ process_alerts env (AlertAgent.mk (Some cfg)) validation_data w = (Ok out, w')
    ∧ history w' = dispatch_events cfg ++ history w1
    ∧ WorkflowData.alerts_sent out = Some true
    ∧ WorkflowData.alert_message out = Some message
    ∧ WorkflowData.alert_results out = Some results
    ∧ WorkflowData.anomaly_report out = Some report
    ∧ WorkflowData.verification_results out
      = WorkflowData.verification_results validation_data.
Proof.
  intros Henabled Hreport Hmet Hrender.
  destruct (generate_alert_message_returns report validation_data w Hrender)
    as (message & w1 & Hmessage & _).
  destruct (send_alerts_returns cfg message report w1)
    as (results & w' & Hsend & Hhistory & _ & _).
  exists message, w1, results. do 2 eexists.
  split; [exact Hmessage|]. split.
  { unfold process_alerts. rewrite Hreport. cbn [alert_config].
    apply should_trigger_threshold_met in Hmet. rewrite Hmet, Henabled.
    cbn [negb orb].
    erewrite bind_ok; [|exact Hmessage].
    erewrite bind_ok; [|exact Hsend]. reflexivity. }
  done.
Qed.

(** X22: no dispatch.  Unless the agent has a configuration that is
    enabled and the report reaches one of its thresholds, the stage
    composes no message and contacts no one: the state of the world is
    left as it was, and the data is yielded with [alerts_sent=False] and
    one of the two fixed messages.  In particular an agent without a
    configuration never dispatches, whatever [alert_triggered] says. *)
Theorem no_dispatch_below_threshold (self : AlertAgent.t)
    (validation_data : WorkflowData.t) (w : World) :
  (∀ cfg report,
      alert_config self = Some cfg →
      WorkflowData.anomaly_report validation_data = Some report →
      AlertConfig.enabled cfg = true →
      ¬ threshold_met cfg report) →
  ∃ out,
    process_alerts env self validation_data w = (Ok out, w)
    ∧ WorkflowData.alerts_sent out = Some false
    ∧ WorkflowData.alert_results out = WorkflowData.alert_results validation_data
    ∧ WorkflowData.anomaly_report out = WorkflowData.anomaly_report validation_data
    ∧ (WorkflowData.alert_message out = Some "No anomaly report generated"
       ∨ WorkflowData.alert_message out
         = Some "Alert threshold not met or alerts disabled").
Proof.
  intros Hquiet. unfold process_alerts.
  destruct (WorkflowData.anomaly_report validation_data) as [report|] eqn:Hreport;
    [|eexists; split; [reflexivity|]; cbn; auto].
  destruct self as [[cfg|]]; cbn [alert_config]; cycle 1.
  { rewrite orb_true_r. eexists. split; [reflexivity|]. cbn. auto. }
  destruct (AlertConfig.enabled cfg) eqn:Henabled; cycle 1.
  { rewrite orb_true_r. eexists. split; [reflexivity|]. cbn. auto. }
  destruct (_should_trigger_alert (AlertAgent.mk (Some cfg)) report) eqn:Htrigger.
  { apply should_trigger_threshold_met in Htrigger.
    by destruct (Hquiet cfg report). }
  eexists. split; [reflexivity|]. cbn. auto.
Qed.
End AlertDispatcher.

Lemma send_alerts_all_channels_witness :
  ∃ results w',
    AlertAgent._send_alerts silent_env (AlertAgent.mk (Some every_channel))
      "Anomalies detected" critical_report w0 = (Ok results, w')
    ∧ dom results = {[ "email"; "slack"; "webhook" ]}.
Proof.
  destruct (send_alerts_all_channels silent_env every_channel "Anomalies detected"
              critical_report w0)
    as (results & w' & Hrun & Hdom & _); try reflexivity; [discriminate|].
  by exists results, w'.
Defined.

Lemma threshold_met_is_dispatched_witness :
  ∃ out w',
    AlertAgent.process_alerts silent_env (AlertAgent.mk (Some every_channel))
      (report_data critical_report) w0 = (Ok out, w')
    ∧ WorkflowData.alerts_sent out = Some true.
Proof.
  destruct (threshold_met_is_dispatched silent_env every_channel
              (report_data critical_report) critical_report w0)
    as (message & w1 & results & out & w' & _ & Hrun & _ & Hsent & _).
  - reflexivity.
  - reflexivity.
  - left. cbn. lia.
  - intros now. by exists "alert".
  - by exists out, w'.
Defined.

Lemma no_dispatch_below_threshold_witness :
  ∃ out,
    AlertAgent.process_alerts silent_env (AlertAgent.mk (Some alerts_disabled))
      (report_data critical_report) w0 = (Ok out, w0)
    ∧ WorkflowData.alerts_sent out = Some false.
Proof.
  destruct (no_dispatch_below_threshold silent_env (AlertAgent.mk (Some alerts_disabled))
              (report_data critical_report) w0)
    as (out & Hrun & Hsent & _).
  - intros cfg report [= <-] _ Henabled. discriminate Henabled.
  - by exists out.
Defined.

(** ** The orchestrator *)

Section Orchestration.
Context (env : Env).
Import ValidationOrchestrator ValidationOrchestrationService.

(** The output the loop of [run_validation] ends with. *)
Lemma final_output_of_last (events : list WorkflowEvent) (output : WorkflowData.t) :
  last_output events output → final_output_of events = Some output.
Proof.
  intros (before & after & -> & Hafter). unfold final_output_of.
  rewrite foldl_app. cbn [foldl].
  induction Hafter as [|event after -> _ IH]; [done | exact IH].
Qed.

Lemma count_passed_failed (verification_results : list VerificationResult.t) :
  count_passed verification_results + count_failed verification_results
  = Z.of_nat (length verification_results).
Proof. apply passed_failed_partition. Qed.

(** X23: a run with output.  The workflow is created and streams its
    events; the last output among them is not empty.  The run returns a
    result.  When the clock read at completion is not before the clock
    read at the start, the run is reported COMPLETED, with the time
    between the two readings as its duration, with the snapshots of that
    output, with [rules_checked] the number of rules of the
    configuration, with every outcome of the output counted once as
    passed or failed, and with the anomaly count of the output's report.
    When the wall clock was set back in between, the duration is negative
    and pydantic rejects the result: the run is reported FAILED with
    "Validation error: " and the text of the validation error, without
    the snapshots, although the workflow delivered its output. *)
Theorem completed_run_tallies (config : ServiceConfig.t) (validation_id : UUID)
    (alert_config : option AlertConfig.t) (w : World)
    (events : list WorkflowEvent) (output : WorkflowData.t) :
  let started := (utcnow env w).2 in
  let elapsed := tick env (EvRunStream :: EvCreateWorkflow :: history started) in
  create_workflow env (history started) config alert_config = Ok tt →
  run_stream env (EvCreateWorkflow :: history started)
    ([ServiceConfig.primary_service config] ++ ServiceConfig.dependent_services config)
  = Ok events →
  last_output events output →
  WorkflowData.nonempty output = true →
  (∀ report, WorkflowData.anomaly_report output = Some report →
             0 <= AnomalyReport.total_anomalies report) →
  ∃ result w',
    run_validation env config validation_id alert_config w = (Ok result, w')
    ∧ (0 <= elapsed →
       ValidationResult.status result = COMPLETED
       ∧ ValidationResult.error_message result = None
       ∧ ValidationResult.duration_seconds result = Some (elapsed # 1000000)
       ∧ ValidationResult.data_snapshots result
         = default [] (WorkflowData.snapshots output)
       ∧ ValidationResult.rules_checked result
         = Z.of_nat (length (ServiceConfig.validation_rules config))
       ∧ ValidationResult.rules_passed result + ValidationResult.rules_failed result
         = Z.of_nat (length (default [] (WorkflowData.verification_results output)))
       ∧ ValidationResult.anomalies_detected result
         = match WorkflowData.anomaly_report output with
           | Some report => AnomalyReport.total_anomalies report
           | None => 0
           end)
    ∧ (elapsed < 0 →
       ValidationResult.status result = FAILED
       ∧ ValidationResult.error_message result
         = Some ("Validation error: " +:+ error_text env ValidationError)
       ∧ ValidationResult.duration_seconds result = None
       ∧ ValidationResult.data_snapshots result = []).
Proof.
  intros started elapsed Hcreate Hstream Hlast Hnonempty Hreport.
  assert (utcnow env w = (Ok (clock started), started)) as Hnow by reflexivity.
  clearbody started.
  apply final_output_of_last in Hlast.
  unfold run_validation. erewrite bind_ok; [|exact Hnow].
  set (body := run_guarded env config validation_id alert_config (clock started)).
  assert (body started
          = check_ValidationResult env
              (ValidationResult.mk validation_id (ServiceConfig.config_id config)
                 COMPLETED (clock started) (Some (clock started + elapsed))
                 (Some ((clock started + elapsed - clock started) # 1000000))
                 (default [] (WorkflowData.snapshots output))
                 (Z.of_nat (length (ServiceConfig.validation_rules config)))
                 (count_passed (default [] (WorkflowData.verification_results output)))
                 (count_failed (default [] (WorkflowData.verification_results output)))
                 (match WorkflowData.anomaly_report output with
                  | Some report => AnomalyReport.total_anomalies report
                  | None => 0
                  end)
                 None
                 [("verification_summary",
                    PDict [("total_rules",
                             PInt (Z.of_nat
                                     (length (default []
                                                (WorkflowData.verification_results
                                                   output)))));
                           ("passed",
                             PInt (count_passed
                                     (default []
                                        (WorkflowData.verification_results output))));
                           ("failed",
                             PInt (count_failed
                                     (default []
                                        (WorkflowData.verification_results output))))]);
                  ("alert_sent",
                    PBool (default false (WorkflowData.alerts_sent output)));
                  ("alert_message",
                    match WorkflowData.alert_message output with
                    | Some s => PStr s
                    | None => PNone
                    end)])
              (mkWorld (EvClock :: EvRunStream :: EvCreateWorkflow :: history started)
                 (clock started + elapsed) (_active_validations started))) as Hbody.
  { subst body. unfold run_guarded.
    erewrite bind_ok; [|unfold perform; by rewrite Hcreate].
    erewrite bind_ok; [|unfold perform; cbn [history]; by rewrite Hstream].
    rewrite Hlast. unfold truthy_output. rewrite Hnonempty.
    erewrite bind_ok; [|reflexivity]. reflexivity. }
  pose proof (count_passed_failed
                (default [] (WorkflowData.verification_results output))) as Htally.
  assert (0 <= count_passed (default [] (WorkflowData.verification_results output))
          ∧ 0 <= count_failed (default [] (WorkflowData.verification_results output)))
    as [Hpassed Hfailed] by (unfold count_passed, count_failed; lia).
  assert (0 <= match WorkflowData.anomaly_report output with
               | Some report => AnomalyReport.total_anomalies report
               | None => 0
               end) as Hanomalies
    by (destruct (WorkflowData.anomaly_report output); [by apply Hreport | done]).
  destruct (Z_le_gt_dec 0 elapsed) as [Hforward|Hback].
  - do 2 eexists. split.
    { apply try_except_ok. rewrite Hbody. unfold check_ValidationResult.
      match goal with
      | |- (if ?c then _ else _) _ = _ => assert (c = true) as ->
      end; [|reflexivity].
      cbn. rewrite !andb_true_iff, !Z.leb_le. repeat split; lia. }
    split; [|lia]. intros _. cbn.
    repeat split; try done.
    do 2 f_equal. lia.
  - do 2 eexists. split.
    { erewrite try_except_raise; cycle 1.
      { rewrite Hbody. unfold check_ValidationResult.
        match goal with
        | |- (if ?c then _ else _) _ = _ => assert (c = false) as ->
        end; [|reflexivity].
        cbn. assert ((0 <=? clock started + elapsed - clock started) = false) as ->
          by (apply Z.leb_gt; lia).
        reflexivity. }
      erewrite bind_ok; [|reflexivity]. apply failed_result_returns. }
    split; [lia|]. intros _. done.
Qed.

(** X24: no output.  The workflow is created and streams its events, but
    none of them is an output, or the last output is an empty dict: the
    run is reported FAILED with "Workflow completed but no output
    received", with no snapshot and no tally. *)
Theorem empty_output_is_failure (config : ServiceConfig.t) (validation_id : UUID)
    (alert_config : option AlertConfig.t) (w : World) (events : list WorkflowEvent) :
  let started := (utcnow env w).2 in
  create_workflow env (history started) config alert_config = Ok tt →
  run_stream env (EvCreateWorkflow :: history started)
    ([ServiceConfig.primary_service config] ++ ServiceConfig.dependent_services config)
  = Ok events →
  Forall (fun event => event = OtherWorkflowEvent) events
  ∨ (∃ output, last_output events output ∧ WorkflowData.nonempty output = false) →
  ∃ result w',
    run_validation env config validation_id alert_config w = (Ok result, w')
    ∧ ValidationResult.status result = FAILED
    ∧ ValidationResult.error_message result
      = Some "Workflow completed but no output received"
    ∧ ValidationResult.data_snapshots result = []
    ∧ ValidationResult.rules_checked result = 0.
Proof.
  intros started Hcreate Hstream Hnone.
  assert (utcnow env w = (Ok (clock started), started)) as Hnow by reflexivity.
  clearbody started.
  assert (truthy_output (final_output_of events) = None) as Houtput.
  { destruct Hnone as [Hother|(output & Hlast & Hempty)].
    - replace (final_output_of events) with (@None WorkflowData.t); [done|].
      unfold final_output_of. clear Hstream. generalize (@None WorkflowData.t).
      induction Hother as [|event events -> _ IH]; [done | exact IH].
    - rewrite (final_output_of_last _ _ Hlast). unfold truthy_output. by rewrite Hempty. }
  unfold run_validation. erewrite bind_ok; [|exact Hnow].
  do 2 eexists. split.
  { apply try_except_ok. unfold run_guarded.
    erewrite bind_ok; [|unfold perform; by rewrite Hcreate].
    erewrite bind_ok; [|unfold perform; cbn [history]; by rewrite Hstream].
    rewrite Houtput. erewrite bind_ok; [|reflexivity].
    apply failed_result_returns. }
  done.
Qed.

(** X25: a run that breaks.  When the workflow cannot be created, or its
    stream raises, the run does not raise: it is reported FAILED with
    "Validation error: " and the text of the exception, no snapshot, no
    tally and no duration.  After a failed creation the workflow is never
    run. *)
Theorem broken_run_is_reported (config : ServiceConfig.t) (validation_id : UUID)
    (alert_config : option AlertConfig.t) (w : World) (e : Exn) :
  let started := (utcnow env w).2 in
  create_workflow env (history started) config alert_config = Raise e
  ∨ (create_workflow env (history started) config alert_config = Ok tt
     ∧ run_stream env (EvCreateWorkflow :: history started)
         ([ServiceConfig.primary_service config]
          ++ ServiceConfig.dependent_services config) = Raise e) →
  ∃ result w',
    run_validation env config validation_id alert_config w = (Ok result, w')
    ∧ ValidationResult.status result = FAILED
    ∧ ValidationResult.error_message result = Some ("Validation error: " +:+ exn_str e)
    ∧ ValidationResult.data_snapshots result = []
    ∧ ValidationResult.duration_seconds result = None
    ∧ ValidationResult.completed_at result = Some (clock w')
    ∧ (create_workflow env (history started) config alert_config = Raise e →
       history w' = EvClock :: EvCreateWorkflow :: history started).
Proof.
  intros started Hbroken.
  assert (utcnow env w = (Ok (clock started), started)) as Hnow by reflexivity.
  clearbody started.
  unfold run_validation. erewrite bind_ok; [|exact Hnow].
  destruct Hbroken as [Hcreate|[Hcreate Hstream]].
  - do 2 eexists. split.
    { erewrite try_except_raise; cycle 1.
      { unfold run_guarded. erewrite bind_raise; [reflexivity|].
        unfold perform. by rewrite Hcreate. }
      erewrite bind_ok; [|reflexivity]. apply failed_result_returns. }
    cbn. repeat split; done.
  - do 2 eexists. split.
    { erewrite try_except_raise; cycle 1.
      { unfold run_guarded.
        erewrite bind_ok; [|unfold perform; by rewrite Hcreate].
        erewrite bind_raise; [reflexivity|].
        unfold perform. cbn [history]. by rewrite Hstream. }
      erewrite bind_ok; [|reflexivity]. apply failed_result_returns. }
    cbn. repeat split; try done. intros Hcreate'. congruence.
Qed.

(** A run returns a result for its ids and leaves the registry of runs
    alone. *)
Lemma run_validation_returns (config : ServiceConfig.t) (validation_id : UUID)
    (alert_config : option AlertConfig.t) (w : World) :
  ∃ result w',
    run_validation env config validation_id alert_config w = (Ok result, w')
    ∧ _active_validations w' = _active_validations w
    ∧ ValidationResult.validation_id result = validation_id
    ∧ ValidationResult.config_id result = ServiceConfig.config_id config
    ∧ (ValidationResult.status result = COMPLETED
       ∨ ValidationResult.status result = FAILED).
Proof.
  unfold run_validation, run_guarded, failed_result, check_ValidationResult,
    try_except, mbind, M_bind, bind, perform, utcnow, py_error, raise, ret.
  cbn.
  repeat match goal with
         | |- context [create_workflow env ?h ?c ?a] =>
             destruct (create_workflow env h c a); cbn
         | |- context [run_stream env ?h ?s] => destruct (run_stream env h s); cbn
         | |- context [truthy_output ?o] => destruct (truthy_output o); cbn
         | |- context [if ?c then _ else _] => destruct c; cbn
         end;
    do 2 eexists; (split; [reflexivity|]); cbn; auto.
Qed.

(** X26: the registry of runs.  [start_validation] never raises.  It
    returns the result of the run, COMPLETED or FAILED, for the ids it
    was given, and leaves it in the registry under the run's id, where
    [get_validation_status] finds it; the entries of other runs are as
    they were.  A run that has been through it cannot be cancelled any
    more. *)
Theorem start_validation_registers (config : ServiceConfig.t) (validation_id : UUID)
    (alert_config : option AlertConfig.t) (w : World) :
  ∃ result w',
    start_validation env config validation_id alert_config w = (Ok result, w')
    ∧ _active_validations w' = <[validation_id := result]> (_active_validations w)
    ∧ get_validation_status validation_id w' = (Ok (Some result), w')
    ∧ (∀ other, other ≠ validation_id →
         get_validation_status other w' = (Ok (_active_validations w !! other), w'))
    ∧ ValidationResult.validation_id result = validation_id
    ∧ ValidationResult.config_id result = ServiceConfig.config_id config
    ∧ (ValidationResult.status result = COMPLETED
       ∨ ValidationResult.status result = FAILED)
    ∧ cancel_validation env validation_id w' = (Ok false, w').
Proof.
  unfold start_validation.
  assert (∃ w1, begin_validation env config validation_id w = (Ok tt, w1)
                ∧ _active_validations w1
                  = <[validation_id :=
                        ValidationResult.mk validation_id (ServiceConfig.config_id config)
                          IN_PROGRESS (clock w1) None None [] 0 0 0 0 None []]>
                      (_active_validations w)) as (w1 & Hbegin & Hregistry1).
  { eexists. split; [reflexivity|]. reflexivity. }
  destruct (run_validation_returns config validation_id alert_config w1)
    as (result & w2 & Hrun & Hregistry2 & Hid & Hconfig & Hstatus).
  exists result. eexists. split.
  { erewrite bind_ok; [|exact Hbegin].
    erewrite bind_ok; [|exact Hrun].
    erewrite bind_ok; [|reflexivity]. reflexivity. }
  cbn [_active_validations]. rewrite Hregistry2, Hregistry1, insert_insert_eq.
  split; [done|].
  unfold get_validation_status, registered, cancel_validation, registered,
    mbind, M_bind, bind. cbn [_active_validations].
  rewrite lookup_insert_eq.
  split; [done|]. split.
  { intros other Hother. by rewrite lookup_insert_ne. }
  split; [done|]. split; [done|]. split; [done|].
  by destruct Hstatus as [-> | ->].
Qed.
End Orchestration.

Lemma completed_run_tallies_witness :
  ∃ result w',
    ValidationOrchestrator.run_validation staged_env demo_config 7 None w0
    = (Ok result, w')
    ∧ ValidationResult.status result = COMPLETED
    ∧ ValidationResult.rules_checked result = 1
    ∧ ValidationResult.rules_passed result + ValidationResult.rules_failed result = 2.
Proof.
  destruct (completed_run_tallies staged_env demo_config 7 None w0
              [OtherWorkflowEvent; WorkflowOutputEvent staged_output; OtherWorkflowEvent]
              staged_output)
    as (result & w' & Hrun & Hforward & _).
  - reflexivity.
  - reflexivity.
  - exists [OtherWorkflowEvent], [OtherWorkflowEvent]. split; [reflexivity|].
    by repeat constructor.
  - reflexivity.
  - intros report [= <-]. cbn. lia.
  - destruct Hforward as (Hstatus & _ & _ & _ & Hchecked & Htally & _); [cbn; lia|].
    exists result, w'. split; [exact Hrun|]. split; [exact Hstatus|].
    split; [exact Hchecked | exact Htally].
Defined.

Lemma empty_output_is_failure_witness :
  ∃ result w',
    ValidationOrchestrator.run_validation hollow_env demo_config 7 None w0
    = (Ok result, w')
    ∧ ValidationResult.status result = FAILED
    ∧ ValidationResult.error_message result
      = Some "Workflow completed but no output received".
Proof.
  destruct (empty_output_is_failure hollow_env demo_config 7 None w0
              [WorkflowOutputEvent
                 (WorkflowData.mk None None None None None None None None [])])
    as (result & w' & Hrun & Hstatus & Herror & _).
  - reflexivity.
  - reflexivity.
  - right. exists (WorkflowData.mk None None None None None None None None []).
    split; [|reflexivity].
    exists [], []. split; [reflexivity | constructor].
  - exists result, w'. split; [exact Hrun|]. split; [exact Hstatus | exact Herror].
Defined.

Lemma broken_run_is_reported_witness :
  ∃ result w',
    ValidationOrchestrator.run_validation failing_env demo_config 7 None w0
    = (Ok result, w')
    ∧ ValidationResult.status result = FAILED
    ∧ ValidationResult.error_message result = Some "Validation error: executor failed".
Proof.
  destruct (broken_run_is_reported failing_env demo_config 7 None w0 broken_stream)
    as (result & w' & Hrun & Hstatus & Herror & _).
  - right. split; reflexivity.
  - exists result, w'. split; [exact Hrun|]. split; [exact Hstatus | exact Herror].
Defined.

(** ** The scheduler *)

Section Scheduling.
Context (uuid_text : UUID -> string).
Context (crontab_error : string -> option Exn).
Import ValidationScheduler.

Lemma schedule_validation_ok (self : t) (config : ServiceConfig.t) (trigger : Trigger) :
  ServiceConfig.enabled config = true →
  trigger_for crontab_error config = Ok trigger →
  schedule_validation uuid_text crontab_error self config
  = (Ok tt,
     mk (<[job_id_of uuid_text (ServiceConfig.config_id config)
           := Job.mk trigger config 1]> (jobs self))
        (<[ServiceConfig.config_id config
           := job_id_of uuid_text (ServiceConfig.config_id config)]>
           (_scheduled_jobs self))).
Proof.
  intros Henabled Htrigger. unfold schedule_validation.
  rewrite Henabled, Htrigger. cbn [negb].
  destruct (has_job self _); cbn [jobs _scheduled_jobs]; [|done].
  by rewrite insert_delete_eq.
Qed.

(** X27: scheduling.  For an enabled configuration whose trigger
    resolves, [schedule_validation] leaves exactly one job under the id
    of the configuration, with that trigger, and records the id under the
    configuration; the other jobs and records are as they were.
    Scheduling the same configuration again changes nothing: the job is
    replaced by itself. *)
Theorem schedule_validation_idempotent (self : t) (config : ServiceConfig.t)
    (trigger : Trigger) :
  ServiceConfig.enabled config = true →
  trigger_for crontab_error config = Ok trigger →
  ∃ self',
    schedule_validation uuid_text crontab_error self config = (Ok tt, self')
    ∧ jobs self'
      = <[job_id_of uuid_text (ServiceConfig.config_id config)
          := Job.mk trigger config 1]> (jobs self)
    ∧ _scheduled_jobs self'
      = <[ServiceConfig.config_id config
          := job_id_of uuid_text (ServiceConfig.config_id config)]>
          (_scheduled_jobs self)
    ∧ schedule_validation uuid_text crontab_error self' config = (Ok tt, self').
Proof.
  intros Henabled Htrigger. eexists. split; [by apply schedule_validation_ok|].
  split; [done|]. split; [done|].
  rewrite (schedule_validation_ok _ _ trigger) by done.
  cbn [jobs _scheduled_jobs]. by rewrite !insert_insert_eq.
Qed.

(** X28: scheduling and unscheduling.  A configuration that the
    scheduler does not know is scheduled and then unscheduled: the
    scheduler is as it was before. *)
Theorem unschedule_undoes_schedule (self : t) (config : ServiceConfig.t)
    (trigger : Trigger) :
  ServiceConfig.enabled config = true →
  trigger_for crontab_error config = Ok trigger →
  jobs self !! job_id_of uuid_text (ServiceConfig.config_id config) = None →
  _scheduled_jobs self !! ServiceConfig.config_id config = None →
  unschedule_validation
    (schedule_validation uuid_text crontab_error self config).2
    (ServiceConfig.config_id config)
  = self.
Proof.
  intros Henabled Htrigger Hjob Hrecord.
  rewrite (schedule_validation_ok _ _ trigger) by done.
  unfold unschedule_validation, has_job. cbn [snd jobs _scheduled_jobs].
  rewrite !lookup_insert_eq. cbn [is_some andb].
  destruct self as [js recs]. cbn in *.
  rewrite !delete_insert_id by done.
  by assert (str_truthy (job_id_of uuid_text (ServiceConfig.config_id config)) = true)
    as -> by reflexivity.
Qed.

(** X29: a schedule that cannot be renewed.  A configuration is
    scheduled, and is scheduled again with a cron expression that is
    rejected.  The call raises after it has removed the job: the job is
    gone, but the configuration is still recorded as scheduled.  From then
    on [unschedule_validation] leaves the record where it is, and
    [_load_configurations] takes the configuration for scheduled and does
    not schedule it, whatever it now holds. *)
Theorem rejected_cron_leaves_record (self : t) (config : ServiceConfig.t)
    (job : Job.t) (e : Exn) :
  ServiceConfig.enabled config = true →
  trigger_for crontab_error config = Raise e →
  jobs self !! job_id_of uuid_text (ServiceConfig.config_id config) = Some job →
  _scheduled_jobs self !! ServiceConfig.config_id config
  = Some (job_id_of uuid_text (ServiceConfig.config_id config)) →
  ∃ self',
    schedule_validation uuid_text crontab_error self config = (Raise e, self')
    ∧ jobs self' = delete (job_id_of uuid_text (ServiceConfig.config_id config)) (jobs self)
    ∧ _scheduled_jobs self' = _scheduled_jobs self
    ∧ unschedule_validation self' (ServiceConfig.config_id config) = self'
    ∧ ∀ renewed,
        ServiceConfig.config_id renewed = ServiceConfig.config_id config →
        _load_configurations uuid_text crontab_error self' (Ok [Ok renewed]) = self'.
Proof.
  intros Henabled Htrigger Hjob Hrecord.
  exists (mk (delete (job_id_of uuid_text (ServiceConfig.config_id config)) (jobs self))
            (_scheduled_jobs self)).
  split.
  { unfold schedule_validation, has_job. rewrite Henabled, Hjob, Htrigger. reflexivity. }
  cbn [jobs _scheduled_jobs]. split; [done|]. split; [done|]. split.
  - unfold unschedule_validation, has_job. cbn [jobs _scheduled_jobs].
    rewrite Hrecord, lookup_delete_eq. cbn [is_some]. by rewrite andb_false_r.
  - intros renewed Hid. unfold _load_configurations. cbn [load_each _scheduled_jobs].
    by rewrite Hid, Hrecord.
Qed.

(** Scheduling a configuration leaves the records of the others alone. *)
Lemma schedule_validation_keeps_other (self : t) (config : ServiceConfig.t)
    (config_id : UUID) :
  config_id ≠ ServiceConfig.config_id config →
  _scheduled_jobs (schedule_validation uuid_text crontab_error self config).2 !! config_id
  = _scheduled_jobs self !! config_id.
Proof.
  intros Hother. unfold schedule_validation.
  destruct (ServiceConfig.enabled config), (has_job self _),
    (trigger_for crontab_error config);
    cbn [negb snd _scheduled_jobs]; by rewrite ?lookup_insert_ne.
Qed.

Lemma load_each_keeps_records (db_configs : list (result ServiceConfig.t)) :
  ∀ (self : t) (config_id : UUID) (job_id : string),
    _scheduled_jobs self !! config_id = Some job_id →
    _scheduled_jobs (load_each uuid_text crontab_error self db_configs).2 !! config_id
    = Some job_id.
Proof.
  induction db_configs as [|[config|e] rest IH]; intros self config_id job_id Hrecord;
    cbn [load_each]; [done| |done].
  destruct (_scheduled_jobs self !! ServiceConfig.config_id config) as [known|] eqn:Hknown;
    cbn [is_some]; [by apply IH|].
  assert (config_id ≠ ServiceConfig.config_id config) as Hother by congruence.
  pose proof (schedule_validation_keeps_other self config config_id Hother) as Hkept.
  destruct (schedule_validation uuid_text crontab_error self config) as [[[]|e] self'];
    cbn [snd] in *.
  - apply IH. by rewrite Hkept.
  - by rewrite Hkept.
Qed.

Lemma load_each_known (db_configs : list (result ServiceConfig.t)) (self : t) :
  Forall (fun stored =>
            ∃ config, stored = Ok config
                      ∧ is_Some (_scheduled_jobs self
                                   !! ServiceConfig.config_id config)) db_configs →
  load_each uuid_text crontab_error self db_configs = (Ok tt, self).
Proof.
  induction 1 as [|stored rest (config & -> & [job_id Hknown]) _ IH]; [done|].
  cbn [load_each]. by rewrite Hknown.
Qed.

(** X30: loading.  [_load_configurations] never takes back what is
    scheduled: a configuration that is recorded as scheduled keeps its
    record, whatever the query returns and wherever the loading stops.
    When every stored configuration is recorded already, the loading
    changes nothing at all. *)
Theorem load_configurations_keeps_records (self : t)
    (get_all_enabled : result (list (result ServiceConfig.t)))
    (config_id : UUID) (job_id : string) :
  _scheduled_jobs self !! config_id = Some job_id →
  _scheduled_jobs (_load_configurations uuid_text crontab_error self get_all_enabled)
    !! config_id = Some job_id
  ∧ (∀ db_configs,
        get_all_enabled = Ok db_configs →
        Forall (fun stored =>
                  ∃ config, stored = Ok config
                            ∧ is_Some (_scheduled_jobs self
                                         !! ServiceConfig.config_id config)) db_configs →
        _load_configurations uuid_text crontab_error self get_all_enabled = self).
Proof.
  intros Hrecord. split.
  - destruct get_all_enabled as [db_configs|e]; [|done].
    by apply load_each_keeps_records.
  - intros db_configs -> Hknown. unfold _load_configurations.
    by rewrite load_each_known.
Qed.
End Scheduling.

Lemma schedule_validation_idempotent_witness :
  ∃ self',
    ValidationScheduler.schedule_validation numbered_uuid nightly_only idle_scheduler
      nightly_config = (Ok tt, self')
    ∧ ValidationScheduler.schedule_validation numbered_uuid nightly_only self'
        nightly_config = (Ok tt, self').
Proof.
  destruct (schedule_validation_idempotent numbered_uuid nightly_only idle_scheduler
              nightly_config (CronTrigger "0 2 * * *"))
    as (self' & Hfirst & _ & _ & Hsecond); [reflexivity | reflexivity |].
  by exists self'.
Defined.

Lemma unschedule_undoes_schedule_witness :
  ValidationScheduler.unschedule_validation
    (ValidationScheduler.schedule_validation numbered_uuid nightly_only idle_scheduler
       nightly_config).2 2
  = idle_scheduler.
Proof.
  apply (unschedule_undoes_schedule numbered_uuid nightly_only idle_scheduler
           nightly_config (CronTrigger "0 2 * * *")); reflexivity.
Defined.

Lemma rejected_cron_leaves_record_witness :
  ∃ self',
    ValidationScheduler.schedule_validation numbered_uuid nightly_only nightly_scheduler
      mistyped_config
    = (Raise (mkExn OtherException "Wrong number of fields; got 2, expected 5"), self')
    ∧ ValidationScheduler.unschedule_validation self' 2 = self'
    ∧ ValidationScheduler._load_configurations numbered_uuid nightly_only self'
        (Ok [Ok nightly_config]) = self'.
Proof.
  destruct (rejected_cron_leaves_record numbered_uuid nightly_only nightly_scheduler
              mistyped_config (Job.mk (CronTrigger "0 2 * * *") nightly_config 1)
              (mkExn OtherException "Wrong number of fields; got 2, expected 5"))
    as (self' & Hrun & _ & _ & Hunschedule & Hload);
    [reflexivity | reflexivity | vm_compute; reflexivity | vm_compute; reflexivity |].
  exists self'. split; [exact Hrun|]. split; [exact Hunschedule|].
  by apply Hload.
Defined.

Lemma load_configurations_keeps_records_witness :
  ValidationScheduler._scheduled_jobs
    (ValidationScheduler._load_configurations numbered_uuid nightly_only
       nightly_scheduler (Ok [Ok mistyped_config; Ok demo_config])) !! 2%N
  = Some "validation_2".
Proof.
  apply (load_configurations_keeps_records numbered_uuid nightly_only nightly_scheduler
           (Ok [Ok mistyped_config; Ok demo_config]) 2%N "validation_2").
  vm_compute. reflexivity.
Defined.

Lemma generate_report_with_fallback_witness :
  ∃ report w',
    AnomalyDetectionAgent._generate_report silent_env 7 [critical_anomaly] [] w0
    = (Ok report, w')
    ∧ length (AnomalyReport.recommendations report) = 5%nat.
Proof.
  destruct (generate_report_with_fallback silent_env 7%N [critical_anomaly] [] w0
              "recommend" timed_out)
    as (report & w' & Hrun & Hrecommendations); [done | reflexivity | reflexivity |].
  exists report, w'. split; [exact Hrun|]. by rewrite Hrecommendations.
Defined.
